(** * rag_doc_manager: index lifecycle, ingestion, scoped search and delete

    A shallow embedding of the document manager of [src/rag_doc_manager]:
    the scope filter of the query engine, the upload and delete paths of
    [AzureDocumentManager], the registry updates of [IndexManager], the
    chunk addressing of [DocumentProcessor] and tenant registration in
    [CustomerIndexSchemaManager].

    The external services (document database, search service, blob
    container) are modelled as components of one [World]; Python code that
    reads and writes them becomes a state-and-exception computation over
    that world. *)

From Stdlib Require Import Ascii String.
From stdpp Require Import gmap strings list pretty.

(** ** Python values *)

(** [f"{x}"] for an [Optional[str]]: [None] prints as the word None. *)
Definition py_str (o : option string) : string := default "None" o.

(** Truthiness of an [Optional[str]]: [None] and the empty string are falsy. *)
Definition truthy (o : option string) : bool :=
  match o with
  | Some s => negb (String.eqb s "")
  | None => false
  end.

(** [o == s] for an [Optional[str]] [o] and a string literal [s]. *)
Definition py_eq (o : option string) (s : string) : bool :=
  match o with
  | Some x => String.eqb x s
  | None => false
  end.

(** [sep.join(l)]. *)
Fixpoint join (sep : string) (l : list string) : string :=
  match l with
  | [] => ""
  | [x] => x
  | x :: l' => x +:+ sep +:+ join sep l'
  end.

(** [str(b).lower()] for a [bool]. *)
Definition bool_lower (b : bool) : string := if b then "true" else "false".

(** [str(b)] for a [bool]. *)
Definition bool_str (b : bool) : string := if b then "True" else "False".

(** ** Exceptions and results *)

Inductive exn : Type :=
  | AssertionError (msg : string)
  | ValueError (msg : string)
  | TypeError (msg : string)
  | IndexError (msg : string)
  | ValidationError (model : string) (fields : list string)
  | IndexCreationError (msg : string)
  | Exception (msg : string).

(** [str(e)]. For a pydantic [ValidationError] only the model's name is kept. *)
Definition exn_str (e : exn) : string :=
  match e with
  | AssertionError m | ValueError m | TypeError m | IndexError m
  | IndexCreationError m | Exception m => m
  | ValidationError model _ => "validation error for " +:+ model
  end.

Inductive result (A : Type) : Type :=
  | Ok (a : A)
  | Raise (e : exn).
Arguments Ok {A} a.
Arguments Raise {A} e.

(** ** The scope filter of the query engine
    [search/adaptors/azure_ai_query_engine.py] *)

(** The values a custom filter can carry. Floats are left out. *)
Inductive scalar : Type :=
  | SStr (s : string)
  | SBool (b : bool)
  | SInt (z : Z).

Inductive filter_value : Type :=
  | FScalar (v : scalar)
  | FList (l : list scalar)
  | FOther.

(** [str(v)] *)
Definition scalar_str (v : scalar) : string :=
  match v with
  | SStr s => s
  | SBool b => bool_str b
  | SInt z => pretty z
  end.

Definition is_SStr (v : scalar) : bool :=
  match v with SStr _ => true | _ => false end.

(** One iteration of the loop over [custom_filters.items()]. *)
Definition add_custom_filter (filter_conditions : list string)
    (item : string * filter_value) : list string :=
  let '(field, value) := item in
  match value with
  | FScalar (SStr s) => filter_conditions ++ [field +:+ " eq '" +:+ s +:+ "'"]
  | FScalar (SBool b) => filter_conditions ++ [field +:+ " eq " +:+ bool_lower b]
  | FScalar (SInt z) => filter_conditions ++ [field +:+ " eq " +:+ pretty z]
  | FList ((v0 :: _) as value) =>
      if is_SStr v0 then
        let values_str := join ", " ((λ v, "'" +:+ scalar_str v +:+ "'") <$> value) in
        filter_conditions ++ [field +:+ " in (" +:+ values_str +:+ ")"]
      else
        let values_str := join ", " (scalar_str <$> value) in
        filter_conditions ++ [field +:+ " in (" +:+ values_str +:+ ")"]
  | FList [] => filter_conditions
  | FOther => filter_conditions
  end.

(** The [else] branch of the scope chain. It is entered with the list of
    conditions collected so far, which is empty there: the chain's other
    branches are the only ones that append a hierarchical condition. *)
Definition global_branch (filter_conditions : list string) : list string :=
  match filter_conditions with
  | _ :: _ =>
      let global_condition := "is_global eq true" in
      let existing_conditions := join " and " filter_conditions in
      ["(" +:+ existing_conditions +:+ ") or " +:+ global_condition]
  | [] => filter_conditions ++ ["is_global eq true"]
  end.

(** The hierarchical part of [_build_filter_expression]. *)
Definition scope_conditions (account_id user_id session_id scope : option string)
    : result (list string) :=
  let filter_conditions := [] in
  if py_eq scope "account" then
    if truthy account_id
    then Ok (filter_conditions ++ ["account_id eq '" +:+ py_str account_id +:+ "'"])
    else Raise (AssertionError "")
  else if py_eq scope "user" then
    if truthy user_id
    then Ok (filter_conditions ++ ["user_id eq '" +:+ py_str user_id +:+ "'"])
    else Raise (AssertionError "")
  else if py_eq scope "session" then
    if truthy session_id
    then Ok (filter_conditions ++ ["session_id eq '" +:+ py_str session_id +:+ "'"])
    else Raise (AssertionError "")
  else Ok (global_branch filter_conditions).

Definition _build_filter_expression
    (account_id user_id session_id scope : option string)
    (custom_filters : list (string * filter_value)) : result (option string) :=
  match scope_conditions account_id user_id session_id scope with
  | Raise e => Raise e
  | Ok filter_conditions =>
      let filter_conditions := foldl add_custom_filter filter_conditions custom_filters in
      match filter_conditions with
      | _ :: _ => Ok (Some (join " and " filter_conditions))
      | [] => Ok None
      end
  end.

(** ** Paths and file types
    [pathlib.Path], [os.path] and [processing_utils/utils.py] *)

(** [s.split(c)] for a one-character separator. *)
Fixpoint str_split (c : ascii) (s : string) : list string :=
  match s with
  | EmptyString => [""]
  | String a s' =>
      match str_split c s' with
      | p :: ps => if Ascii.eqb a c then "" :: p :: ps else String a p :: ps
      | [] => [""]
      end
  end.

(** [s.rstrip('/')]. *)
Fixpoint rstrip_slash (s : string) : string :=
  match s with
  | EmptyString => ""
  | String a s' =>
      match rstrip_slash s' with
      | EmptyString => if Ascii.eqb a "/" then "" else String a ""
      | r => String a r
      end
  end.

Definition ascii_lower (a : ascii) : ascii :=
  let n := N_of_ascii a in
  if ((65 <=? n) && (n <=? 90))%N then ascii_of_N (n + 32) else a.

(** [s.lower()] on ASCII text. *)
Fixpoint lower (s : string) : string :=
  match s with
  | EmptyString => ""
  | String a s' => String (ascii_lower a) (lower s')
  end.

(** [Path(p).name] and [os.path.basename(p)]: the text after the last
    slash (paths are taken without a trailing slash). *)
Definition basename (p : string) : string := List.last (str_split "/" p) "".

(** The name cut at its last dot, [(name[:i], name[i+1:])] with
    [i = name.rfind('.')], when [0 < i < len(name) - 1]. *)
Definition cut_suffix (name : string) : option (string * string) :=
  let parts := str_split "." name in
  let before := join "." (removelast parts) in
  let after := List.last parts "" in
  if (1 <? length parts) && negb (String.eqb before "") && negb (String.eqb after "")
  then Some (before, after) else None.

(** [Path(p).stem]. *)
Definition stem (p : string) : string :=
  match cut_suffix (basename p) with
  | Some (before, _) => before
  | None => basename p
  end.

(** [Path(p).suffix.strip('.').lower()]. *)
Definition extension (p : string) : string :=
  match cut_suffix (basename p) with
  | Some (_, after) => lower after
  | None => ""
  end.

(** [os.path.join(a, b)] on POSIX paths. *)
Definition path_join (a b : string) : string :=
  match b with
  | String "/" _ => b
  | _ =>
      if String.eqb a "" then b
      else if Ascii.eqb (List.last (list_ascii_of_string a) "/"%char) "/" then a +:+ b
      else a +:+ "/" +:+ b
  end.

Inductive FileType : Type :=
  PDF | DOCX | TXT | CSV | XLSX | PPTX | HTML | JSON | MD.

Definition FileType_value (t : FileType) : string :=
  match t with
  | PDF => "pdf" | DOCX => "docx" | TXT => "txt" | CSV => "csv" | XLSX => "xlsx"
  | PPTX => "pptx" | HTML => "html" | JSON => "json" | MD => "md"
  end.

(** [FileType(extension)]: the member with that value. *)
Definition FileType_of_value (v : string) : option FileType :=
  List.find (λ t, String.eqb (FileType_value t) v)
    [PDF; DOCX; TXT; CSV; XLSX; PPTX; HTML; JSON; MD].

(** [FileType.from_path]. *)
Definition FileType_from_path (path : string) : result FileType :=
  match FileType_of_value (extension path) with
  | Some t => Ok t
  | None => Raise (ValueError ("Unsupported file type: " +:+ extension path))
  end.

(** ** Data models *)

(** Timestamps are ISO strings handed in by the caller of an operation:
    the model does not read a clock. *)

(** [customer_manager/data_models/models.py] *)
Inductive FieldType : Type :=
  TString | TDate | TInteger | TFloat | TBoolean.

Module IndexField.
Record t : Type := mk {
  name : string;
  field_type : FieldType;
  filterable : bool;
  searchable : bool;
  sortable : bool;
  primary_key : bool
}.
End IndexField.

Module IndexSchema.
Record t : Type := mk {
  fields : list IndexField.t;
  vector_dimensions : option nat
}.
End IndexSchema.

Inductive IndexingStrategy : Type := DEFAULT | KEYED.

Module IndexingStrategyConfig.
Record t : Type := mk {
  strategy : IndexingStrategy;
  index_key : option string
}.
End IndexingStrategyConfig.

Module IndexConfig.
Record t : Type := mk {
  index_schema : IndexSchema.t;
  indexing_strategy_config : IndexingStrategyConfig.t;
  description : option string;
  additional_settings : list (string * string)
}.
End IndexConfig.

(** [validate_index_key], the validator of the field [index_key]: the
    default strategy takes no key, the keyed strategy needs one. pydantic
    runs it on a key that is given, also as an explicit [None], and not on
    the default of a key that is left out: [IndexingStrategyConfig
    (strategy=KEYED)] is built without complaint, with the key [None]. *)
Definition validate_index_key (c : IndexingStrategyConfig.t) : result (option string) :=
  match IndexingStrategyConfig.strategy c, IndexingStrategyConfig.index_key c with
  | DEFAULT, Some _ =>
      Raise (ValueError "Index key should not be provided for default indexing strategy")
  | KEYED, None =>
      Raise (ValueError "Index key should be provided for keyed indexing strategy")
  | _, v => Ok v
  end.

(** [IndexConfig.parse_obj] on the dictionary a stored configuration was
    dumped to: every field is there, so every validator runs; the field
    types hold by the types of the record, and the failure of
    [validate_index_key] comes out as the model's [ValidationError]. *)
Definition IndexConfig_parse_obj (c : IndexConfig.t) : result IndexConfig.t :=
  match validate_index_key (IndexConfig.indexing_strategy_config c) with
  | Ok _ => Ok c
  | Raise _ =>
      Raise (ValidationError "IndexConfig" ["indexing_strategy_config.index_key"])
  end.

(** A stored customer document. The stored dictionary is read with
    [.get("index_config")], so the configuration may be missing. *)
Module Customer.
Record t : Type := mk {
  customer_id : string;
  index_config : option IndexConfig.t
}.
End Customer.

(** [index_manager/data_models/models.py] *)
Module IndexRecord.
Record t : Type := mk {
  customer_id : string;
  index_name : string;
  account_ids : list string;
  document_ids : list string;
  created_at : string;
  updated_at : string;
  admin_id : string
}.

Definition with_document_ids (r : t) (ids : list string) : t :=
  mk (customer_id r) (index_name r) (account_ids r) ids
     (created_at r) (updated_at r) (admin_id r).
End IndexRecord.

(** [document_manager/data_models/models.py] *)
Module DocumentRecord.
Record t : Type := mk {
  document_id : string;
  customer_id : string;
  index_name : string;
  account_id : string;
  user_id : string;
  session_id : string;
  scope : string;
  document_url : string;
  document_name : string;
  document_size : nat;
  document_indexed : bool;
  indexed_at : string;
  chunk_ids : list string
}.
End DocumentRecord.

(** Metadata values of a loaded segment. *)
Inductive MetaValue : Type :=
  | MStr (s : string)
  | MInt (n : nat)
  | MNone.

(** langchain's [Document]: a text segment with its metadata. *)
Module LangchainDocument.
Record t : Type := mk {
  page_content : string;
  metadata : gmap string MetaValue
}.
End LangchainDocument.

(** [index/data_models/models.py], the unit that is indexed. The type [E]
    of embedding vectors is left open. *)
Module Document.
Record t (E : Type) : Type := mk {
  account_id : option string;
  user_id : option string;
  document_id : string;
  chunk_id : string;
  chunk_position : nat;
  session_id : option string;
  content : string;
  is_global : bool;
  metadata : gmap string MetaValue;
  embedding : E;
  created_at : string;
  updated_at : string;
  version : nat
}.
Arguments mk {E}.
Arguments account_id {E}.
Arguments user_id {E}.
Arguments document_id {E}.
Arguments chunk_id {E}.
Arguments chunk_position {E}.
Arguments session_id {E}.
Arguments content {E}.
Arguments is_global {E}.
Arguments metadata {E}.
Arguments embedding {E}.
Arguments created_at {E}.
Arguments updated_at {E}.
Arguments version {E}.

(** [result.get(field)] on an indexed unit, for its string fields. *)
Definition get {E} (d : t E) (field : option string) : option string :=
  match field with
  | None => None
  | Some f =>
      if String.eqb f "chunk_id" then Some (chunk_id d)
      else if String.eqb f "document_id" then Some (document_id d)
      else if String.eqb f "content" then Some (content d)
      else if String.eqb f "account_id" then account_id d
      else if String.eqb f "user_id" then user_id d
      else if String.eqb f "session_id" then session_id d
      else None
  end.
End Document.

Module IndexingResponse.
Record t : Type := mk {
  success : bool;
  document_id : string;
  error_message : option string
}.
End IndexingResponse.

(** The search service's view of an index field
    ([azure.search.documents.indexes.models.SearchField]). *)
Inductive SearchFieldDataType : Type :=
  | EdmString | EdmDateTimeOffset | EdmInt32 | EdmDouble | EdmBoolean
  | CollectionSingle.

Module SearchField.
Record t : Type := mk {
  name : string;
  type : SearchFieldDataType;
  filterable : bool;
  searchable : bool;
  sortable : bool;
  key : bool;
  vector_search_dimensions : option nat;
  vector_search_profile_name : option string
}.
End SearchField.

(** One index of the search service: its fields and its units. The service
    identifies a unit by the field named chunk_id, the field the delete
    actions of the adapter address. *)
Module SearchIndex.
Record t (E : Type) : Type := mk {
  fields : list SearchField.t;
  docs : list (Document.t E)
}.
Arguments mk {E}.
Arguments fields {E}.
Arguments docs {E}.
End SearchIndex.

(** ** The world of external services *)

Inductive level : Type := INFO | WARNING | ERROR.

Module World.
Record t (E : Type) : Type := mk {
  (** collection customer_index_mapping, keyed by customer_id *)
  customers : gmap string Customer.t;
  (** collection indexes, keyed by index_name *)
  indexes : gmap string IndexRecord.t;
  (** collection documents, keyed by document_id *)
  documents : gmap string DocumentRecord.t;
  (** the search service, by index name *)
  search : gmap string (SearchIndex.t E);
  (** names of the blobs in the container *)
  blobs : gset string;
  (** when set, the blob service fails a delete with this error *)
  blob_fault : option string;
  (** what the loggers have emitted, oldest first *)
  log : list (level * string)
}.
Arguments mk {E}.
Arguments customers {E}.
Arguments indexes {E}.
Arguments documents {E}.
Arguments search {E}.
Arguments blobs {E}.
Arguments blob_fault {E}.
Arguments log {E}.

Section Updates.
Context {E : Type}.
Implicit Type w : t E.
Definition with_customers w c : t E :=
  mk c (indexes w) (documents w) (search w) (blobs w) (blob_fault w) (log w).
Definition with_indexes w i : t E :=
  mk (customers w) i (documents w) (search w) (blobs w) (blob_fault w) (log w).
Definition with_documents w d : t E :=
  mk (customers w) (indexes w) d (search w) (blobs w) (blob_fault w) (log w).
Definition with_search w s : t E :=
  mk (customers w) (indexes w) (documents w) s (blobs w) (blob_fault w) (log w).
Definition with_blobs w b : t E :=
  mk (customers w) (indexes w) (documents w) (search w) b (blob_fault w) (log w).
Definition with_log w l : t E :=
  mk (customers w) (indexes w) (documents w) (search w) (blobs w) (blob_fault w) l.
End Updates.
End World.

(** ** Computations over the world

    A Python call becomes a function from the world to a result and the
    world it leaves; a raised exception keeps the writes made before it. *)

Definition M (E A : Type) : Type := World.t E → result A * World.t E.

Section Monad.
Context {E : Type}.

Definition ret {A} (a : A) : M E A := λ w, (Ok a, w).

Definition bind {A B} (m : M E A) (k : A → M E B) : M E B :=
  λ w, match m w with
       | (Ok a, w') => k a w'
       | (Raise e, w') => (Raise e, w')
       end.

Definition raise {A} (e : exn) : M E A := λ w, (Raise e, w).

(** [try: m  except Exception as e: h e] *)
Definition try_except {A} (m : M E A) (h : exn → M E A) : M E A :=
  λ w, match m w with
       | (Ok a, w') => (Ok a, w')
       | (Raise e, w') => h e w'
       end.

Definition get : M E (World.t E) := λ w, (Ok w, w).

Definition modify (f : World.t E → World.t E) : M E unit := λ w, (Ok tt, f w).

(** A pure computation that may raise. *)
Definition lift {A} (r : result A) : M E A := λ w, (r, w).

(** [assert b, msg] *)
Definition assert_ (b : bool) (msg : string) : M E unit :=
  if b then ret tt else raise (AssertionError msg).

(** [logger.info], [logger.warning], [logger.error] *)
Definition logger (lvl : level) (msg : string) : M E unit :=
  modify (λ w, World.with_log w (World.log w ++ [(lvl, msg)])).
End Monad.

Global Instance M_ret {E} : MRet (M E) := @ret E.
Global Instance M_bind {E} : MBind (M E) := λ A B k m, bind m k.

(** ** The document database
    [storage/database_manager/cosmosdb_manager.py]

    A [CosmosDBClient] is bound to one collection; the records of a
    collection are keyed by the client's primary key. *)

Record Collection (E V : Type) : Type := mkCollection {
  coll_get : World.t E → gmap string V;
  coll_set : World.t E → gmap string V → World.t E
}.
Arguments coll_get {E V}.
Arguments coll_set {E V}.

Definition customer_collection {E} : Collection E Customer.t :=
  mkCollection E _ World.customers World.with_customers.
Definition index_collection {E} : Collection E IndexRecord.t :=
  mkCollection E _ World.indexes World.with_indexes.
Definition document_collection {E} : Collection E DocumentRecord.t :=
  mkCollection E _ World.documents World.with_documents.

Module CosmosDBClient.
Section Methods.
Context {E V : Type} (c : Collection E V).

(** [replace_one(..., upsert=True)] *)
Definition insert_record (record_data : V) (record_id : string) : M E unit :=
  modify (λ w, coll_set c w (<[record_id := record_data]> (coll_get c w))).

(** [find_one] *)
Definition get_record (record_id : string) : M E (option V) :=
  w ← get; ret (coll_get c w !! record_id).

(** [update_one({"$set": updated_data}, upsert=True)]; the data written
    by the callers carries every field of the record. *)
Definition update_or_create_record (record_id : string) (updated_data : V) : M E bool :=
  w ← get;
  modify (λ w, coll_set c w (<[record_id := updated_data]> (coll_get c w)));;
  match coll_get c w !! record_id with
  | Some _ => logger INFO ("Record " +:+ record_id +:+ " updated successfully.");; ret true
  | None => logger INFO ("Record " +:+ record_id +:+ " created successfully.");; ret true
  end.

(** [delete_one]; reports whether a record was deleted. *)
Definition delete_record (record_id : string) : M E bool :=
  w ← get;
  modify (λ w, coll_set c w (delete record_id (coll_get c w)));;
  ret (bool_decide (is_Some (coll_get c w !! record_id))).
End Methods.
End CosmosDBClient.

(** ** Object storage
    [storage/object/azure_blob_storage.py] *)

Module AzureBlobStorage.
Section Methods.
Context {E : Type}.
Variable container_name : string.

(** The local file system: the size of a file that exists. *)
Variable getsize : string → option nat.

Definition _extract_blob_name_from_url (file_url : string) : string :=
  let file_url := hd "" (str_split "?" file_url) in
  let parts := str_split "/" file_url in
  match list_find (λ p, p = container_name) parts with
  | Some (container_index, _) =>
      if container_index <? length parts - 1
      then join "/" (drop (S container_index) parts)
      else List.last parts ""
  | None => List.last parts ""
  end.

(** What [open(file_path, 'rb')] raises for a file that does not exist,
    kept as the base class of the exception. *)
Definition no_such_file (file_path : string) : exn :=
  Exception ("[Errno 2] No such file or directory: '" +:+ file_path +:+ "'").

(** The file is opened and the blob is written under the prefix and the
    file's base name; a file that cannot be opened is logged and the
    exception raised again, with nothing written. The URL the method
    returns is not used by its caller and is left out. *)
Definition upload_file (file_path destination_prefix : string) : M E unit :=
  let blob_name := rstrip_slash destination_prefix +:+ "/" +:+ basename file_path in
  try_except
    (match getsize file_path with
     | Some _ =>
         modify (λ w, World.with_blobs w ({[blob_name]} ∪ World.blobs w));;
         logger INFO ("Uploaded " +:+ file_path +:+ " to " +:+ blob_name)
     | None => raise (no_such_file file_path)
     end)
    (λ e, logger ERROR ("Error uploading " +:+ file_path +:+ ": " +:+ exn_str e);;
          raise e).

(** A failing [delete_blob] is caught here: it is logged and reported as
    [False]. *)
Definition delete_file (file_url : string) : M E bool :=
  let blob_name := _extract_blob_name_from_url file_url in
  w ← get;
  match World.blob_fault w with
  | Some e =>
      logger ERROR ("Error deleting " +:+ blob_name +:+ ": " +:+ e);; ret false
  | None =>
      if bool_decide (blob_name ∈ World.blobs w) then
        modify (λ w, World.with_blobs w (World.blobs w ∖ {[blob_name]}));;
        logger INFO ("Deleted " +:+ blob_name);; ret true
      else
        logger WARNING ("Blob " +:+ blob_name +:+ " not found, nothing to delete");;
        ret false
  end.
End Methods.
End AzureBlobStorage.

(** ** The index adapter
    [index/adaptors/azure_ai_indexing_engine.py]

    An [AISearchIndexClient] is bound to one index name. The clients the
    managers build are fresh, so their cached [metadata] is unset and the
    fields are read from the service. *)

(** The text of the service's not-found error. *)
Definition resource_not_found : string := "ResourceNotFoundError".

Module AISearchIndexClient.
Section Methods.
Context {E : Type}.
Variable index_name : string.

Definition check_index_exists (name : string) : M E bool :=
  w ← get;
  match World.search w !! name with
  | Some _ => ret true
  | None =>
      logger INFO ("Index " +:+ name +:+ " not found: " +:+ resource_not_found);;
      ret false
  end.

(** [next((field.name for field in fields if field.key), None)] *)
Definition first_key (fields : list SearchField.t) : option string :=
  SearchField.name <$> List.find SearchField.key fields.

Definition _get_primary_key : M E (option string) :=
  w ← get;
  match World.search w !! index_name with
  | Some idx => ret (first_key (SearchIndex.fields idx))
  | None =>
      raise (Exception ("Failed to get primary key for index " +:+ index_name
                        +:+ ": " +:+ resource_not_found))
  end.

Definition field_type_mapping (t : FieldType) : SearchFieldDataType :=
  match t with
  | TString => EdmString
  | TDate => EdmDateTimeOffset
  | TInteger => EdmInt32
  | TFloat => EdmDouble
  | TBoolean => EdmBoolean
  end.

Definition azure_field (field : IndexField.t) : SearchField.t :=
  SearchField.mk (IndexField.name field) (field_type_mapping (IndexField.field_type field))
    (IndexField.filterable field) (IndexField.searchable field)
    (IndexField.sortable field) (IndexField.primary_key field) None None.

Definition define_azure_fields (index_schema : IndexSchema.t) : list SearchField.t :=
  let azure_fields := azure_field <$> IndexSchema.fields index_schema in
  match IndexSchema.vector_dimensions index_schema with
  | Some (S _ as dims) =>
      azure_fields ++
        [SearchField.mk "embedding" CollectionSingle false false false false
           (Some dims) (Some "my-vector-search-profile")]
  | _ => azure_fields
  end.

(** [create_or_update_index] of the service: a new index starts empty,
    an existing one keeps its units. *)
Definition create_or_update_index (name : string) (fields : list SearchField.t) : M E unit :=
  modify (λ w,
    let units := from_option SearchIndex.docs [] (World.search w !! name) in
    World.with_search w (<[name := SearchIndex.mk fields units]> (World.search w))).

Definition create_index (name : string) (config : IndexConfig.t) : M E bool :=
  if String.eqb name index_name then
    let azure_fields := define_azure_fields (IndexConfig.index_schema config) in
    try_except
      (create_or_update_index name azure_fields;;
       logger INFO (name +:+ " created");;
       ret true)
      (λ e, logger ERROR ("Failed to create index " +:+ name +:+ ": " +:+ exn_str e);;
            ret false)
  else
    logger ERROR ("Index name mismatch: " +:+ name +:+ " != " +:+ index_name
                  +:+ ", the index could not be created.");;
    ret false.

(** The record of a unit, or [None] when the primary key is not among
    the index's fields. *)
Definition convert_doc_to_search_record (document : Document.t E)
    : M E (option (Document.t E)) :=
  w ← get;
  fields ← match World.search w !! index_name with
           | Some idx => ret (SearchField.name <$> SearchIndex.fields idx)
           | None => raise (Exception ("Failed to get fields from index " +:+ index_name
                                       +:+ ": " +:+ resource_not_found))
           end;
  primary_key ← _get_primary_key;
  if match primary_key with
     | Some k => bool_decide (k ∈ fields)
     | None => false
     end
  then ret (Some document)
  else
    logger ERROR ("Primary key " +:+ py_str primary_key +:+ " not found in document "
                  +:+ Document.document_id document);;
    ret None.

(** The service's merge-or-upload of one unit, by its chunk id. *)
Definition upsert_unit (units : list (Document.t E)) (u : Document.t E)
    : list (Document.t E) :=
  filter (λ x, Document.chunk_id x ≠ Document.chunk_id u) units ++ [u].

(** [search_client.upload_documents(documents=...)] with upload actions,
    on a service without faults: every action is accepted and reported
    as succeeded, which the code relays. The unit is kept whole; the
    service holds its projection on the fields of the index. *)
Definition upload_documents (documents : list (Document.t E))
    : M E (list IndexingResponse.t) :=
  w ← get;
  match World.search w !! index_name with
  | Some idx =>
      modify (λ w, World.with_search w
        (<[index_name := SearchIndex.mk (SearchIndex.fields idx)
                           (foldl upsert_unit (SearchIndex.docs idx) documents)]>
           (World.search w)));;
      ret ((λ d, IndexingResponse.mk true (Document.chunk_id d) None) <$> documents)
  | None => raise (Exception resource_not_found)
  end.

Definition index_documents (documents : list (Document.t E))
    : M E (list IndexingResponse.t) :=
  _get_primary_key;;
  docs ← mapM convert_doc_to_search_record documents;
  let documents_to_index := omap id docs in
  upload_documents documents_to_index.

(** [search_client.search(filter="document_id eq '...'")]: the units whose
    [document_id] is the given one. *)
Definition search_by_document_id (document_id : string) : M E (list (Document.t E)) :=
  w ← get;
  match World.search w !! index_name with
  | Some idx =>
      ret (filter (λ u, Document.document_id u = document_id) (SearchIndex.docs idx))
  | None => raise (Exception resource_not_found)
  end.

Definition list_document_chunks (document_id : string) : M E (list (option string)) :=
  primary_key ← _get_primary_key;
  try_except
    (results ← search_by_document_id document_id;
     ret ((λ result, Document.get result primary_key) <$> results))
    (λ e, raise (Exception ("Failed to list document chunks for document "
                            +:+ document_id +:+ ": " +:+ exn_str e))).

(** [search_client.upload_documents] with delete actions keyed by
    chunk_id. An action without a key makes the service refuse the
    request. *)
Definition upload_delete_actions (chunk_ids : list (option string))
    : M E (list IndexingResponse.t) :=
  w ← get;
  match World.search w !! index_name, mapM (M := option) id chunk_ids with
  | Some idx, Some keys =>
      modify (λ w, World.with_search w
        (<[index_name := SearchIndex.mk (SearchIndex.fields idx)
                           (filter (λ u, Document.chunk_id u ∉ keys) (SearchIndex.docs idx))]>
           (World.search w)));;
      ret ((λ k, IndexingResponse.mk true k None) <$> keys)
  | Some _, None => raise (Exception "document key cannot be missing")
  | None, _ => raise (Exception resource_not_found)
  end.

Definition delete_document (document_id : string) : M E (list IndexingResponse.t) :=
  chunk_ids ← list_document_chunks document_id;
  try_except
    (upload_delete_actions chunk_ids)
    (λ e, raise (Exception ("Failed to delete chunks for document " +:+ document_id
                            +:+ ": " +:+ exn_str e))).
End Methods.
End AISearchIndexClient.

(** ** Tenant registration
    [customer_manager/remote_customer_schema_manager.py] *)

Module CustomerIndexSchemaManager.
Section Methods.
Context {E : Type}.

Definition customer_exists (customer_id : string) : M E bool :=
  record ← CosmosDBClient.get_record customer_collection customer_id;
  match record with
  | Some r =>
      if String.eqb (Customer.customer_id r) customer_id then ret true
      else
        logger WARNING ("Customer with id '" +:+ customer_id +:+ "' not found.");;
        ret false
  | None =>
      logger WARNING ("Customer with id '" +:+ customer_id +:+ "' not found.");;
      ret false
  end.

Definition register_customer (customer_id : string) (index_config : IndexConfig.t)
    : M E bool :=
  exists_ ← customer_exists customer_id;
  if exists_ : bool then
    logger ERROR ("Customer with name '" +:+ customer_id +:+ "' already exists");;
    ret false
  else
    try_except
      (CosmosDBClient.insert_record customer_collection
         (Customer.mk customer_id (Some index_config)) customer_id;;
       logger INFO ("Registered customer: " +:+ customer_id);;
       ret true)
      (λ e, logger ERROR ("Could not register customer with name: " +:+ customer_id
                          +:+ ": " +:+ exn_str e);;
            ret false).

Definition get_index_config (customer_id : string) : M E (option IndexConfig.t) :=
  exists_ ← customer_exists customer_id;
  if exists_ : bool then
    customer_record ← CosmosDBClient.get_record customer_collection customer_id;
    match customer_record ≫= Customer.index_config with
    | Some cfg =>
        index_config ← lift (IndexConfig_parse_obj cfg);
        ret (Some index_config)
    | None =>
        logger ERROR ("Index config for '" +:+ customer_id +:+ "' not found");;
        ret None
    end
  else ret None.
End Methods.
End CustomerIndexSchemaManager.

(** ** The index lifecycle manager
    [index_manager/index_manager.py] *)

(** [l.remove(x)]: the list without the first occurrence of [x], or
    [None] where Python raises [ValueError]. *)
Fixpoint list_remove (x : string) (l : list string) : option (list string) :=
  match l with
  | [] => None
  | y :: l' => if decide (y = x) then Some l' else (y ::.) <$> list_remove x l'
  end.

Module IndexManager.
Section Methods.
Context {E : Type}.
Variables (customer_id account_id : string).

Definition _get_index_config : M E IndexConfig.t :=
  client_index_config ← CustomerIndexSchemaManager.get_index_config customer_id;
  match client_index_config with
  | Some cfg => ret cfg
  | None =>
      raise (IndexCreationError
               ("Failed to retrieve index configuration for client " +:+ customer_id))
  end.

(** [indexing_strategy_config == IndexingStrategy.DEFAULT]: the left side
    is the configuration object, which is never equal to an enum member. *)
Definition config_eq_strategy (c : IndexingStrategyConfig.t) (s : IndexingStrategy) : bool :=
  false.

Definition _create_unique_index_name (client_index_config : IndexConfig.t) : string :=
  if config_eq_strategy (IndexConfig.indexing_strategy_config client_index_config) DEFAULT
  then customer_id
  else customer_id.

Definition _need_to_create_new_index (index_name : string) : M E bool :=
  exists_ ← AISearchIndexClient.check_index_exists index_name;
  if exists_ : bool then ret false else ret true.

Definition create_new_index (now user_id : string) : M E unit :=
  client_index_config ← _get_index_config;
  let index_name := _create_unique_index_name client_index_config in
  try_except
    (need ← _need_to_create_new_index index_name;
     if need : bool then
       AISearchIndexClient.create_index index_name index_name client_index_config;;
       try_except
         (let index_record :=
            IndexRecord.mk customer_id index_name [account_id] [] now now user_id in
          CosmosDBClient.insert_record index_collection index_record index_name)
         (λ e, raise (Exception ("Failed to create record for index: " +:+ index_name
                                 +:+ ": " +:+ exn_str e)))
     else ret tt)
    (λ e, raise (Exception ("Failed to create index " +:+ index_name +:+ ": "
                            +:+ exn_str e))).

Definition update_docs_in_index_record (document_id action : string) : M E bool :=
  let index_name := customer_id in
  index_record ← CosmosDBClient.get_record index_collection index_name;
  match index_record with
  | Some index_record =>
      document_ids ←
        (if String.eqb action "add" then
           ret (Some (IndexRecord.document_ids index_record ++ [document_id]))
         else if String.eqb action "delete" then
           match list_remove document_id (IndexRecord.document_ids index_record) with
           | Some ids => ret (Some ids)
           | None => raise (ValueError "list.remove(x): x not in list")
           end
         else
           logger ERROR ("Invalid action: " +:+ action);;
           ret None);
      match document_ids with
      | Some ids =>
          CosmosDBClient.update_or_create_record index_collection index_name
            (IndexRecord.with_document_ids index_record ids);;
          ret true
      | None => ret false
      end
  | None =>
      logger WARNING ("Index record not found for index name " +:+ index_name
                      +:+ ". Could not update record.");;
      ret false
  end.
End Methods.
End IndexManager.

(** ** The ingestion pipeline
    [document_processor/processor.py], [document_processor/chunkers/factory.py] *)

Definition nl : string := String (ascii_of_nat 10) "".

(** The splitters [ChunkerFactory.get_splitter] can return. *)
Inductive Splitter : Type :=
  | MarkdownTextSplitter (chunk_size chunk_overlap : nat)
  | RecursiveCharacterTextSplitter (chunk_size chunk_overlap : nat) (separators : list string).

(** The name Python prints for a member of [FileType]. *)
Definition FileType_str (t : FileType) : string :=
  "FileType." +:+
  match t with
  | PDF => "PDF" | DOCX => "DOCX" | TXT => "TXT" | CSV => "CSV" | XLSX => "XLSX"
  | PPTX => "PPTX" | HTML => "HTML" | JSON => "JSON" | MD => "MD"
  end.

(** [ChunkerFactory.get_splitter] for the base strategy. For HTML the
    factory calls [HTMLSemanticPreservingSplitter(chunk_size=...,
    chunk_overlap=...)]: that class takes [headers_to_split_on] and
    [max_chunk_size] and has no parameter [chunk_size], so the call raises
    a [TypeError] and no splitter is returned. *)
Definition get_splitter (file_type : FileType) (chunk_size chunk_overlap : nat)
    : result Splitter :=
  match file_type with
  | MD => Ok (MarkdownTextSplitter chunk_size chunk_overlap)
  | PDF | DOCX | TXT =>
      Ok (RecursiveCharacterTextSplitter chunk_size chunk_overlap
            [nl +:+ nl; nl; " "; ""])
  | PPTX =>
      Ok (RecursiveCharacterTextSplitter chunk_size chunk_overlap [nl; " "; ""])
  | HTML =>
      Raise (TypeError "HTMLSemanticPreservingSplitter.__init__() got an unexpected keyword argument 'chunk_size'")
  | _ => Raise (ValueError ("file type " +:+ FileType_str file_type +:+ " does not exist"))
  end.

(** [DocumentLoaderFactory.get_loader]: the loader class of the file's
    type, built on the path alone. [JSONLoader] has a second required
    parameter, [jq_schema], so for a JSON file the construction raises a
    [TypeError]. The loader is returned as the type it was chosen by. *)
Definition get_loader (file_path : string) : result FileType :=
  match FileType_from_path file_path with
  | Ok JSON =>
      Raise (TypeError "JSONLoader.__init__() missing 1 required positional argument: 'jq_schema'")
  | Ok file_type => Ok file_type
  | Raise e => Raise e
  end.

Module DocumentProcessor.
Section Methods.
Context {E : Type}.

(** The external collaborators of the pipeline: the loader selected by
    file type, the splitter, the embedding service and the file system. *)
Variable loader_load : FileType → string → list LangchainDocument.t.
Variable split_documents : Splitter → list LangchainDocument.t → list LangchainDocument.t.
Variable embed_texts : list string → list E.
Variable getsize : string → option nat.

(** The processor of the document manager is built with defaults. *)
Definition chunk_size : nat := 50.
Definition chunk_overlap : nat := 10.

Definition _generate_document_id (file_path : string) : string := stem file_path.

Definition _generate_chunk_id (document_id : string) (chunk_index : nat) : string :=
  document_id +:+ "_chunk_" +:+ pretty chunk_index.

Definition _load_document (file_path : string) : result (list LangchainDocument.t) :=
  match get_loader file_path with
  | Ok loader => Ok (loader_load loader file_path)
  | Raise e => Raise e
  end.

Definition _chunk_document (langchain_docs : list LangchainDocument.t)
    (file_type : FileType) : result (list LangchainDocument.t) :=
  match get_splitter file_type chunk_size chunk_overlap with
  | Ok text_splitter => Ok (split_documents text_splitter langchain_docs)
  | Raise e => Raise e
  end.

Definition _embed_chunks (chunks : list string) : list E := embed_texts chunks.

(** [enumerate(zip(langchain_docs, embeddings))], counting from [idx]. *)
Fixpoint convert_from (now : string) (idx : nat)
    (langchain_docs : list LangchainDocument.t) (embeddings : list E)
    (document_id : string) (account_id user_id : option string) (is_global : bool)
    (session_id : option string) : list (Document.t E) :=
  match langchain_docs, embeddings with
  | doc :: langchain_docs', embedding :: embeddings' =>
      let chunk_id := _generate_chunk_id document_id idx in
      Document.mk account_id user_id document_id chunk_id idx session_id
        (LangchainDocument.page_content doc) is_global
        (LangchainDocument.metadata doc) embedding now now 1
      :: convert_from now (S idx) langchain_docs' embeddings'
           document_id account_id user_id is_global session_id
  | _, _ => []
  end.

Definition _convert_to_documents (now : string)
    (langchain_docs : list LangchainDocument.t)
    (document_id : string) (account_id user_id : option string) (is_global : bool)
    (session_id : option string) (embeddings : list E) : list (Document.t E) :=
  convert_from now 0 langchain_docs embeddings
    document_id account_id user_id is_global session_id.

(** [doc.metadata.update(...)] with the file's type and size. *)
Definition add_file_metadata (file_type : FileType) (file_path : string)
    (doc : LangchainDocument.t) : LangchainDocument.t :=
  LangchainDocument.mk (LangchainDocument.page_content doc)
    (<["file_size" := from_option MInt MNone (getsize file_path)]>
       (<["file_type" := MStr (FileType_value file_type)]>
          (LangchainDocument.metadata doc))).

(** [process_document] as the document manager calls it: no explicit
    document id and no extra metadata. *)
Definition process_document (now file_path : string)
    (account_id user_id : option string) (is_global : bool)
    (session_id : option string) : result (list (Document.t E)) :=
  let doc_id := _generate_document_id file_path in
  match _load_document file_path with
  | Raise e => Raise e
  | Ok langchain_docs =>
      match FileType_from_path file_path with
      | Raise e => Raise e
      | Ok file_type =>
          let langchain_docs := add_file_metadata file_type file_path <$> langchain_docs in
          match _chunk_document langchain_docs file_type with
          | Raise e => Raise e
          | Ok chunked_docs =>
              let chunk_texts := LangchainDocument.page_content <$> chunked_docs in
              let embeddings := _embed_chunks chunk_texts in
              Ok (_convert_to_documents now chunked_docs doc_id account_id user_id
                    is_global session_id embeddings)
          end
      end
  end.
End Methods.
End DocumentProcessor.

(** ** The document manager
    [document_manager/azure_document_manager.py] *)

(** pydantic's construction of a [DocumentRecord]: the three identifiers
    are declared [str], so [None] is refused. *)
Definition DocumentRecord_new (document_id customer_id index_name : string)
    (account_id user_id session_id : option string)
    (scope document_url document_name : string) (document_size : nat)
    (document_indexed : bool) (indexed_at : string) (chunk_ids : list string)
    : result DocumentRecord.t :=
  match account_id, user_id, session_id with
  | Some a, Some u, Some s =>
      Ok (DocumentRecord.mk document_id customer_id index_name a u s scope
            document_url document_name document_size document_indexed indexed_at chunk_ids)
  | _, _, _ =>
      Raise (ValidationError "DocumentRecord"
               ((if account_id is None then ["account_id"] else []) ++
                (if user_id is None then ["user_id"] else []) ++
                (if session_id is None then ["session_id"] else [])))
  end.

Module AzureDocumentManager.
Section Methods.
Context {E : Type}.
Variable loader_load : FileType → string → list LangchainDocument.t.
Variable split_documents : Splitter → list LangchainDocument.t → list LangchainDocument.t.
Variable embed_texts : list string → list E.
Variable getsize : string → option nat.

(** [self.customer], the tenant the manager serves. *)
Variable customer : string.

Definition blob_container : string := "rag-doc-manager-blob".

(** The storage prefix of an upload, with the checks each scope makes. *)
Definition destination_prefix_for (account_id user_id session_id scope : option string)
    : M E string :=
  let destination_prefix := customer in
  if py_eq scope "account" then
    assert_ (truthy account_id)
      "account ID must be provided for session-specific indexing";;
    ret (destination_prefix +:+ "/" +:+ py_str account_id)
  else if py_eq scope "user" then
    assert_ (truthy user_id) "user ID must be provided for user-specific indexing";;
    ret (destination_prefix +:+ "/" +:+ py_str account_id +:+ "/" +:+ py_str user_id)
  else if py_eq scope "session" then
    ret (destination_prefix +:+ "/" +:+ py_str account_id +:+ "/" +:+ py_str user_id
         +:+ "/" +:+ py_str session_id)
  else
    assert_ (py_eq scope "global") "";;
    ret destination_prefix.

Definition _update_document_record (document_record : DocumentRecord.t) : M E bool :=
  try_except
    (CosmosDBClient.update_or_create_record document_collection
       (DocumentRecord.document_id document_record) document_record;;
     ret true)
    (λ e, logger ERROR ("Error inserting document record for document id "
                        +:+ DocumentRecord.document_id document_record
                        +:+ ": " +:+ exn_str e);;
          ret false).

(** [upload]. Building the index client (with its secret lookup) and the
    [print] of the scope are left out; [now] is the time of the request. *)
Definition upload (now index_name file : string)
    (account_id user_id session_id scope : option string) : M E unit :=
  destination_prefix ← destination_prefix_for account_id user_id session_id scope;
  AzureBlobStorage.upload_file getsize file destination_prefix;;
  chunked_documents ←
    lift (DocumentProcessor.process_document loader_load split_documents embed_texts getsize
            now file account_id user_id (py_eq scope "global") session_id);
  first ← match chunked_documents with
          | d :: _ => ret d
          | [] => raise (IndexError "list index out of range")
          end;
  let document_id := Document.document_id first in
  AISearchIndexClient.index_documents index_name chunked_documents;;
  document_size ← match getsize file with
                  | Some n => ret n
                  | None => raise (Exception ("No such file or directory: " +:+ file))
                  end;
  document_record ←
    lift (DocumentRecord_new document_id customer index_name
            account_id user_id session_id (py_str scope)
            (path_join destination_prefix file) (basename file) document_size
            true (Document.created_at first) (Document.chunk_id <$> chunked_documents));
  _update_document_record document_record;;
  IndexManager.update_docs_in_index_record customer document_id "add";;
  ret tt.

Definition is_user_authorized (user_id : string)
    (document_record : option DocumentRecord.t) : bool :=
  match document_record with
  | Some r => String.eqb (DocumentRecord.user_id r) user_id
  | None => false
  end.

(** The blob part of [delete]: [if document_url: delete_file(...)]; the
    value [delete_file] returns is dropped. *)
Definition delete_blob (document_url : string) : M E unit :=
  if negb (String.eqb document_url "")
  then AzureBlobStorage.delete_file blob_container document_url;; ret tt
  else ret tt.

(** [delete]. The index client is built for the index named after the
    customer. *)
Definition delete (document_id user_id : string) : M E unit :=
  document_record ← CosmosDBClient.get_record document_collection document_id;
  if is_user_authorized user_id document_record then
    let document_url := from_option DocumentRecord.document_url "" document_record in
    delete_blob document_url;;
    AISearchIndexClient.delete_document customer document_id;;
    CosmosDBClient.delete_record document_collection document_id;;
    IndexManager.update_docs_in_index_record customer document_id "delete";;
    ret tt
  else
    raise (Exception ("Document with id: " +:+ document_id
                      +:+ " not found or user is not authorized to delete the document.")).
End Methods.
End AzureDocumentManager.

(** ** The rest of the customer manager
    [customer_manager/remote_customer_schema_manager.py] *)

Module CustomerAdmin.
Section Methods.
Context {E : Type}.

(** [CosmosDBClient] has no method [create_or_update_record]: looking it up
    raises an [AttributeError], kept here as its base class. *)
Definition no_create_or_update_record : exn :=
  Exception "'CosmosDBClient' object has no attribute 'create_or_update_record'".

Definition update_index_config (customer_id : string) (index_config : IndexConfig.t)
    : M E bool :=
  exists_ ← CustomerIndexSchemaManager.customer_exists customer_id;
  if exists_ : bool then
    try_except
      ((raise no_create_or_update_record : M E unit);;
       logger INFO ("Updated index config for customer: " +:+ customer_id);;
       ret true)
      (λ e, raise (Exception ("Index config for '" +:+ customer_id
                              +:+ "' failed with error: " +:+ exn_str e)))
  else
    logger ERROR ("Could not update infex config for customer with name '"
                  +:+ customer_id +:+ "'");;
    ret false.

Definition delete_customer (customer_id : string) : M E bool :=
  exists_ ← CustomerIndexSchemaManager.customer_exists customer_id;
  if exists_ : bool then
    try_except
      (CosmosDBClient.delete_record customer_collection customer_id;;
       logger INFO ("Deleted customer: " +:+ customer_id);;
       ret true)
      (λ e, raise (Exception ("Deletion of customer with name '" +:+ customer_id
                              +:+ "' failed with error: " +:+ exn_str e)))
  else
    logger ERROR ("Customer with name '" +:+ customer_id +:+ "' not found");;
    ret false.

(** [create_default_index]: the fields are read from a schema file, taken
    here as an argument. *)
Definition create_default_index (index_fields : list IndexField.t) : IndexConfig.t :=
  IndexConfig.mk (IndexSchema.mk index_fields (Some 1536))
    (IndexingStrategyConfig.mk DEFAULT None)
    (Some "Default index configuration.") [].
End Methods.
End CustomerAdmin.

(** ** Batches of files
    [document_processor/processor.py] *)

Module ProcessorBatch.
Section Methods.
Context {E : Type}.
Variable loader_load : FileType → string → list LangchainDocument.t.
Variable split_documents : Splitter → list LangchainDocument.t → list LangchainDocument.t.
Variable embed_texts : list string → list E.
Variable getsize : string → option nat.

(** [process_documents]: every file is processed in turn and the units
    are collected; the first file that raises ends the batch. *)
Fixpoint process_documents (now : string) (file_paths : list string)
    (account_id user_id : option string) (is_global : bool)
    (session_id : option string) : result (list (Document.t E)) :=
  match file_paths with
  | [] => Ok []
  | file_path :: file_paths' =>
      match DocumentProcessor.process_document loader_load split_documents embed_texts
              getsize now file_path account_id user_id is_global session_id with
      | Raise e => Raise e
      | Ok documents =>
          match process_documents now file_paths' account_id user_id is_global
                  session_id with
          | Raise e => Raise e
          | Ok all_documents => Ok (documents ++ all_documents)
          end
      end
  end.
End Methods.
End ProcessorBatch.

(** ** Content types
    [storage/object/azure_blob_storage.py] *)

(** [Path(p).suffix.lower()]: the last suffix of the base name, with its
    dot. *)
Definition suffix_lower (p : string) : string :=
  match cut_suffix (basename p) with
  | Some (_, after) => lower ("." +:+ after)
  | None => ""
  end.

Definition content_type_map : list (string * string) :=
  [(".pdf", "application/pdf");
   (".docx", "application/vnd.openxmlformats-officedocument.wordprocessingml.document");
   (".xlsx", "application/vnd.openxmlformats-officedocument.spreadsheetml.sheet");
   (".pptx", "application/vnd.openxmlformats-officedocument.presentationml.presentation");
   (".txt", "text/plain");
   (".csv", "text/csv");
   (".json", "application/json");
   (".html", "text/html");
   (".htm", "text/html");
   (".xml", "application/xml");
   (".png", "image/png");
   (".jpg", "image/jpeg");
   (".jpeg", "image/jpeg");
   (".zip", "application/zip");
   (".md", "text/markdown")].

(** [dict.get(key, default)] on a literal dictionary. *)
Definition dict_get (d : list (string * string)) (key default : string) : string :=
  match List.find (λ kv, String.eqb kv.1 key) d with
  | Some kv => kv.2
  | None => default
  end.

Definition _get_content_type (file_path : string) : string :=
  dict_get content_type_map (suffix_lower file_path) "application/octet-stream".

(** ** The request boundary
    [api/routes/registration.py], [api/routes/documents.py] *)

Module Routes.
(** A [JSONResponse]: its status code and the one entry of its body. *)
Record JSONResponse : Type := mkResponse {
  status_code : nat;
  content : string * string
}.

Section Handlers.
Context {E : Type}.
Variable loader_load : FileType → string → list LangchainDocument.t.
Variable split_documents : Splitter → list LangchainDocument.t → list LangchainDocument.t.
Variable embed_texts : list string → list E.
Variable getsize : string → option nat.

(** The fields of the default schema file. *)
Variable default_index_fields : list IndexField.t.

(** [create_account]: the value [register_customer] returns is dropped. *)
Definition create_account (now customer_id account_id admin_id : string)
    : M E JSONResponse :=
  try_except
    (let index_schema := CustomerAdmin.create_default_index default_index_fields in
     CustomerIndexSchemaManager.register_customer customer_id index_schema;;
     IndexManager.create_new_index customer_id account_id now admin_id;;
     ret (mkResponse 200
            ("message", "Account created successfully for customer: " +:+ customer_id)))
    (λ e, ret (mkResponse 500 ("error", exn_str e))).

Definition delete_document (customer_id account_id user_id document_id : string)
    : M E JSONResponse :=
  try_except
    (AzureDocumentManager.delete customer_id document_id user_id;;
     ret (mkResponse 200 ("message", "Document deleted successfully")))
    (λ e, ret (mkResponse 500 ("error", exn_str e))).

(** The local path [index_document] saves the request body under:
    [Path(customer_id) / user_id [/ session_id] / file_name], for ids and
    a file name that are plain segments of a path. *)
Definition saved_file_path (customer_id user_id : string) (session_id : option string)
    (file_name : string) : string :=
  let user_dir := customer_id +:+ "/" +:+ user_id in
  let user_dir := if truthy session_id
                  then user_dir +:+ "/" +:+ py_str session_id else user_dir in
  user_dir +:+ "/" +:+ file_name.

(** [index_document]: the body is saved and uploaded to the index named
    after the customer; an exception is raised again. Writing the file is
    left to the file system, read back through [getsize]. *)
Definition index_document (now customer_id account_id user_id file_name : string)
    (session_id scope : option string) : M E string :=
  let file_path := saved_file_path customer_id user_id session_id file_name in
  AzureDocumentManager.upload loader_load split_documents embed_texts getsize
    customer_id now customer_id file_path
    (Some account_id) (Some user_id) session_id scope;;
  ret file_path.
End Handlers.
End Routes.

(** ** Search
    [search/adaptors/azure_ai_query_engine.py], [search/base.py] *)

Module QueryEngine.
Inductive SearchStrategy : Type := TEXT | VECTOR | HYBRID.

(** The value of the field [search_strategy]: the model stores the
    string of a strategy that was given to it ([use_enum_values]), and
    leaves the default, which is not validated, as the enum member
    [SearchStrategy.HYBRID]; that member is equal to no string. *)
Inductive StrategyValue : Type :=
  | Given (s : SearchStrategy)
  | DefaultMember.

Record SearchParams : Type := mkParams {
  top_k : nat;
  filters : list (string * filter_value);
  search_strategy : StrategyValue;
  sort_by : option string
}.

(** [SearchParams()] *)
Definition default_params : SearchParams := mkParams 10 [] DefaultMember None.

(** One hit of the search service, and one result of a search; [S] is the
    type of scores. *)
Record Hit (S : Type) : Type := mkHit {
  hit_document_id : string;
  hit_content : string;
  hit_score : S;
  hit_chunk_id : option string
}.
Arguments mkHit {S}.
Arguments hit_document_id {S}.
Arguments hit_content {S}.
Arguments hit_score {S}.
Arguments hit_chunk_id {S}.

Record SearchResult (S : Type) : Type := mkResult {
  document_id : string;
  content : string;
  score : S;
  chunk_id : option string
}.
Arguments mkResult {S}.
Arguments document_id {S}.
Arguments content {S}.
Arguments score {S}.
Arguments chunk_id {S}.

Record SearchResponse (S : Type) : Type := mkSearchResponse {
  results : list (SearchResult S);
  total_results : nat
}.
Arguments mkSearchResponse {S}.
Arguments results {S}.
Arguments total_results {S}.

Section Methods.
Context {E S : Type}.

(** The embedding service and the search service: the hits for an index,
    a filter, a number of results, an ordering and a query vector, with
    the total count the service reports. *)
Variable embed_text : string → E.
Variable service_search :
  string → option string → nat → option string → E → list (Hit S) * nat.

(** What a list answers to [get_count], and what reading the local
    [search_results] gives when no branch assigned it; both are kept as
    the base class of the exception. *)
Definition no_get_count : exn :=
  Exception "'list' object has no attribute 'get_count'".
Definition unbound_search_results : exn :=
  Exception "cannot access local variable 'search_results' where it is not associated with a value".

(** [search]. The query time is left out of the response. *)
Definition search (index_name query : string)
    (account_id user_id session_id scope : option string)
    (search_params : option SearchParams) : M E (SearchResponse S) :=
  let search_params := default default_params search_params in
  filter_expression ←
    lift (_build_filter_expression account_id user_id session_id scope
            (filters search_params));
  match search_strategy search_params with
  | Given VECTOR =>
      let embedded_query := embed_text query in
      let '(search_results, count) :=
        service_search index_name filter_expression (top_k search_params)
          (sort_by search_params) embedded_query in
      ret (mkSearchResponse
             ((λ result, mkResult (hit_document_id result) (hit_content result)
                           (hit_score result) (hit_chunk_id result))
                <$> search_results)
             count)
  | Given TEXT | Given HYBRID => raise no_get_count
  | DefaultMember =>
      logger WARNING
        "Search strategy SearchStrategy.HYBRID not implemented, falling back to vector search";;
      raise unbound_search_results
  end.

(** The search route: the strategy is always the vector one. *)
Definition search_documents (query customer_id account_id : string)
    (user_id session_id scope : option string) (top_k : nat)
    : M E (SearchResponse S) :=
  search customer_id query (Some account_id) user_id session_id scope
    (Some (mkParams top_k [] (Given VECTOR) None)).
End Methods.
End QueryEngine.

(** ** A concrete tenant

    The tenant acme, registered and provisioned through the operations
    above, with a small pipeline: one loaded segment, split at spaces, each
    chunk embedded as its length. *)

Module Scenario.
Definition sample_config : IndexConfig.t :=
  IndexConfig.mk
    (IndexSchema.mk
       [IndexField.mk "chunk_id" TString true false false true;
        IndexField.mk "document_id" TString true false false false;
        IndexField.mk "content" TString false true false false]
       (Some 4))
    (IndexingStrategyConfig.mk DEFAULT None) None [].

Definition keyed_config : IndexConfig.t :=
  IndexConfig.mk (IndexConfig.index_schema sample_config)
    (IndexingStrategyConfig.mk KEYED (Some "region")) None [].

Definition empty_world : World.t nat := World.mk ∅ ∅ ∅ ∅ ∅ None [].

Definition registered_world : World.t nat :=
  (CustomerIndexSchemaManager.register_customer "acme" sample_config empty_world).2.

Definition acme_world : World.t nat :=
  (IndexManager.create_new_index "acme" "a1" "t0" "admin" registered_world).2.

Definition txt_loader (ft : FileType) (path : string) : list LangchainDocument.t :=
  [LangchainDocument.mk "alpha beta" ∅].

Definition word_splitter (sp : Splitter) (docs : list LangchainDocument.t)
    : list LangchainDocument.t :=
  docs ≫= (λ d, (λ w, LangchainDocument.mk w (LangchainDocument.metadata d))
                  <$> String.words (LangchainDocument.page_content d)).

Definition length_embedder (texts : list string) : list nat := String.length <$> texts.

Definition known_size (path : string) : option nat := Some 10.

Definition upload_report : option string → option string → option string →
    option string → M nat unit :=
  AzureDocumentManager.upload txt_loader word_splitter length_embedder known_size
    "acme" "t1" "acme" "acme/u1/report.txt".

(** acme after user u1 of account a1 uploaded report.txt in a session. *)
Definition uploaded_world : World.t nat :=
  (upload_report (Some "a1") (Some "u1") (Some "s1") (Some "session") acme_world).2.

(** What that upload leaves in the stores. *)
Definition report_units : list (Document.t nat) :=
  match DocumentProcessor.process_document txt_loader word_splitter length_embedder
          known_size "t1" "acme/u1/report.txt" (Some "a1") (Some "u1") false (Some "s1")
  with
  | Ok units => units
  | Raise _ => []
  end.

Definition report_record : DocumentRecord.t :=
  DocumentRecord.mk "report" "acme" "acme" "a1" "u1" "s1" "session"
    "acme/a1/u1/s1/acme/u1/report.txt" "report.txt" 10 true "t1"
    ["report_chunk_0"; "report_chunk_1"].

Definition acme_index : SearchIndex.t nat :=
  SearchIndex.mk
    (AISearchIndexClient.define_azure_fields (IndexConfig.index_schema sample_config))
    report_units.

Definition acme_registry : IndexRecord.t :=
  IndexRecord.mk "acme" "acme" ["a1"] ["report"] "t0" "t0" "admin".

Definition txt_splitter : Splitter :=
  RecursiveCharacterTextSplitter 50 10 [nl +:+ nl; nl; " "; ""].

(** acme after the same file was uploaded a second time. *)
Definition reuploaded_world : World.t nat :=
  (upload_report (Some "a1") (Some "u1") (Some "s1") (Some "session") uploaded_world).2.


(** A second tenant, globex, registered and provisioned next to acme. *)
Definition two_tenants_world : World.t nat :=
  (IndexManager.create_new_index "globex" "g1" "t2" "gadmin"
     (CustomerIndexSchemaManager.register_customer "globex" sample_config
        uploaded_world).2).2.

(** [IndexingStrategyConfig(strategy=KEYED)]: the keyed strategy with the
    key left out. *)
Definition keyless_config : IndexConfig.t :=
  IndexConfig.mk (IndexConfig.index_schema sample_config)
    (IndexingStrategyConfig.mk KEYED None) None [].

(** A tenant registered with that configuration. *)
Definition keyless_world : World.t nat :=
  (CustomerIndexSchemaManager.register_customer "initech" keyless_config empty_world).2.

(** An empty text file: one loaded segment without text, which the
    splitter turns into no chunk, and the size zero. *)
Definition blank_loader (ft : FileType) (path : string) : list LangchainDocument.t :=
  [LangchainDocument.mk "" ∅].

Definition zero_size (path : string) : option nat := Some 0.

Definition upload_blank : option string → option string → option string →
    option string → M nat unit :=
  AzureDocumentManager.upload blank_loader word_splitter length_embedder zero_size
    "acme" "t1" "acme" "acme/u1/empty.txt".
End Scenario.

(** ** Worlds and values the properties speak of *)

Section Outcomes.
Context {E : Type}.
Implicit Type w : World.t E.

(** The world with these entries added to the log. *)
Definition logged w (entries : list (level * string)) : World.t E :=
  World.with_log w (World.log w ++ entries).

(** The world after the registry record of [customer] was rewritten. *)
Definition registry_written w (customer : string) (r : IndexRecord.t) : World.t E :=
  World.with_log
    (World.with_indexes w (<[customer := r]> (World.indexes w)))
    (World.log w ++ [(INFO, "Record " +:+ customer +:+ " updated successfully.")]).

(** The index configuration stored for a tenant, if any. *)
Definition stored_config w (customer_id : string) : option IndexConfig.t :=
  r ← World.customers w !! customer_id;
  if String.eqb (Customer.customer_id r) customer_id
  then Customer.index_config r else None.

(** The world after the index of [customer_id] and its registry record
    were created. *)
Definition index_created w (customer_id account_id now admin_id : string)
    (cfg : IndexConfig.t) : World.t E :=
  World.mk (World.customers w)
    (<[customer_id := IndexRecord.mk customer_id customer_id [account_id] []
                        now now admin_id]> (World.indexes w))
    (World.documents w)
    (<[customer_id := SearchIndex.mk
                        (AISearchIndexClient.define_azure_fields
                           (IndexConfig.index_schema cfg)) []]> (World.search w))
    (World.blobs w) (World.blob_fault w)
    (World.log w ++
       [(INFO, "Index " +:+ customer_id +:+ " not found: " +:+ resource_not_found);
        (INFO, customer_id +:+ " created")]).

(** The failure of a delete that is refused. *)
Definition delete_refused (document_id : string) : exn :=
  Exception ("Document with id: " +:+ document_id
             +:+ " not found or user is not authorized to delete the document.").

(** The units an index keeps when the chunks of [document_id] are
    looked up by the filter on [document_id] and deleted by chunk id. *)
Definition remaining_units (document_id : string) (units : list (Document.t E))
    : list (Document.t E) :=
  let keys := Document.chunk_id
                <$> filter (λ u, Document.document_id u = document_id) units in
  filter (λ u, Document.chunk_id u ∉ keys) units.

(** The world once the blob of the record was dealt with. *)
Definition blob_step w (document_url : string) : World.t E :=
  if negb (String.eqb document_url "")
  then (AzureBlobStorage.delete_file AzureDocumentManager.blob_container
          document_url w).2
  else w.

(** What a failed blob deletion leaves in the log. *)
Definition blob_failure_entry w (document_url : string) : level * string :=
  let blob_name :=
    AzureBlobStorage._extract_blob_name_from_url AzureDocumentManager.blob_container
      document_url in
  match World.blob_fault w with
  | Some e => (ERROR, "Error deleting " +:+ blob_name +:+ ": " +:+ e)
  | None => (WARNING, "Blob " +:+ blob_name +:+ " not found, nothing to delete")
  end.

(** The world after the chunks, the document record and the registry
    entry of [document_id] were removed from [w1]. *)
Definition deleted (w1 : World.t E) (customer document_id : string)
    (idx : SearchIndex.t E) (r : IndexRecord.t) (ids : list string) : World.t E :=
  registry_written
    (World.with_documents
       (World.with_search w1
          (<[customer := SearchIndex.mk (SearchIndex.fields idx)
                           (remaining_units document_id (SearchIndex.docs idx))]>
             (World.search w1)))
       (delete document_id (World.documents w1)))
    customer (IndexRecord.with_document_ids r ids).

(** The chunks the splitter emits for a file: the loaded segments, with
    the file's type and size added to their metadata, split in order. *)
Definition emitted_chunks
    (loader_load : FileType → string → list LangchainDocument.t)
    (split_documents : Splitter → list LangchainDocument.t → list LangchainDocument.t)
    (getsize : string → option nat)
    (file_path : string) (file_type : FileType) (text_splitter : Splitter)
    : list LangchainDocument.t :=
  split_documents text_splitter
    (DocumentProcessor.add_file_metadata getsize file_type file_path
       <$> loader_load file_type file_path).

(** The chunk ids of a document of [n] chunks, in order. *)
Definition expected_chunk_ids (document_id : string) (n : nat) : list string :=
  (λ i, document_id +:+ "_chunk_" +:+ pretty i) <$> seq 0 n.

(** Whether the customer collection holds the record of a tenant under
    its id. *)
Definition registered w (customer_id : string) : bool :=
  match World.customers w !! customer_id with
  | Some r => String.eqb (Customer.customer_id r) customer_id
  | None => false
  end.

(** The decimal digits, the characters of a chunk index. *)
Definition is_digit (a : ascii) : Prop := a ∈ list_ascii_of_string "0123456789".

(** A name that [pathlib] keeps as one segment of a path. *)
Definition plain_segment (s : string) : Prop :=
  s ≠ "" ∧ s ≠ "." ∧ "/"%char ∉ list_ascii_of_string s.
End Outcomes.

(** * Properties *)

(** ** Stepping through computations *)

Ltac munfold :=
  unfold assert_, logger, mbind, M_bind, mret, M_ret, bind, ret, raise, get, modify,
    lift, try_except in *.

(** A decidable fact about concrete values, settled by evaluation. *)
Ltac by_decide := apply (bool_decide_unpack _); vm_compute; exact I.

Lemma run_bind_ok {E A B} (m : M E A) (k : A → M E B) w a w1 :
  m w = (Ok a, w1) → (m ≫= k) w = k a w1.
Proof. intros H. munfold. by rewrite H. Qed.

Lemma run_bind_raise {E A B} (m : M E A) (k : A → M E B) w e w1 :
  m w = (Raise e, w1) → (m ≫= k) w = (Raise e, w1).
Proof. intros H. munfold. by rewrite H. Qed.

Lemma list_remove_None x l : list_remove x l = None ↔ x ∉ l.
Proof.
  induction l as [|y l IH]; simpl.
  - split; [intros _; apply not_elem_of_nil | done].
  - destruct (decide (y = x)) as [->|Hne].
    + split; [done | intros H; exfalso; apply H; left].
    + rewrite not_elem_of_cons, <- IH.
      destruct (list_remove x l); simpl.
      * split; [done | by intros [_ ?]].
      * split; [intros _; split; [congruence | done] | done].
Qed.

Lemma list_remove_Some x l : x ∈ l → ∃ l', list_remove x l = Some l'.
Proof.
  intros Hin. destruct (list_remove x l) eqn:Heq; [eauto|].
  by apply list_remove_None in Heq.
Qed.

(** Removing takes out one occurrence and nothing else. *)
Lemma list_remove_Permutation x l l' : list_remove x l = Some l' → l ≡ₚ x :: l'.
Proof.
  revert l'. induction l as [|y l IH]; intros l'; simpl; [done|].
  destruct (decide (y = x)) as [->|Hne].
  - by intros [= ->].
  - destruct (list_remove x l) as [l0|]; simpl; [|done].
    intros [= <-]. rewrite (IH l0 eq_refl). apply Permutation_swap.
Qed.

(** When the list has no duplicates, the removed id is gone. *)
Lemma list_remove_NoDup x l l' : list_remove x l = Some l' → NoDup l → x ∉ l'.
Proof.
  intros Hrm Hnd. apply list_remove_Permutation in Hrm.
  rewrite Hrm in Hnd. by apply NoDup_cons in Hnd as [? _].
Qed.

(** ** The registry update *)

Section Registry.
Context {E : Type}.
Implicit Type w : World.t E.

Lemma update_docs_missing_record w customer document_id action :
  World.indexes w !! customer = None →
  IndexManager.update_docs_in_index_record customer document_id action w
  = (Ok false,
     World.with_log w
       (World.log w ++ [(WARNING, "Index record not found for index name " +:+ customer
                                  +:+ ". Could not update record.")])).
Proof.
  intros Hrec. unfold IndexManager.update_docs_in_index_record, CosmosDBClient.get_record.
  munfold. simpl. by rewrite Hrec.
Qed.

Lemma update_docs_add w customer document_id r :
  World.indexes w !! customer = Some r →
  IndexManager.update_docs_in_index_record customer document_id "add" w
  = (Ok true,
     registry_written w customer
       (IndexRecord.with_document_ids r (IndexRecord.document_ids r ++ [document_id]))).
Proof.
  intros Hrec. unfold IndexManager.update_docs_in_index_record, CosmosDBClient.get_record,
    CosmosDBClient.update_or_create_record.
  munfold. simpl. rewrite Hrec. simpl. by rewrite Hrec.
Qed.

Lemma update_docs_delete w customer document_id r ids :
  World.indexes w !! customer = Some r →
  list_remove document_id (IndexRecord.document_ids r) = Some ids →
  IndexManager.update_docs_in_index_record customer document_id "delete" w
  = (Ok true, registry_written w customer (IndexRecord.with_document_ids r ids)).
Proof.
  intros Hrec Hrm. unfold IndexManager.update_docs_in_index_record,
    CosmosDBClient.get_record, CosmosDBClient.update_or_create_record.
  munfold. simpl. rewrite Hrec. simpl. rewrite Hrm. simpl. by rewrite Hrec.
Qed.

Lemma update_docs_delete_unlisted w customer document_id r :
  World.indexes w !! customer = Some r →
  document_id ∉ IndexRecord.document_ids r →
  IndexManager.update_docs_in_index_record customer document_id "delete" w
  = (Raise (ValueError "list.remove(x): x not in list"), w).
Proof.
  intros Hrec Hnot. apply list_remove_None in Hnot.
  unfold IndexManager.update_docs_in_index_record, CosmosDBClient.get_record.
  munfold. simpl. rewrite Hrec. simpl. by rewrite Hnot.
Qed.
End Registry.

(** ** Tenant registration and index creation *)

Section Provisioning.
Context {E : Type}.
Implicit Type w : World.t E.

Lemma customer_exists_registered w customer_id r :
  World.customers w !! customer_id = Some r →
  Customer.customer_id r = customer_id →
  CustomerIndexSchemaManager.customer_exists customer_id w = (Ok true, w).
Proof.
  intros Hrec Hid. unfold CustomerIndexSchemaManager.customer_exists,
    CosmosDBClient.get_record.
  munfold. simpl. rewrite Hrec, Hid. by rewrite String.eqb_refl.
Qed.

(** Reading a stored configuration goes through [parse_obj]. *)
Lemma get_index_config_parsed w customer_id cfg :
  stored_config w customer_id = Some cfg →
  CustomerIndexSchemaManager.get_index_config customer_id w
  = (match IndexConfig_parse_obj cfg with
     | Ok index_config => Ok (Some index_config)
     | Raise e => Raise e
     end, w).
Proof.
  unfold stored_config. intros Hcfg.
  destruct (World.customers w !! customer_id) as [r|] eqn:Hrec; simpl in Hcfg; [|done].
  destruct (String.eqb (Customer.customer_id r) customer_id) eqn:Hid; [|done].
  apply String.eqb_eq in Hid.
  unfold CustomerIndexSchemaManager.get_index_config.
  munfold. rewrite (customer_exists_registered w customer_id r Hrec Hid).
  unfold CosmosDBClient.get_record. munfold. simpl. rewrite Hrec. simpl.
  rewrite Hcfg. by destruct (IndexConfig_parse_obj cfg).
Qed.

Lemma get_index_config_stored w customer_id cfg :
  stored_config w customer_id = Some cfg →
  IndexConfig_parse_obj cfg = Ok cfg →
  CustomerIndexSchemaManager.get_index_config customer_id w = (Ok (Some cfg), w).
Proof.
  intros Hcfg Hvalid. by rewrite (get_index_config_parsed w customer_id cfg Hcfg), Hvalid.
Qed.

Lemma parse_obj_same cfg cfg' : IndexConfig_parse_obj cfg = Ok cfg' → cfg' = cfg.
Proof. unfold IndexConfig_parse_obj. by destruct (validate_index_key _); intros [= <-]. Qed.

Lemma get_index_config_missing w customer_id :
  stored_config w customer_id = None →
  ∃ entries,
    CustomerIndexSchemaManager.get_index_config customer_id w
    = (Ok None, logged w entries).
Proof.
  unfold stored_config. intros Hcfg.
  unfold CustomerIndexSchemaManager.get_index_config,
    CustomerIndexSchemaManager.customer_exists, CosmosDBClient.get_record.
  munfold. simpl.
  destruct (World.customers w !! customer_id) as [r|] eqn:Hrec; simpl in *.
  - destruct (String.eqb (Customer.customer_id r) customer_id) eqn:Hid; simpl.
    + rewrite Hrec. simpl. rewrite Hcfg. by eexists.
    + by eexists.
  - by eexists.
Qed.
End Provisioning.

Section CreateNewIndex.
Context {E : Type}.
Implicit Type w : World.t E.

Lemma unique_index_name customer_id cfg :
  IndexManager._create_unique_index_name customer_id cfg = customer_id.
Proof. unfold IndexManager._create_unique_index_name. by case_match. Qed.

Lemma create_new_index_no_config w customer_id account_id now admin_id :
  stored_config w customer_id = None →
  ∃ entries,
    IndexManager.create_new_index customer_id account_id now admin_id w
    = (Raise (IndexCreationError
                ("Failed to retrieve index configuration for client " +:+ customer_id)),
       logged w entries).
Proof.
  intros Hcfg. destruct (get_index_config_missing w customer_id Hcfg) as [entries Hget].
  exists entries. unfold IndexManager.create_new_index, IndexManager._get_index_config.
  munfold. by rewrite Hget.
Qed.

Lemma create_new_index_absent w customer_id account_id now admin_id cfg :
  stored_config w customer_id = Some cfg →
  IndexConfig_parse_obj cfg = Ok cfg →
  World.search w !! customer_id = None →
  IndexManager.create_new_index customer_id account_id now admin_id w
  = (Ok (), index_created w customer_id account_id now admin_id cfg).
Proof.
  intros Hcfg Hvalid Habs.
  unfold IndexManager.create_new_index, IndexManager._get_index_config.
  munfold. rewrite (get_index_config_stored w customer_id cfg Hcfg Hvalid).
  rewrite unique_index_name.
  unfold IndexManager._need_to_create_new_index, AISearchIndexClient.check_index_exists,
    AISearchIndexClient.create_index, AISearchIndexClient.create_or_update_index,
    CosmosDBClient.insert_record.
  munfold. simpl. rewrite Habs. simpl. rewrite String.eqb_refl. simpl.
  rewrite Habs. simpl. unfold index_created.
  by rewrite <- !(assoc_L (++)).
Qed.

Lemma create_new_index_present w customer_id account_id now admin_id cfg :
  stored_config w customer_id = Some cfg →
  IndexConfig_parse_obj cfg = Ok cfg →
  is_Some (World.search w !! customer_id) →
  IndexManager.create_new_index customer_id account_id now admin_id w = (Ok (), w).
Proof.
  intros Hcfg Hvalid [idx Hidx].
  unfold IndexManager.create_new_index, IndexManager._get_index_config.
  munfold. rewrite (get_index_config_stored w customer_id cfg Hcfg Hvalid).
  rewrite unique_index_name.
  unfold IndexManager._need_to_create_new_index, AISearchIndexClient.check_index_exists.
  munfold. by rewrite Hidx.
Qed.

(** A stored configuration that [parse_obj] refuses: the validation
    error leaves [create_new_index] as it is, before anything is looked
    up or created. *)
Lemma create_new_index_invalid w customer_id account_id now admin_id cfg e :
  stored_config w customer_id = Some cfg →
  IndexConfig_parse_obj cfg = Raise e →
  IndexManager.create_new_index customer_id account_id now admin_id w = (Raise e, w).
Proof.
  intros Hcfg Hinvalid.
  unfold IndexManager.create_new_index, IndexManager._get_index_config.
  munfold. by rewrite (get_index_config_parsed w customer_id cfg Hcfg), Hinvalid.
Qed.

(** The fields [define_azure_fields] derives, spelled out: one search
    field per field of the schema, in order, and the vector field after
    them when the schema has vector dimensions. *)
Lemma define_azure_fields_lookup index_schema i f :
  IndexSchema.fields index_schema !! i = Some f →
  AISearchIndexClient.define_azure_fields index_schema !! i
  = Some (SearchField.mk (IndexField.name f)
            (match IndexField.field_type f with
             | TString => EdmString
             | TDate => EdmDateTimeOffset
             | TInteger => EdmInt32
             | TFloat => EdmDouble
             | TBoolean => EdmBoolean
             end)
            (IndexField.filterable f) (IndexField.searchable f)
            (IndexField.sortable f) (IndexField.primary_key f) None None).
Proof.
  intros Hf.
  assert (Hmap : (AISearchIndexClient.azure_field <$> IndexSchema.fields index_schema) !! i
                 = Some (AISearchIndexClient.azure_field f)).
  { by rewrite list_lookup_fmap, Hf. }
  unfold AISearchIndexClient.define_azure_fields.
  assert (Hgoal : AISearchIndexClient.azure_field f
                  = SearchField.mk (IndexField.name f)
                      (match IndexField.field_type f with
                       | TString => EdmString
                       | TDate => EdmDateTimeOffset
                       | TInteger => EdmInt32
                       | TFloat => EdmDouble
                       | TBoolean => EdmBoolean
                       end)
                      (IndexField.filterable f) (IndexField.searchable f)
                      (IndexField.sortable f) (IndexField.primary_key f) None None).
  { unfold AISearchIndexClient.azure_field, AISearchIndexClient.field_type_mapping.
    by destruct (IndexField.field_type f). }
  rewrite <- Hgoal.
  destruct (IndexSchema.vector_dimensions index_schema) as [[|n]|]; try done.
  by apply lookup_app_l_Some.
Qed.

Lemma define_azure_fields_rest index_schema :
  drop (length (IndexSchema.fields index_schema))
    (AISearchIndexClient.define_azure_fields index_schema)
  = match IndexSchema.vector_dimensions index_schema with
    | Some (S n) =>
        [SearchField.mk "embedding" CollectionSingle false false false false
           (Some (S n)) (Some "my-vector-search-profile")]
    | _ => []
    end.
Proof.
  unfold AISearchIndexClient.define_azure_fields.
  assert (Hlen : length (AISearchIndexClient.azure_field
                           <$> IndexSchema.fields index_schema)
                 = length (IndexSchema.fields index_schema)) by apply length_fmap.
  destruct (IndexSchema.vector_dimensions index_schema) as [[|n]|].
  - rewrite <- Hlen. apply drop_all.
  - rewrite <- Hlen. by rewrite drop_app_length.
  - rewrite <- Hlen. apply drop_all.
Qed.

(** C8. [create_new_index] fails with the configuration-not-found error
    ([IndexCreationError]) when the tenant has no stored index
    configuration, leaving every store as it was. With a stored
    configuration that passes the validation of [IndexConfig] when it is
    read, the index name is the tenant id, whatever the strategy. When
    the search service has no index of that name, the call succeeds and
    the index then exists without units, with one search field per field
    of the configuration's schema, in order, carrying the field's name,
    the search type of its type and its four flags, followed by the
    vector field when the schema has vector dimensions; the registry
    record inserted for it names the tenant, the index and the account
    and lists no document; nothing else is written. When the index
    exists, the world is left exactly as it was. A stored configuration
    that does not pass the validation makes the call raise the
    validation error, and nothing is created or inserted. *)
Theorem C8_create_new_index w customer_id account_id now admin_id :
  (stored_config w customer_id = None →
   ∃ entries,
     IndexManager.create_new_index customer_id account_id now admin_id w
     = (Raise (IndexCreationError
                 ("Failed to retrieve index configuration for client " +:+ customer_id)),
        logged w entries))
  ∧ (∀ cfg, stored_config w customer_id = Some cfg →
       IndexConfig_parse_obj cfg = Ok cfg →
       IndexManager._create_unique_index_name customer_id cfg = customer_id
       ∧ (World.search w !! customer_id = None →
          ∃ w' idx,
            IndexManager.create_new_index customer_id account_id now admin_id w
            = (Ok (), w')
            ∧ World.search w' !! customer_id = Some idx
            ∧ SearchIndex.docs idx = []
            ∧ (∀ i f,
                 IndexSchema.fields (IndexConfig.index_schema cfg) !! i = Some f →
                 SearchIndex.fields idx !! i
                 = Some (SearchField.mk (IndexField.name f)
                           (match IndexField.field_type f with
                            | TString => EdmString
                            | TDate => EdmDateTimeOffset
                            | TInteger => EdmInt32
                            | TFloat => EdmDouble
                            | TBoolean => EdmBoolean
                            end)
                           (IndexField.filterable f) (IndexField.searchable f)
                           (IndexField.sortable f) (IndexField.primary_key f)
                           None None))
            ∧ drop (length (IndexSchema.fields (IndexConfig.index_schema cfg)))
                (SearchIndex.fields idx)
              = match IndexSchema.vector_dimensions (IndexConfig.index_schema cfg) with
                | Some (S n) =>
                    [SearchField.mk "embedding" CollectionSingle false false false false
                       (Some (S n)) (Some "my-vector-search-profile")]
                | _ => []
                end
            ∧ World.indexes w' !! customer_id
              = Some (IndexRecord.mk customer_id customer_id [account_id] []
                        now now admin_id)
            ∧ (∀ other, other ≠ customer_id →
                 World.search w' !! other = World.search w !! other
                 ∧ World.indexes w' !! other = World.indexes w !! other)
            ∧ World.customers w' = World.customers w
            ∧ World.documents w' = World.documents w
            ∧ World.blobs w' = World.blobs w)
       ∧ (is_Some (World.search w !! customer_id) →
          IndexManager.create_new_index customer_id account_id now admin_id w
          = (Ok (), w)))
  ∧ (∀ cfg e, stored_config w customer_id = Some cfg →
       IndexConfig_parse_obj cfg = Raise e →
       e = ValidationError "IndexConfig" ["indexing_strategy_config.index_key"]
       ∧ IndexManager.create_new_index customer_id account_id now admin_id w
         = (Raise e, w)).
Proof.
  split; [apply create_new_index_no_config|]. split.
  - intros cfg Hcfg Hvalid. split; [apply unique_index_name|]. split.
    + intros Habs. eexists _, _. split; [by apply create_new_index_absent|].
      unfold index_created. simpl. rewrite !lookup_insert_eq.
      split; [done|]. split; [done|]. split; [apply define_azure_fields_lookup|].
      split; [apply define_azure_fields_rest|]. split; [done|]. split; [|done].
      intros other Hother. by rewrite !lookup_insert_ne.
    + intros Hidx. by eapply create_new_index_present.
  - intros cfg e Hcfg Hinvalid. split; [|by eapply create_new_index_invalid].
    unfold IndexConfig_parse_obj in Hinvalid.
    destruct (validate_index_key _); by simplify_eq.
Qed.
End CreateNewIndex.

Section Registration.
Context {E : Type}.
Implicit Type w : World.t E.

(** C9. Registering a tenant id that is already registered returns
    [False]: only an error is logged, the customer collection is the one
    before the call, and the stored record, with its index
    configuration, is still the record found under the tenant id. *)
Theorem C9_register_existing_customer w customer_id index_config r :
  World.customers w !! customer_id = Some r →
  Customer.customer_id r = customer_id →
  CustomerIndexSchemaManager.register_customer customer_id index_config w
  = (Ok false,
     logged w [(ERROR, "Customer with name '" +:+ customer_id +:+ "' already exists")])
  ∧ World.customers
      (CustomerIndexSchemaManager.register_customer customer_id index_config w).2
    = World.customers w
  ∧ World.customers
      (CustomerIndexSchemaManager.register_customer customer_id index_config w).2
      !! customer_id = Some r.
Proof.
  intros Hrec Hid.
  assert (CustomerIndexSchemaManager.register_customer customer_id index_config w
          = (Ok false,
             logged w [(ERROR, "Customer with name '" +:+ customer_id
                               +:+ "' already exists")])) as Hrun.
  { unfold CustomerIndexSchemaManager.register_customer. munfold.
    by rewrite (customer_exists_registered w customer_id r Hrec Hid). }
  rewrite Hrun. simpl. done.
Qed.
End Registration.

Section RegistryClaims.
Context {E : Type}.
Implicit Type w : World.t E.

(** C10. When the registry record exists and its [document_ids] does not
    list the document id, the action delete raises the [ValueError] of
    the unguarded [list.remove]; no boolean is returned and the world,
    the record included, is left as it was. *)
Theorem C10_delete_unlisted_id_raises w customer document_id r :
  World.indexes w !! customer = Some r →
  document_id ∉ IndexRecord.document_ids r →
  IndexManager.update_docs_in_index_record customer document_id "delete" w
  = (Raise (ValueError "list.remove(x): x not in list"), w)
  ∧ World.indexes
      (IndexManager.update_docs_in_index_record customer document_id "delete" w).2
      !! customer = Some r.
Proof.
  intros Hrec Hnot.
  rewrite (update_docs_delete_unlisted w customer document_id r Hrec Hnot).
  done.
Qed.
End RegistryClaims.

(** ** The scope filter *)

Lemma filter_account_scope account_id user_id session_id :
  truthy account_id = true →
  _build_filter_expression account_id user_id session_id (Some "account") []
  = Ok (Some ("account_id eq '" +:+ py_str account_id +:+ "'")).
Proof. intros H. unfold _build_filter_expression, scope_conditions. simpl. by rewrite H. Qed.

Lemma filter_user_scope account_id user_id session_id :
  truthy user_id = true →
  _build_filter_expression account_id user_id session_id (Some "user") []
  = Ok (Some ("user_id eq '" +:+ py_str user_id +:+ "'")).
Proof. intros H. unfold _build_filter_expression, scope_conditions. simpl. by rewrite H. Qed.

Lemma filter_session_scope account_id user_id session_id :
  truthy session_id = true →
  _build_filter_expression account_id user_id session_id (Some "session") []
  = Ok (Some ("session_id eq '" +:+ py_str session_id +:+ "'")).
Proof. intros H. unfold _build_filter_expression, scope_conditions. simpl. by rewrite H. Qed.

Lemma filter_global_scope account_id user_id session_id :
  _build_filter_expression account_id user_id session_id (Some "global") []
  = Ok (Some "is_global eq true").
Proof. reflexivity. Qed.


(** C1. At the account scope with an account id given, the filter the
    code builds is the account condition alone, not that condition joined
    by or with the global one; the user and session scopes likewise give
    the single condition on their id. At the global scope the filter is
    the global condition. *)
Theorem C1_narrow_scope_filter_lacks_global :
  _build_filter_expression (Some "a1") None None (Some "account") []
  = Ok (Some "account_id eq 'a1'")
  ∧ _build_filter_expression (Some "a1") None None (Some "account") []
    ≠ Ok (Some "(account_id eq 'a1') or is_global eq true")
  ∧ _build_filter_expression (Some "a1") (Some "u1") None (Some "user") []
    = Ok (Some "user_id eq 'u1'")
  ∧ _build_filter_expression (Some "a1") (Some "u1") (Some "s1") (Some "session") []
    = Ok (Some "session_id eq 's1'")
  ∧ _build_filter_expression None None None (Some "global") []
    = Ok (Some "is_global eq true").
Proof. repeat split; try reflexivity. discriminate. Qed.

(** ** Delete *)

Section Delete.
Context {E : Type}.
Implicit Type w : World.t E.

Lemma remaining_units_other document_id (units : list (Document.t E)) u :
  u ∈ remaining_units document_id units → Document.document_id u ≠ document_id.
Proof.
  unfold remaining_units. rewrite list_elem_of_filter. intros [Hkey Hin] Hid.
  apply Hkey. apply list_elem_of_fmap_2. by apply list_elem_of_filter.
Qed.

(** Deleting the blob touches the blob container and the log only, and
    never raises. *)
Lemma delete_file_frame w container file_url :
  ∃ b,
    (AzureBlobStorage.delete_file container file_url w).1 = Ok b
    ∧ let w1 := (AzureBlobStorage.delete_file container file_url w).2 in
      World.customers w1 = World.customers w
      ∧ World.indexes w1 = World.indexes w
      ∧ World.documents w1 = World.documents w
      ∧ World.search w1 = World.search w.
Proof.
  unfold AzureBlobStorage.delete_file. munfold. simpl.
  destruct (World.blob_fault w); [by eexists|].
  case_bool_decide; by eexists.
Qed.

Lemma delete_file_failure w container file_url :
  (AzureBlobStorage.delete_file container file_url w).1 = Ok false →
  (AzureBlobStorage.delete_file container file_url w).2
  = logged w
      [match World.blob_fault w with
       | Some e =>
           (ERROR, "Error deleting "
                   +:+ AzureBlobStorage._extract_blob_name_from_url container file_url
                   +:+ ": " +:+ e)
       | None =>
           (WARNING, "Blob "
                     +:+ AzureBlobStorage._extract_blob_name_from_url container file_url
                     +:+ " not found, nothing to delete")
       end].
Proof.
  unfold AzureBlobStorage.delete_file. munfold. simpl.
  destruct (World.blob_fault w); [done|].
  case_bool_decide; [done|done].
Qed.

Lemma blob_step_frame w document_url :
  World.customers (blob_step w document_url) = World.customers w
  ∧ World.indexes (blob_step w document_url) = World.indexes w
  ∧ World.documents (blob_step w document_url) = World.documents w
  ∧ World.search (blob_step w document_url) = World.search w.
Proof.
  unfold blob_step. destruct (negb _); [|done].
  by destruct (delete_file_frame w AzureDocumentManager.blob_container document_url)
    as (b & _ & H).
Qed.

Lemma chunk_ids_of_hits (hits : list (Document.t E)) :
  mapM id ((λ result, Document.get result (Some "chunk_id")) <$> hits)
  = Some (Document.chunk_id <$> hits).
Proof.
  apply mapM_Some. induction hits as [|u hits IH]; simpl; constructor; done.
Qed.

Lemma delete_document_chunks w index_name document_id idx :
  World.search w !! index_name = Some idx →
  AISearchIndexClient.first_key (SearchIndex.fields idx) = Some "chunk_id" →
  ∃ responses,
    AISearchIndexClient.delete_document index_name document_id w
    = (Ok responses,
       World.with_search w
         (<[index_name := SearchIndex.mk (SearchIndex.fields idx)
                            (remaining_units document_id (SearchIndex.docs idx))]>
            (World.search w))).
Proof.
  intros Hidx Hkey.
  unfold AISearchIndexClient.delete_document, AISearchIndexClient.list_document_chunks,
    AISearchIndexClient._get_primary_key, AISearchIndexClient.search_by_document_id,
    AISearchIndexClient.upload_delete_actions.
  munfold. simpl. rewrite Hidx. simpl. rewrite Hidx. simpl. rewrite Hidx, Hkey.
  rewrite chunk_ids_of_hits. simpl. by eexists.
Qed.
End Delete.

Section DeleteClaims.
Context {E : Type}.
Implicit Type w : World.t E.

(** An authorized delete, when the tenant's index is keyed by chunk_id
    and the registry lists the document. *)
Lemma delete_authorized w customer document_id user_id rec idx r ids :
  World.documents w !! document_id = Some rec →
  DocumentRecord.user_id rec = user_id →
  World.search w !! customer = Some idx →
  AISearchIndexClient.first_key (SearchIndex.fields idx) = Some "chunk_id" →
  World.indexes w !! customer = Some r →
  list_remove document_id (IndexRecord.document_ids r) = Some ids →
  AzureDocumentManager.delete customer document_id user_id w
  = (Ok (),
     deleted (blob_step w (DocumentRecord.document_url rec))
       customer document_id idx r ids).
Proof.
  intros Hrec Huser Hidx Hkey Hreg Hrm.
  destruct (blob_step_frame w (DocumentRecord.document_url rec))
    as (_ & Hi1 & Hd1 & Hs1).
  set (w1 := blob_step w (DocumentRecord.document_url rec)) in *.
  assert (Hidx1 : World.search w1 !! customer = Some idx) by by rewrite Hs1.
  destruct (delete_document_chunks w1 customer document_id idx Hidx1 Hkey)
    as [responses Hdel].
  assert (Hblob : AzureDocumentManager.delete_blob (DocumentRecord.document_url rec) w
                  = (Ok (), w1)).
  { subst w1. unfold blob_step, AzureDocumentManager.delete_blob.
    destruct (negb _); [|done].
    destruct (delete_file_frame w AzureDocumentManager.blob_container
                (DocumentRecord.document_url rec)) as (b & Hb & _).
    munfold. destruct (AzureBlobStorage.delete_file _ _ w) as [r0 w']. simpl in *.
    by rewrite Hb. }
  unfold AzureDocumentManager.delete.
  rewrite (run_bind_ok _ _ w (Some rec) w);
    [|unfold CosmosDBClient.get_record; munfold; simpl; by rewrite Hrec].
  simpl. rewrite Huser, String.eqb_refl.
  rewrite (run_bind_ok _ _ _ _ _ Hblob), (run_bind_ok _ _ _ _ _ Hdel).
  set (w2 := World.with_search w1 _).
  assert (Hrecdel : CosmosDBClient.delete_record document_collection document_id w2
                    = (Ok true,
                       World.with_documents w2
                         (delete document_id (World.documents w2)))).
  { unfold CosmosDBClient.delete_record. munfold. simpl.
    rewrite Hd1, Hrec. by rewrite bool_decide_eq_true_2. }
  rewrite (run_bind_ok _ _ _ _ _ Hrecdel).
  set (w3 := World.with_documents w2 _).
  assert (Hreg3 : World.indexes w3 !! customer = Some r)
    by (simpl; by rewrite Hi1).
  rewrite (run_bind_ok _ _ _ _ _
             (update_docs_delete w3 customer document_id r ids Hreg3 Hrm)).
  done.
Qed.

Lemma delete_unauthorized w customer document_id user_id :
  AzureDocumentManager.is_user_authorized user_id (World.documents w !! document_id)
  = false →
  AzureDocumentManager.delete customer document_id user_id w
  = (Raise (delete_refused document_id), w).
Proof.
  intros Hauth. unfold AzureDocumentManager.delete, CosmosDBClient.get_record.
  munfold. simpl. by rewrite Hauth.
Qed.
End DeleteClaims.

Section DeleteTheorems.
Context {E : Type}.
Implicit Type w : World.t E.

(** C6. A delete of a document id with no record and a delete of a
    document whose record carries another user id fail with the same
    exception, whose text names only the requested id, and each leaves
    its world exactly as it was. *)
Theorem C6_delete_refusal_uniform (w1 w2 : World.t E)
    customer document_id user_id rec :
  World.documents w1 !! document_id = None →
  World.documents w2 !! document_id = Some rec →
  DocumentRecord.user_id rec ≠ user_id →
  AzureDocumentManager.delete customer document_id user_id w1
  = (Raise (delete_refused document_id), w1)
  ∧ AzureDocumentManager.delete customer document_id user_id w2
    = (Raise (delete_refused document_id), w2)
  ∧ (AzureDocumentManager.delete customer document_id user_id w1).1
    = (AzureDocumentManager.delete customer document_id user_id w2).1.
Proof.
  intros Hnone Hsome Hother.
  assert (H1 := delete_unauthorized w1 customer document_id user_id).
  assert (H2 := delete_unauthorized w2 customer document_id user_id).
  rewrite Hnone in H1. rewrite Hsome in H2. simpl in H1, H2.
  apply String.eqb_neq in Hother. rewrite Hother in H2.
  rewrite (H1 eq_refl), (H2 eq_refl). done.
Qed.
End DeleteTheorems.

(** ** Chunk addressing *)

Section Chunks.
Context {E : Type}.
Implicit Type embeddings : list E.

Lemma convert_from_lookup now document_id account_id user_id is_global session_id
    langchain_docs embeddings idx i doc :
  length embeddings = length langchain_docs →
  langchain_docs !! i = Some doc →
  ∃ u,
    DocumentProcessor.convert_from now idx langchain_docs embeddings
      document_id account_id user_id is_global session_id !! i = Some u
    ∧ Document.document_id u = document_id
    ∧ Document.chunk_id u = document_id +:+ "_chunk_" +:+ pretty (idx + i)
    ∧ Document.chunk_position u = idx + i
    ∧ Document.content u = LangchainDocument.page_content doc.
Proof.
  revert embeddings idx i.
  induction langchain_docs as [|d docs IH]; intros embeddings idx i Hlen Hi; [done|].
  destruct embeddings as [|e embeddings]; [done|]. simpl in Hlen.
  destruct i as [|i]; simpl in *.
  - injection Hi as ->. eexists. split; [done|]. simpl.
    rewrite Nat.add_0_r. done.
  - destruct (IH embeddings (S idx) i ltac:(lia) Hi) as (u & Hu & H1 & H2 & H3 & H4).
    exists u. rewrite Hu, H2, H3, H4. repeat split; try done.
    + by rewrite Nat.add_succ_r.
    + lia.
Qed.

Lemma convert_from_length now document_id account_id user_id is_global session_id
    langchain_docs embeddings idx :
  length embeddings = length langchain_docs →
  length (DocumentProcessor.convert_from now idx langchain_docs embeddings
            document_id account_id user_id is_global session_id)
  = length langchain_docs.
Proof.
  revert embeddings idx.
  induction langchain_docs as [|d docs IH]; intros embeddings idx Hlen; [done|].
  destruct embeddings as [|e embeddings]; [done|]. simpl in *.
  f_equal. apply IH. lia.
Qed.

Lemma convert_from_chunk_ids now document_id account_id user_id is_global session_id
    langchain_docs embeddings idx :
  length embeddings = length langchain_docs →
  Document.chunk_id
    <$> DocumentProcessor.convert_from now idx langchain_docs embeddings
          document_id account_id user_id is_global session_id
  = (λ i, document_id +:+ "_chunk_" +:+ pretty i) <$> seq idx (length langchain_docs).
Proof.
  revert embeddings idx.
  induction langchain_docs as [|d docs IH]; intros embeddings idx Hlen; [done|].
  destruct embeddings as [|e embeddings]; [done|]. simpl in *.
  f_equal. apply IH. lia.
Qed.

Lemma convert_from_document_id now document_id account_id user_id is_global session_id
    langchain_docs embeddings idx u :
  u ∈ DocumentProcessor.convert_from now idx langchain_docs embeddings
        document_id account_id user_id is_global session_id →
  Document.document_id u = document_id.
Proof.
  revert embeddings idx.
  induction langchain_docs as [|d docs IH]; intros embeddings idx.
  - simpl. by intros ?%elem_of_nil.
  - destruct embeddings as [|e embeddings]; simpl; [by intros ?%elem_of_nil|].
    intros [->|Hin]%elem_of_cons; [done|]. by eapply IH.
Qed.

(** Distinct positions give distinct chunk ids. *)
Lemma chunk_id_inj document_id i j :
  DocumentProcessor._generate_chunk_id document_id i
  = DocumentProcessor._generate_chunk_id document_id j → i = j.
Proof.
  unfold DocumentProcessor._generate_chunk_id. intros H.
  apply (inj (String.app document_id)) in H.
  apply (inj (String.app "_chunk_")) in H.
  by apply (inj pretty) in H.
Qed.
End Chunks.

(** ** Upload *)

Section Upload.
Context {E : Type}.
Implicit Type w : World.t E.

(** The scope checks read nothing and write nothing. *)
Lemma destination_prefix_for_frame w customer account_id user_id session_id scope :
  (AzureDocumentManager.destination_prefix_for customer
     account_id user_id session_id scope w).2 = w.
Proof.
  unfold AzureDocumentManager.destination_prefix_for. munfold.
  repeat case_match; simplify_eq; done.
Qed.

Lemma convert_docs_frame w index_name idx (documents : list (Document.t E)) :
  World.search w !! index_name = Some idx →
  ∃ records entries,
    mapM (AISearchIndexClient.convert_doc_to_search_record index_name) documents w
    = (Ok records, logged w entries)
    ∧ omap id records ⊆ documents.
Proof.
  intros Hidx. revert w Hidx.
  induction documents as [|d documents IH]; intros w Hidx.
  - exists [], []. split; [|done]. unfold logged. simpl. munfold.
    destruct w; simpl. by rewrite app_nil_r.
  - simpl.
    assert (∃ o entries,
      AISearchIndexClient.convert_doc_to_search_record index_name d w
      = (Ok o, logged w entries) ∧ (o = Some d ∨ o = None)) as (o & e1 & Hd & Ho).
    { unfold AISearchIndexClient.convert_doc_to_search_record,
        AISearchIndexClient._get_primary_key. munfold. simpl. rewrite Hidx. simpl.
      rewrite Hidx.
      destruct (match AISearchIndexClient.first_key (SearchIndex.fields idx) with
                | Some k => bool_decide (k ∈ SearchField.name <$> SearchIndex.fields idx)
                | None => false
                end).
      - exists (Some d), []. split; [|by left]. unfold logged. destruct w; simpl.
        by rewrite app_nil_r.
      - eexists None, [_]. split; [|by right]. done. }
    rewrite (run_bind_ok _ _ _ _ _ Hd).
    destruct (IH (logged w e1) Hidx) as (records & e2 & Hrest & Hsub).
    rewrite (run_bind_ok _ _ _ _ _ Hrest).
    exists (o :: records), (e1 ++ e2). split.
    + unfold logged. simpl. munfold. by rewrite (assoc_L (++)).
    + destruct Ho as [-> | ->]; simpl.
      * by apply list_subseteq_skip.
      * by apply list_subseteq_cons.
Qed.

(** Indexing writes to the search service and the log only, and succeeds
    whenever the index exists. *)
Lemma index_documents_frame w index_name (documents : list (Document.t E)) :
  is_Some (World.search w !! index_name) →
  ∃ responses w',
    AISearchIndexClient.index_documents index_name documents w = (Ok responses, w')
    ∧ World.customers w' = World.customers w
    ∧ World.indexes w' = World.indexes w
    ∧ World.documents w' = World.documents w
    ∧ World.blobs w' = World.blobs w.
Proof.
  intros [idx Hidx]. unfold AISearchIndexClient.index_documents.
  rewrite (run_bind_ok _ _ w (AISearchIndexClient.first_key (SearchIndex.fields idx)) w);
    [|unfold AISearchIndexClient._get_primary_key; munfold; by rewrite Hidx].
  destruct (convert_docs_frame w index_name idx documents Hidx)
    as (records & entries & Hconv & _).
  rewrite (run_bind_ok _ _ _ _ _ Hconv).
  unfold AISearchIndexClient.upload_documents. munfold. simpl. rewrite Hidx.
  by eexists _, _.
Qed.

Lemma update_docs_add_frame w customer document_id :
  ∃ b w',
    IndexManager.update_docs_in_index_record customer document_id "add" w = (Ok b, w')
    ∧ World.documents w' = World.documents w.
Proof.
  destruct (World.indexes w !! customer) as [r|] eqn:Hreg.
  - rewrite (update_docs_add w customer document_id r Hreg). by eexists _, _.
  - rewrite (update_docs_missing_record w customer document_id "add" Hreg).
    by eexists _, _.
Qed.
End Upload.

Section UploadRecord.
Context {E : Type}.
Variable loader_load : FileType → string → list LangchainDocument.t.
Variable split_documents : Splitter → list LangchainDocument.t → list LangchainDocument.t.
Variable embed_texts : list string → list E.
Variable getsize : string → option nat.
Implicit Type w : World.t E.

Lemma process_document_units now file account_id user_id is_global session_id ft sp :
  FileType_from_path file = Ok ft →
  get_splitter ft DocumentProcessor.chunk_size DocumentProcessor.chunk_overlap = Ok sp →
  let chunks := emitted_chunks loader_load split_documents getsize file ft sp in
  DocumentProcessor.process_document loader_load split_documents embed_texts getsize
    now file account_id user_id is_global session_id
  = Ok (DocumentProcessor._convert_to_documents now chunks (stem file)
          account_id user_id is_global session_id
          (embed_texts (LangchainDocument.page_content <$> chunks))).
Proof.
  intros Hft Hsp. simpl.
  unfold DocumentProcessor.process_document, DocumentProcessor._load_document,
    DocumentProcessor._chunk_document, get_loader.
  rewrite Hft. by destruct ft; rewrite ?Hsp.
Qed.

(** [upload_file] on a file that exists, and on one that does not. *)
Lemma upload_file_run w file prefix size :
  getsize file = Some size →
  AzureBlobStorage.upload_file getsize file prefix w
  = (Ok (),
     logged (World.with_blobs w
               ({[rstrip_slash prefix +:+ "/" +:+ basename file]} ∪ World.blobs w))
       [(INFO, "Uploaded " +:+ file +:+ " to "
               +:+ rstrip_slash prefix +:+ "/" +:+ basename file)]).
Proof. intros Hsize. unfold AzureBlobStorage.upload_file. munfold. by rewrite Hsize. Qed.


Lemma upload_writes_record w customer now index_name file
    account_id user_id session_id scope prefix size first rest :
  (AzureDocumentManager.destination_prefix_for customer
     (Some account_id) (Some user_id) (Some session_id) scope w).1 = Ok prefix →
  DocumentProcessor.process_document loader_load split_documents embed_texts getsize
    now file (Some account_id) (Some user_id) (py_eq scope "global") (Some session_id)
  = Ok (first :: rest) →
  is_Some (World.search w !! index_name) →
  getsize file = Some size →
  ∃ w',
    AzureDocumentManager.upload loader_load split_documents embed_texts getsize
      customer now index_name file
      (Some account_id) (Some user_id) (Some session_id) scope w = (Ok (), w')
    ∧ World.documents w' !! Document.document_id first
      = Some (DocumentRecord.mk (Document.document_id first) customer index_name
                account_id user_id session_id (py_str scope)
                (path_join prefix file) (basename file) size true
                (Document.created_at first)
                (Document.chunk_id <$> first :: rest)).
Proof.
  intros Hprefix Hunits Hidx Hsize.
  assert (Hdpf : AzureDocumentManager.destination_prefix_for customer
                   (Some account_id) (Some user_id) (Some session_id) scope w
                 = (Ok prefix, w)).
  { pose proof (destination_prefix_for_frame w customer (Some account_id)
                  (Some user_id) (Some session_id) scope) as Hfr.
    destruct (AzureDocumentManager.destination_prefix_for _ _ _ _ _ w) as [r0 w0].
    simpl in *. by subst. }
  unfold AzureDocumentManager.upload.
  rewrite (run_bind_ok _ _ _ _ _ Hdpf).
  rewrite (run_bind_ok _ _ _ _ _ (upload_file_run w file prefix size Hsize)).
  set (wa := logged _ _).
  assert (Hidxa : is_Some (World.search wa !! index_name)) by done.
  rewrite (run_bind_ok _ _ wa (first :: rest) wa);
    [|by unfold lift; rewrite Hunits].
  rewrite (run_bind_ok _ _ wa first wa); [|done].
  destruct (index_documents_frame wa index_name (first :: rest) Hidxa)
    as (responses & wb & Hindex & _ & _ & Hdocs & _).
  rewrite (run_bind_ok _ _ _ _ _ Hindex).
  rewrite Hsize.
  rewrite (run_bind_ok _ _ wb size wb); [|done].
  set (rec := DocumentRecord.mk _ _ _ _ _ _ _ _ _ _ _ _ _).
  rewrite (run_bind_ok _ _ wb rec wb); [|done].
  set (wc := (AzureDocumentManager._update_document_record rec wb).2).
  assert (AzureDocumentManager._update_document_record rec wb = (Ok true, wc)
          ∧ World.documents wc
            = <[Document.document_id first := rec]> (World.documents wb))
    as [Hupd Hdocc].
  { subst wc. unfold AzureDocumentManager._update_document_record,
      CosmosDBClient.update_or_create_record. munfold. simpl.
    by destruct (World.documents wb !! Document.document_id first). }
  rewrite (run_bind_ok _ _ _ _ _ Hupd).
  destruct (update_docs_add_frame wc customer (Document.document_id first))
    as (b & wd & Hadd & Hdocd).
  rewrite (run_bind_ok _ _ _ _ _ Hadd).
  exists wd. split; [done|].
  rewrite Hdocd, Hdocc. apply lookup_insert_eq.
Qed.
End UploadRecord.

Section ChunkClaims.
Context {E : Type}.
Variable loader_load : FileType → string → list LangchainDocument.t.
Variable split_documents : Splitter → list LangchainDocument.t → list LangchainDocument.t.
Variable embed_texts : list string → list E.
Variable getsize : string → option nat.
Implicit Type w : World.t E.

(** For a file whose type has a splitter, with an embedder that returns
    one vector per chunk text: processing the file yields one unit per
    emitted chunk, the unit at position [i] carries the content of the
    [i]-th chunk, the chunk id [{document_id}_chunk_{i}] and
    [chunk_position = i], with the file's stem as document id. When the
    splitter emits at least one chunk, the three identifiers are given,
    the scope passes its checks, the index exists and the file has a
    size, the upload succeeds and the document record it writes lists
    exactly those chunk ids in that order. *)
Lemma chunks_addressed_in_order w customer now index_name file
    account_id user_id session_id scope ft sp prefix size :
  FileType_from_path file = Ok ft →
  get_splitter ft DocumentProcessor.chunk_size DocumentProcessor.chunk_overlap = Ok sp →
  let chunks := emitted_chunks loader_load split_documents getsize file ft sp in
  length (embed_texts (LangchainDocument.page_content <$> chunks)) = length chunks →
  (∀ acc usr sess is_global,
     ∃ units,
       DocumentProcessor.process_document loader_load split_documents embed_texts
         getsize now file acc usr is_global sess = Ok units
       ∧ length units = length chunks
       ∧ (∀ i doc, chunks !! i = Some doc →
            ∃ u, units !! i = Some u
                 ∧ Document.document_id u = stem file
                 ∧ Document.chunk_id u = stem file +:+ "_chunk_" +:+ pretty i
                 ∧ Document.chunk_position u = i
                 ∧ Document.content u = LangchainDocument.page_content doc)
       ∧ Document.chunk_id <$> units = expected_chunk_ids (stem file) (length chunks))
  ∧ (0 < length chunks →
     (AzureDocumentManager.destination_prefix_for customer
        (Some account_id) (Some user_id) (Some session_id) scope w).1 = Ok prefix →
     is_Some (World.search w !! index_name) →
     getsize file = Some size →
     ∃ w' rec,
       AzureDocumentManager.upload loader_load split_documents embed_texts getsize
         customer now index_name file
         (Some account_id) (Some user_id) (Some session_id) scope w = (Ok (), w')
       ∧ World.documents w' !! stem file = Some rec
       ∧ DocumentRecord.document_id rec = stem file
       ∧ DocumentRecord.chunk_ids rec
         = expected_chunk_ids (stem file) (length chunks)).
Proof.
  intros Hft Hsp chunks Hlen. split.
  - intros acc usr sess is_global. eexists. split.
    { by apply process_document_units. }
    fold chunks. unfold DocumentProcessor._convert_to_documents. split; [|split].
    + by apply convert_from_length.
    + intros i doc Hi.
      destruct (convert_from_lookup now (stem file) acc usr is_global sess
                  chunks _ 0 i doc Hlen Hi) as (u & Hu & H1 & H2 & H3 & H4).
      exists u. by rewrite Hu, H1, H2, H3, H4.
    + by apply convert_from_chunk_ids.
  - intros Hpos Hprefix Hidx Hsize.
    pose proof (process_document_units loader_load split_documents embed_texts getsize
                  now file (Some account_id) (Some user_id) (py_eq scope "global")
                  (Some session_id) ft sp Hft Hsp) as Hunits.
    simpl in Hunits. fold chunks in Hunits.
    unfold DocumentProcessor._convert_to_documents in Hunits.
    pose proof (convert_from_chunk_ids now (stem file) (Some account_id)
                  (Some user_id) (py_eq scope "global") (Some session_id)
                  chunks _ 0 Hlen) as Hids.
    destruct (DocumentProcessor.convert_from now 0 chunks _ (stem file) _ _ _ _)
      as [|first rest] eqn:Hconv.
    { destruct chunks; [simpl in Hpos; lia | done]. }
    assert (Hfirst : Document.document_id first = stem file).
    { eapply convert_from_document_id. rewrite Hconv. left. }
    destruct (upload_writes_record loader_load split_documents embed_texts getsize
                w customer now index_name file account_id user_id session_id scope
                prefix size first rest Hprefix Hunits Hidx Hsize) as (w' & Hup & Hrec).
    eexists w', _. split; [done|]. rewrite <- Hfirst. split; [done|]. simpl.
    split; [done|]. by rewrite Hfirst.
Qed.
End ChunkClaims.

(** ** The scope checks of upload *)

Section ScopeChecks.
Context {E : Type}.
Variable loader_load : FileType → string → list LangchainDocument.t.
Variable split_documents : Splitter → list LangchainDocument.t → list LangchainDocument.t.
Variable embed_texts : list string → list E.
Variable getsize : string → option nat.
Implicit Type w : World.t E.

(** An upload whose scope checks fail stops there: nothing is written. *)
Lemma upload_refused w customer now index_name file
    account_id user_id session_id scope e :
  AzureDocumentManager.destination_prefix_for customer
    account_id user_id session_id scope w = (Raise e, w) →
  AzureDocumentManager.upload loader_load split_documents embed_texts getsize
    customer now index_name file account_id user_id session_id scope w
  = (Raise e, w).
Proof.
  intros H. unfold AzureDocumentManager.upload. by apply run_bind_raise.
Qed.

Lemma filter_always_built_at_global account_id user_id session_id custom_filters :
  ∃ f, _build_filter_expression account_id user_id session_id (Some "global")
         custom_filters = Ok f.
Proof.
  unfold _build_filter_expression. simpl.
  destruct (foldl add_custom_filter _ custom_filters); by eexists.
Qed.

End ScopeChecks.

(** ** The properties at the tenant acme *)

(** C2. The identifiers a scope requires are not all validated before the
    upload acts. The filter of a search at the session scope raises without
    a session id, and an upload at the account or the user scope without
    its own id raises with the world untouched; an upload at the session
    scope without a session id passes the scope checks: the storage
    prefix is built with the word None in place of the session id, the
    blob is written under it and the units are indexed, and only then the
    construction of the document record refuses the missing id, so that
    no record is written. The ids of the enclosing scopes are asked for
    nowhere: at the user scope neither the upload nor the filter of a
    search asks for the account id. *)
Theorem C2_session_upload_not_validated :
  _build_filter_expression (Some "a1") (Some "u1") None (Some "session") []
  = Raise (AssertionError "")
  ∧ Scenario.upload_report None (Some "u1") (Some "s1") (Some "account")
      Scenario.acme_world
    = (Raise (AssertionError
                "account ID must be provided for session-specific indexing"),
       Scenario.acme_world)
  ∧ Scenario.upload_report (Some "a1") None (Some "s1") (Some "user")
      Scenario.acme_world
    = (Raise (AssertionError "user ID must be provided for user-specific indexing"),
       Scenario.acme_world)
  ∧ (AzureDocumentManager.destination_prefix_for "acme"
       (Some "a1") (Some "u1") None (Some "session") Scenario.acme_world).1
    = Ok "acme/a1/u1/None"
  ∧ (Scenario.upload_report (Some "a1") (Some "u1") None (Some "session")
       Scenario.acme_world).1
    = Raise (ValidationError "DocumentRecord" ["session_id"])
  ∧ elements
      (World.blobs
         (Scenario.upload_report (Some "a1") (Some "u1") None (Some "session")
            Scenario.acme_world).2)
    = ["acme/a1/u1/None/report.txt"]
  ∧ (λ idx, Document.chunk_id <$> SearchIndex.docs idx)
      <$> World.search
            (Scenario.upload_report (Some "a1") (Some "u1") None (Some "session")
               Scenario.acme_world).2 !! "acme"
    = Some ["report_chunk_0"; "report_chunk_1"]
  ∧ World.documents
      (Scenario.upload_report (Some "a1") (Some "u1") None (Some "session")
         Scenario.acme_world).2 !! "report" = None
  ∧ (AzureDocumentManager.destination_prefix_for "acme"
       None (Some "u1") None (Some "user") Scenario.acme_world).1
    = Ok "acme/None/u1"
  ∧ _build_filter_expression None (Some "u1") None (Some "user") []
    = Ok (Some "user_id eq 'u1'").
Proof. repeat split; vm_compute; reflexivity. Qed.


(** C4. With the registry record absent, [update_docs_in_index_record]
    returns [False] with a warning for either action; with the record
    present, add appends the id and returns [True], and delete removes a
    listed id and returns [True]. With the record present and the id not
    listed, delete returns neither [True] nor [False]: it raises the
    [ValueError] of [list.remove], and the record is left as it was. *)
Theorem C4_delete_of_unlisted_id_raises :
  IndexManager.update_docs_in_index_record "acme" "report" "add"
    Scenario.registered_world
  = (Ok false,
     logged Scenario.registered_world
       [(WARNING, "Index record not found for index name acme. Could not update record.")])
  ∧ IndexManager.update_docs_in_index_record "acme" "report" "delete"
      Scenario.registered_world
    = (Ok false,
       logged Scenario.registered_world
         [(WARNING,
           "Index record not found for index name acme. Could not update record.")])
  ∧ (IndexManager.update_docs_in_index_record "acme" "report" "add"
       Scenario.acme_world).1 = Ok true
  ∧ IndexRecord.document_ids
      <$> World.indexes
            (IndexManager.update_docs_in_index_record "acme" "report" "add"
               Scenario.acme_world).2 !! "acme" = Some ["report"]
  ∧ (IndexManager.update_docs_in_index_record "acme" "report" "delete"
       Scenario.uploaded_world).1 = Ok true
  ∧ IndexRecord.document_ids
      <$> World.indexes
            (IndexManager.update_docs_in_index_record "acme" "report" "delete"
               Scenario.uploaded_world).2 !! "acme" = Some []
  ∧ World.indexes Scenario.acme_world !! "acme"
    = Some (IndexRecord.mk "acme" "acme" ["a1"] [] "t0" "t0" "admin")
  ∧ IndexManager.update_docs_in_index_record "acme" "report" "delete"
      Scenario.acme_world
    = (Raise (ValueError "list.remove(x): x not in list"), Scenario.acme_world)
  ∧ (IndexManager.update_docs_in_index_record "acme" "report" "delete"
       Scenario.acme_world).1 ≠ Ok true
  ∧ (IndexManager.update_docs_in_index_record "acme" "report" "delete"
       Scenario.acme_world).1 ≠ Ok false.
Proof. repeat split; try (vm_compute; reflexivity); discriminate. Qed.

(** C5. A delete does not always take the document id out of the owning
    registry record, and the registry and index it works on are those of
    the caller's tenant, not those of the record. After user u1 of acme
    uploaded report.txt twice, the registry record of acme lists the id
    twice; the owner's delete succeeds, removes the document record and
    every unit of the document, and the registry record of acme still
    lists the id; the next delete of the id is refused. And a delete
    asked under the tenant globex with the user id u1 removes the
    document record of acme's report, leaves its units in the index of
    acme and its id in the registry record of acme, and raises. *)
Theorem C5_delete_leaves_registry_entry :
  let w := Scenario.reuploaded_world in
  let w' := (AzureDocumentManager.delete "acme" "report" "u1" w).2 in
  let v := Scenario.two_tenants_world in
  let v' := (AzureDocumentManager.delete "globex" "report" "u1" v).2 in
  (λ r, (DocumentRecord.customer_id r, DocumentRecord.index_name r,
         DocumentRecord.user_id r)) <$> World.documents w !! "report"
  = Some ("acme", "acme", "u1")
  ∧ (λ r, (IndexRecord.customer_id r, IndexRecord.document_ids r))
      <$> World.indexes w !! "acme" = Some ("acme", ["report"; "report"])
  ∧ (AzureDocumentManager.delete "acme" "report" "u1" w).1 = Ok ()
  ∧ World.documents w' !! "report" = None
  ∧ SearchIndex.docs <$> World.search w' !! "acme" = Some []
  ∧ IndexRecord.document_ids <$> World.indexes w' !! "acme" = Some ["report"]
  ∧ (∃ r, World.indexes w' !! "acme" = Some r ∧ "report" ∈ IndexRecord.document_ids r)
  ∧ AzureDocumentManager.delete "acme" "report" "u1" w'
    = (Raise (delete_refused "report"), w')
  ∧ (λ r, (DocumentRecord.customer_id r, DocumentRecord.user_id r))
      <$> World.documents v !! "report" = Some ("acme", "u1")
  ∧ (AzureDocumentManager.delete "globex" "report" "u1" v).1
    = Raise (ValueError "list.remove(x): x not in list")
  ∧ World.documents v' !! "report" = None
  ∧ (λ idx, Document.chunk_id <$> SearchIndex.docs idx) <$> World.search v' !! "acme"
    = Some ["report_chunk_0"; "report_chunk_1"]
  ∧ IndexRecord.document_ids <$> World.indexes v' !! "acme" = Some ["report"].
Proof.
  intros w w' v v'.
  do 6 (split; [vm_compute; reflexivity|]).
  split; [exists Scenario.acme_registry; split; [vm_compute; reflexivity | left]|].
  repeat split; vm_compute; reflexivity.
Qed.

(** C7. A document whose splitter emits no chunk gets no document record.
    For an empty text file the splitter emits no chunk and processing
    yields no unit, as many as chunks; the upload then stores the blob
    and raises an [IndexError] where it reads the first unit, and no
    document record is written. For report.txt, whose splitter emits two
    chunks, processing yields the units report_chunk_0 and
    report_chunk_1 at the positions 0 and 1, and the record written
    lists these two ids in that order. *)
Theorem C7_no_record_for_empty_document :
  emitted_chunks Scenario.blank_loader Scenario.word_splitter Scenario.zero_size
    "acme/u1/empty.txt" TXT Scenario.txt_splitter = []
  ∧ DocumentProcessor.process_document Scenario.blank_loader Scenario.word_splitter
      Scenario.length_embedder Scenario.zero_size "t1" "acme/u1/empty.txt"
      (Some "a1") (Some "u1") false (Some "s1") = Ok []
  ∧ (Scenario.upload_blank (Some "a1") (Some "u1") (Some "s1") (Some "session")
       Scenario.acme_world).1 = Raise (IndexError "list index out of range")
  ∧ elements
      (World.blobs
         (Scenario.upload_blank (Some "a1") (Some "u1") (Some "s1") (Some "session")
            Scenario.acme_world).2) = ["acme/a1/u1/s1/empty.txt"]
  ∧ World.documents
      (Scenario.upload_blank (Some "a1") (Some "u1") (Some "s1") (Some "session")
         Scenario.acme_world).2 = ∅
  ∧ length (emitted_chunks Scenario.txt_loader Scenario.word_splitter
              Scenario.known_size "acme/u1/report.txt" TXT Scenario.txt_splitter) = 2
  ∧ (λ u, (Document.chunk_id u, Document.chunk_position u)) <$> Scenario.report_units
    = [("report_chunk_0", 0); ("report_chunk_1", 1)]
  ∧ (Scenario.upload_report (Some "a1") (Some "u1") (Some "s1") (Some "session")
       Scenario.acme_world).1 = Ok ()
  ∧ DocumentRecord.chunk_ids <$> World.documents Scenario.uploaded_world !! "report"
    = Some ["report_chunk_0"; "report_chunk_1"].
Proof. repeat split; vm_compute; reflexivity. Qed.

(** A tenant registered with the keyed strategy and no key has a stored
    configuration, and no index; [create_new_index] neither fails with
    the configuration-not-found error nor creates the index: reading the
    configuration raises the validation error of [IndexConfig], and
    nothing is written. *)
Lemma C8_counterexample :
  stored_config Scenario.keyless_world "initech" = Some Scenario.keyless_config
  ∧ World.search Scenario.keyless_world !! "initech" = None
  ∧ IndexManager.create_new_index "initech" "a1" "t0" "admin" Scenario.keyless_world
    = (Raise (ValidationError "IndexConfig" ["indexing_strategy_config.index_key"]),
       Scenario.keyless_world)
  ∧ (IndexManager.create_new_index "initech" "a1" "t0" "admin"
       Scenario.keyless_world).1 ≠ Ok ()
  ∧ World.search
      (IndexManager.create_new_index "initech" "a1" "t0" "admin"
         Scenario.keyless_world).2 !! "initech" = None.
Proof. repeat split; try (vm_compute; reflexivity); discriminate. Qed.

Lemma C6_witness :
  AzureDocumentManager.delete "acme" "report" "u2" Scenario.acme_world
  = (Raise (delete_refused "report"), Scenario.acme_world)
  ∧ AzureDocumentManager.delete "acme" "report" "u2" Scenario.uploaded_world
    = (Raise (delete_refused "report"), Scenario.uploaded_world)
  ∧ (AzureDocumentManager.delete "acme" "report" "u2" Scenario.acme_world).1
    = (AzureDocumentManager.delete "acme" "report" "u2" Scenario.uploaded_world).1.
Proof.
  apply (C6_delete_refusal_uniform Scenario.acme_world Scenario.uploaded_world
           "acme" "report" "u2" Scenario.report_record).
  - vm_compute; reflexivity.
  - vm_compute; reflexivity.
  - discriminate.
Defined.

Lemma C8_witness :
  (∃ entries,
     IndexManager.create_new_index "acme" "a1" "t0" "admin" Scenario.empty_world
     = (Raise (IndexCreationError
                 "Failed to retrieve index configuration for client acme"),
        logged Scenario.empty_world entries))
  ∧ IndexManager._create_unique_index_name "acme" Scenario.keyed_config = "acme"
  ∧ (∃ w' idx,
       IndexManager.create_new_index "acme" "a1" "t0" "admin" Scenario.registered_world
       = (Ok (), w')
       ∧ World.search w' !! "acme" = Some idx
       ∧ SearchIndex.docs idx = []
       ∧ SearchIndex.fields idx !! 0
         = Some (SearchField.mk "chunk_id" EdmString true false false true None None)
       ∧ drop 3 (SearchIndex.fields idx)
         = [SearchField.mk "embedding" CollectionSingle false false false false
              (Some 4) (Some "my-vector-search-profile")]
       ∧ World.indexes w' !! "acme"
         = Some (IndexRecord.mk "acme" "acme" ["a1"] [] "t0" "t0" "admin"))
  ∧ IndexManager.create_new_index "acme" "a1" "t0" "admin" Scenario.acme_world
    = (Ok (), Scenario.acme_world).
Proof.
  split; [|split; [|split]].
  - apply (C8_create_new_index Scenario.empty_world "acme" "a1" "t0" "admin").
    reflexivity.
  - reflexivity.
  - destruct (C8_create_new_index Scenario.registered_world "acme" "a1" "t0" "admin")
      as (_ & Hstored & _).
    destruct (Hstored Scenario.sample_config) as (_ & Habsent & _);
      [vm_compute; reflexivity | reflexivity |].
    destruct Habsent as (w' & idx & Hrun & Hidx & Hdocs & Hfields & Hrest & Hrec & _);
      [vm_compute; reflexivity|].
    exists w', idx. split; [exact Hrun|]. split; [exact Hidx|]. split; [exact Hdocs|].
    split; [exact (Hfields 0 _ eq_refl)|]. split; [exact Hrest | exact Hrec].
  - apply (C8_create_new_index Scenario.acme_world "acme" "a1" "t0" "admin")
      with (cfg := Scenario.sample_config).
    + vm_compute; reflexivity.
    + reflexivity.
    + vm_compute. by eexists.
Defined.

Lemma C9_witness :
  CustomerIndexSchemaManager.register_customer "acme" Scenario.keyed_config
    Scenario.registered_world
  = (Ok false,
     logged Scenario.registered_world
       [(ERROR, "Customer with name 'acme' already exists")])
  ∧ World.customers
      (CustomerIndexSchemaManager.register_customer "acme" Scenario.keyed_config
         Scenario.registered_world).2
    = World.customers Scenario.registered_world
  ∧ World.customers
      (CustomerIndexSchemaManager.register_customer "acme" Scenario.keyed_config
         Scenario.registered_world).2 !! "acme"
    = Some (Customer.mk "acme" (Some Scenario.sample_config)).
Proof.
  apply (C9_register_existing_customer Scenario.registered_world "acme"
           Scenario.keyed_config (Customer.mk "acme" (Some Scenario.sample_config))).
  - vm_compute; reflexivity.
  - reflexivity.
Defined.

Lemma C10_witness :
  IndexManager.update_docs_in_index_record "acme" "notes" "delete" Scenario.uploaded_world
  = (Raise (ValueError "list.remove(x): x not in list"), Scenario.uploaded_world)
  ∧ World.indexes
      (IndexManager.update_docs_in_index_record "acme" "notes" "delete"
         Scenario.uploaded_world).2 !! "acme"
    = Some Scenario.acme_registry.
Proof.
  apply (C10_delete_unlisted_id_raises Scenario.uploaded_world "acme" "notes"
           Scenario.acme_registry).
  - vm_compute; reflexivity.
  - intros [H|H]%elem_of_cons; [discriminate H | by apply elem_of_nil in H].
Defined.

(** * Further properties of the code *)

(** ** Splitting and joining *)

Lemma str_split_nonempty c s : str_split c s ≠ [].
Proof.
  destruct s as [|a s]; simpl; [done|].
  destruct (str_split c s); [done|]. by destruct (Ascii.eqb a c).
Qed.

Lemma str_split_app c s1 s2 :
  str_split c (s1 +:+ String c s2) = str_split c s1 ++ str_split c s2.
Proof.
  induction s1 as [|a s1 IH]; simpl.
  - rewrite Ascii.eqb_refl. pose proof (str_split_nonempty c s2).
    by destruct (str_split c s2).
  - rewrite IH. pose proof (str_split_nonempty c s1).
    destruct (str_split c s1) as [|p ps]; [done|]. simpl.
    by destruct (Ascii.eqb a c).
Qed.

Lemma str_split_no_sep c s :
  c ∉ list_ascii_of_string s → str_split c s = [s].
Proof.
  induction s as [|a s IH]; simpl; [done|].
  intros Hnot. apply not_elem_of_cons in Hnot as [Hne Hnot].
  rewrite (IH Hnot). destruct (Ascii.eqb a c) eqn:Heq; [|done].
  apply Ascii.eqb_eq in Heq. congruence.
Qed.

Lemma str_split_segments c s :
  Forall (λ p, c ∉ list_ascii_of_string p) (str_split c s).
Proof.
  induction s as [|a s IH]; simpl.
  - constructor; [apply not_elem_of_nil | constructor].
  - pose proof (str_split_nonempty c s).
    destruct (str_split c s) as [|p ps]; [done|].
    apply Forall_cons in IH as [Hp Hps].
    destruct (Ascii.eqb a c) eqn:Heq.
    + constructor; [apply not_elem_of_nil|]. by constructor.
    + constructor; [|done]. simpl. apply not_elem_of_cons. split; [|done].
      intros ->. by rewrite Ascii.eqb_refl in Heq.
Qed.

Lemma join_str_split c s : join (String c "") (str_split c s) = s.
Proof.
  induction s as [|a s IH]; simpl; [done|].
  pose proof (str_split_nonempty c s).
  destruct (str_split c s) as [|p ps] eqn:Hs; [done|].
  destruct (Ascii.eqb a c) eqn:Heq.
  - apply Ascii.eqb_eq in Heq as ->. simpl in *. by rewrite IH.
  - destruct ps as [|q ps]; simpl in *; by rewrite <- IH.
Qed.

Lemma chars_app s1 s2 :
  list_ascii_of_string (s1 +:+ s2)
  = list_ascii_of_string s1 ++ list_ascii_of_string s2.
Proof. induction s1 as [|a s1 IH]; simpl; [done|]. by rewrite IH. Qed.

Lemma basename_under dir name :
  "/"%char ∉ list_ascii_of_string name →
  basename (dir +:+ "/" +:+ name) = name.
Proof.
  intros Hname. unfold basename.
  change (dir +:+ "/" +:+ name) with (dir +:+ String "/" name).
  rewrite str_split_app, (str_split_no_sep _ name Hname).
  apply last_last.
Qed.

Lemma basename_plain name :
  "/"%char ∉ list_ascii_of_string name → basename name = name.
Proof. intros Hname. unfold basename. by rewrite (str_split_no_sep _ name Hname). Qed.

Lemma cut_suffix_dotted name ext :
  name ≠ "" → ext ≠ "" → "."%char ∉ list_ascii_of_string ext →
  cut_suffix (name +:+ "." +:+ ext) = Some (name, ext).
Proof.
  intros Hname Hext Hdot. unfold cut_suffix.
  change (name +:+ "." +:+ ext) with (name +:+ String "." ext).
  rewrite str_split_app, (str_split_no_sep _ ext Hdot).
  rewrite removelast_last, last_last, join_str_split.
  rewrite length_app. simpl.
  apply String.eqb_neq in Hname, Hext. rewrite Hname, Hext.
  pose proof (str_split_nonempty "." name).
  destruct (str_split "." name); [done|]. simpl.
  by rewrite Nat.add_1_r.
Qed.

(** ** File types and content types *)

Lemma FileType_of_value_value t : FileType_of_value (FileType_value t) = Some t.
Proof. by destruct t. Qed.

Lemma FileType_from_path_extension path t :
  FileType_from_path path = Ok t → extension path = FileType_value t.
Proof.
  unfold FileType_from_path, FileType_of_value.
  destruct (List.find _ _) as [t'|] eqn:Hfind; [|done].
  intros [= ->]. apply find_some in Hfind as [_ Heq].
  by apply String.eqb_eq in Heq.
Qed.

Lemma lower_nonempty s : lower s = "" → s = "".
Proof. by destruct s. Qed.

(** X1. [FileType.from_path] goes by the text after the last dot of the
    base name, in any letter case: a path whose base name is a non-empty
    name, a dot and an extension that lower-cases to the value of a member
    gives that member, with or without a directory in front; and whenever
    it gives a member, the lower-cased extension of the path is that
    member's value. *)
Theorem X1_file_type_by_last_extension t dir name ext path :
  (name ≠ "" →
   "/"%char ∉ list_ascii_of_string name →
   "/"%char ∉ list_ascii_of_string ext →
   "."%char ∉ list_ascii_of_string ext →
   lower ext = FileType_value t →
   FileType_from_path (name +:+ "." +:+ ext) = Ok t
   ∧ FileType_from_path (dir +:+ "/" +:+ name +:+ "." +:+ ext) = Ok t)
  ∧ (FileType_from_path path = Ok t → extension path = FileType_value t).
Proof.
  split; [|apply FileType_from_path_extension].
  intros Hname Hslash Hslash' Hdot Hlower.
  assert (Hext : ext ≠ "").
  { intros ->. by destruct t. }
  assert (Hbase : "/"%char ∉ list_ascii_of_string (name +:+ "." +:+ ext)).
  { rewrite !chars_app. rewrite !not_elem_of_app. repeat split; try done.
    simpl. rewrite not_elem_of_cons. split; [done | apply not_elem_of_nil]. }
  assert (Hcut : ∀ p, basename p = name +:+ "." +:+ ext → FileType_from_path p = Ok t).
  { intros p Hp. unfold FileType_from_path, extension. rewrite Hp.
    rewrite (cut_suffix_dotted name ext Hname Hext Hdot), Hlower.
    by rewrite FileType_of_value_value. }
  split; apply Hcut.
  - by apply basename_plain.
  - by apply (basename_under dir).
Qed.

Lemma X1_witness :
  FileType_from_path "Report.v2.PDF" = Ok PDF
  ∧ FileType_from_path "acme/u1/Report.v2.PDF" = Ok PDF.
Proof.
  apply (X1_file_type_by_last_extension PDF "acme/u1" "Report.v2" "PDF" "");
    first [discriminate | reflexivity | by_decide].
Defined.

Lemma lower_dot s : lower ("." +:+ s) = "." +:+ lower s.
Proof. reflexivity. Qed.

(** X2. Every path whose file type [FileType.from_path] recognises has a
    content type of its own in [_get_content_type]: the one listed for the
    member's extension, never the application/octet-stream fallback. *)
Theorem X2_recognised_types_have_content_type path t :
  FileType_from_path path = Ok t →
  _get_content_type path
  = dict_get content_type_map ("." +:+ FileType_value t) "application/octet-stream"
  ∧ _get_content_type path ≠ "application/octet-stream".
Proof.
  intros Hft. apply FileType_from_path_extension in Hft.
  assert (Hsuffix : suffix_lower path = "." +:+ FileType_value t).
  { unfold suffix_lower. unfold extension in Hft.
    destruct (cut_suffix (basename path)) as [[before after]|].
    - by rewrite lower_dot, Hft.
    - by destruct t. }
  unfold _get_content_type. rewrite Hsuffix. split; [done|].
  by destruct t.
Qed.

Lemma X2_witness :
  _get_content_type "acme/u1/slides.PPTX"
  = dict_get content_type_map ("." +:+ FileType_value PPTX) "application/octet-stream"
  ∧ _get_content_type "acme/u1/slides.PPTX" ≠ "application/octet-stream".
Proof. apply (X2_recognised_types_have_content_type "acme/u1/slides.PPTX" PPTX). reflexivity. Defined.

(** ** Blob names *)

Lemma list_find_absent (x : string) (l : list string) :
  x ∉ l → list_find (λ p, p = x) l = None.
Proof.
  intros Hnot. apply list_find_None. apply Forall_forall.
  intros y Hy ->. done.
Qed.

Lemma last_elem_of (l : list string) d : l ≠ [] → List.last l d ∈ l.
Proof.
  induction l as [|x l IH]; [done|]. intros _.
  destruct l as [|y l]; [left|]. right. by apply IH.
Qed.

Lemma extract_blob_name_after_container container base blob :
  "/"%char ∉ list_ascii_of_string container →
  "?"%char ∉ list_ascii_of_string (base +:+ "/" +:+ container +:+ "/" +:+ blob) →
  container ∉ str_split "/" base →
  AzureBlobStorage._extract_blob_name_from_url container
    (base +:+ "/" +:+ container +:+ "/" +:+ blob) = blob.
Proof.
  intros Hslash Hquery Hbase. unfold AzureBlobStorage._extract_blob_name_from_url.
  rewrite (str_split_no_sep _ _ Hquery). simpl hd.
  change (base +:+ "/" +:+ container +:+ "/" +:+ blob)
    with (base +:+ String "/" (container +:+ String "/" blob)).
  rewrite !str_split_app, (str_split_no_sep _ container Hslash).
  rewrite list_find_app_r by by apply list_find_absent.
  simpl. rewrite decide_True by done. simpl.
  rewrite !length_app. simpl.
  pose proof (str_split_nonempty "/" blob) as Hne.
  destruct (str_split "/" blob) as [|q qs] eqn:Hblob; [done|].
  replace (_ <? _) with true by (symmetry; apply Nat.ltb_lt; simpl; lia).
  rewrite (cons_middle container), (assoc_L (++)).
  rewrite drop_app_length' by (rewrite length_app; simpl; lia).
  rewrite <- Hblob. apply join_str_split.
Qed.

Lemma extract_blob_name_ignores_query container url token :
  "?"%char ∉ list_ascii_of_string url →
  AzureBlobStorage._extract_blob_name_from_url container (url +:+ "?" +:+ token)
  = AzureBlobStorage._extract_blob_name_from_url container url.
Proof.
  intros Hquery. unfold AzureBlobStorage._extract_blob_name_from_url.
  change (url +:+ "?" +:+ token) with (url +:+ String "?" token).
  by rewrite str_split_app, (str_split_no_sep _ url Hquery).
Qed.

Section BlobNames.
Context {E : Type}.
Implicit Type w : World.t E.

Lemma delete_file_present w container file_url :
  World.blob_fault w = None →
  AzureBlobStorage._extract_blob_name_from_url container file_url ∈ World.blobs w →
  AzureBlobStorage.delete_file container file_url w
  = (Ok true,
     logged
       (World.with_blobs w
          (World.blobs w
             ∖ {[AzureBlobStorage._extract_blob_name_from_url container file_url]}))
       [(INFO, "Deleted "
               +:+ AzureBlobStorage._extract_blob_name_from_url container file_url)]).
Proof.
  intros Hfault Hin. unfold AzureBlobStorage.delete_file. munfold. simpl.
  rewrite Hfault. by rewrite bool_decide_eq_true_2.
Qed.

(** X3. [delete_file] finds a blob from the URL of its container: for a
    URL made of a base without the container among its segments, the
    container and the blob name, with or without a query string (a SAS
    token) after it, the extracted name is the blob name, slashes
    included; when the service has no fault and the blob is stored,
    [delete_file] removes exactly that blob, logs it and returns [True]. *)
Theorem X3_delete_file_by_container_url w container base blob token :
  "/"%char ∉ list_ascii_of_string container →
  "?"%char ∉ list_ascii_of_string (base +:+ "/" +:+ container +:+ "/" +:+ blob) →
  container ∉ str_split "/" base →
  World.blob_fault w = None →
  blob ∈ World.blobs w →
  AzureBlobStorage._extract_blob_name_from_url container
    (base +:+ "/" +:+ container +:+ "/" +:+ blob) = blob
  ∧ AzureBlobStorage._extract_blob_name_from_url container
      ((base +:+ "/" +:+ container +:+ "/" +:+ blob) +:+ "?" +:+ token) = blob
  ∧ AzureBlobStorage.delete_file container
      ((base +:+ "/" +:+ container +:+ "/" +:+ blob) +:+ "?" +:+ token) w
    = (Ok true,
       logged (World.with_blobs w (World.blobs w ∖ {[blob]}))
         [(INFO, "Deleted " +:+ blob)]).
Proof.
  intros Hslash Hquery Hbase Hfault Hin.
  pose proof (extract_blob_name_after_container container base blob
                Hslash Hquery Hbase) as Hname.
  pose proof (extract_blob_name_ignores_query container _ token Hquery) as Htoken.
  rewrite Hname in Htoken. split; [done|]. split; [done|].
  rewrite delete_file_present; rewrite ?Htoken; done.
Qed.

(** X4. The location [upload] records for a document,
    [os.path.join(destination_prefix, file)], does not lead [delete_file]
    back to the blob [upload_file] wrote: unless the container's name is
    one of the segments of that location, the name extracted from it is
    its last segment, which has no slash, while the blob name is the
    prefix, a slash and the file's base name. A blob stored under that
    name is therefore still stored after [delete_file] was given the
    recorded location, also right after [upload_file] wrote it for a
    file that exists. *)
Theorem X4_recorded_location_misses_blob w container destination_prefix file
    (getsize : string → option nat) :
  container
    ∉ str_split "/" (hd "" (str_split "?" (path_join destination_prefix file))) →
  AzureBlobStorage._extract_blob_name_from_url container
    (path_join destination_prefix file)
  ≠ rstrip_slash destination_prefix +:+ "/" +:+ basename file
  ∧ (rstrip_slash destination_prefix +:+ "/" +:+ basename file ∈ World.blobs w →
     rstrip_slash destination_prefix +:+ "/" +:+ basename file
     ∈ World.blobs
         (AzureBlobStorage.delete_file container
            (path_join destination_prefix file) w).2)
  ∧ (is_Some (getsize file) →
     rstrip_slash destination_prefix +:+ "/" +:+ basename file
     ∈ World.blobs
         (AzureBlobStorage.delete_file container (path_join destination_prefix file)
            (AzureBlobStorage.upload_file getsize file destination_prefix w).2).2).
Proof.
  intros Hseg.
  set (url := path_join destination_prefix file) in *.
  set (b := rstrip_slash destination_prefix +:+ "/" +:+ basename file).
  assert (Hne : AzureBlobStorage._extract_blob_name_from_url container url ≠ b).
  { unfold AzureBlobStorage._extract_blob_name_from_url.
    rewrite (list_find_absent _ _ Hseg).
    intros Heq.
    pose proof (str_split_segments "/" (hd "" (str_split "?" url))) as Hall.
    rewrite Forall_forall in Hall.
    specialize (Hall _ (last_elem_of _ "" (str_split_nonempty _ _))).
    rewrite Heq in Hall. apply Hall. subst b.
    rewrite !chars_app, !elem_of_app. right; left. simpl. left. }
  assert (Hkeep : ∀ w0 : World.t E,
            b ∈ World.blobs w0 →
            b ∈ World.blobs (AzureBlobStorage.delete_file container url w0).2).
  { intros w0 Hin. unfold AzureBlobStorage.delete_file. munfold. simpl.
    destruct (World.blob_fault w0); [done|].
    case_bool_decide; simpl; [|done]. set_solver. }
  split; [done|]. split; [apply Hkeep|].
  intros [size Hsize]. apply Hkeep.
  rewrite (upload_file_run getsize w file destination_prefix size Hsize). simpl.
  apply elem_of_union. left. by apply elem_of_singleton.
Qed.
End BlobNames.

Lemma X3_witness :
  AzureBlobStorage._extract_blob_name_from_url "rag-doc-manager-blob"
    ("https://acct.blob.core.windows.net" +:+ "/" +:+ "rag-doc-manager-blob" +:+ "/"
     +:+ "acme/a1/u1/s1/report.txt") = "acme/a1/u1/s1/report.txt"
  ∧ AzureBlobStorage._extract_blob_name_from_url "rag-doc-manager-blob"
      (("https://acct.blob.core.windows.net" +:+ "/" +:+ "rag-doc-manager-blob" +:+ "/"
        +:+ "acme/a1/u1/s1/report.txt") +:+ "?" +:+ "sv=1&sig=a/b?c")
    = "acme/a1/u1/s1/report.txt"
  ∧ AzureBlobStorage.delete_file "rag-doc-manager-blob"
      (("https://acct.blob.core.windows.net" +:+ "/" +:+ "rag-doc-manager-blob" +:+ "/"
        +:+ "acme/a1/u1/s1/report.txt") +:+ "?" +:+ "sv=1&sig=a/b?c")
      Scenario.uploaded_world
    = (Ok true,
       logged
         (World.with_blobs Scenario.uploaded_world
            (World.blobs Scenario.uploaded_world ∖ {["acme/a1/u1/s1/report.txt"]}))
         [(INFO, "Deleted " +:+ "acme/a1/u1/s1/report.txt")]).
Proof.
  apply (X3_delete_file_by_container_url Scenario.uploaded_world "rag-doc-manager-blob"
           "https://acct.blob.core.windows.net" "acme/a1/u1/s1/report.txt"
           "sv=1&sig=a/b?c"); first [reflexivity | by_decide].
Defined.

Lemma X4_witness :
  AzureBlobStorage._extract_blob_name_from_url "rag-doc-manager-blob"
    (path_join "acme/a1/u1/s1" "acme/u1/report.txt")
  ≠ rstrip_slash "acme/a1/u1/s1" +:+ "/" +:+ basename "acme/u1/report.txt"
  ∧ (rstrip_slash "acme/a1/u1/s1" +:+ "/" +:+ basename "acme/u1/report.txt"
     ∈ World.blobs Scenario.uploaded_world →
     rstrip_slash "acme/a1/u1/s1" +:+ "/" +:+ basename "acme/u1/report.txt"
     ∈ World.blobs
         (AzureBlobStorage.delete_file "rag-doc-manager-blob"
            (path_join "acme/a1/u1/s1" "acme/u1/report.txt")
            Scenario.uploaded_world).2)
  ∧ rstrip_slash "acme/a1/u1/s1" +:+ "/" +:+ basename "acme/u1/report.txt"
    ∈ World.blobs
        (AzureBlobStorage.delete_file "rag-doc-manager-blob"
           (path_join "acme/a1/u1/s1" "acme/u1/report.txt")
           (AzureBlobStorage.upload_file Scenario.known_size "acme/u1/report.txt"
              "acme/a1/u1/s1" Scenario.uploaded_world).2).2.
Proof.
  destruct (X4_recorded_location_misses_blob Scenario.uploaded_world
              "rag-doc-manager-blob" "acme/a1/u1/s1" "acme/u1/report.txt"
              Scenario.known_size) as (Hname & Hkept & Hwritten); [by_decide|].
  split; [exact Hname|]. split; [exact Hkept|]. apply Hwritten. by eexists.
Defined.

(** ** Uploads that fail after the blob was stored *)

Section UploadFailure.
Context {E : Type}.
Variable loader_load : FileType → string → list LangchainDocument.t.
Variable split_documents : Splitter → list LangchainDocument.t → list LangchainDocument.t.
Variable embed_texts : list string → list E.
Variable getsize : string → option nat.
Implicit Type w : World.t E.



End UploadFailure.


(** ** The customer manager *)

Section CustomerManager.
Context {E : Type}.
Implicit Type w : World.t E.

Lemma customer_exists_run w customer_id :
  CustomerIndexSchemaManager.customer_exists customer_id w
  = (Ok (registered w customer_id),
     if registered w customer_id then w
     else logged w [(WARNING, "Customer with id '" +:+ customer_id +:+ "' not found.")]).
Proof.
  unfold CustomerIndexSchemaManager.customer_exists, CosmosDBClient.get_record, registered.
  munfold. simpl.
  destruct (World.customers w !! customer_id) as [r|]; [|done].
  by destruct (String.eqb (Customer.customer_id r) customer_id).
Qed.

Lemma registered_logged w customer_id entries :
  registered (logged w entries) customer_id = registered w customer_id.
Proof. done. Qed.

(** X6. Registering a tenant that is not registered returns [True] and
    stores the configuration under the tenant id: [customer_exists] then
    answers [True], and [get_index_config], which validates what it
    reads, returns exactly the configuration that was registered when
    that is a default strategy without key or a keyed strategy with its
    key, and leaves the world as it is. A keyed strategy registered
    without key is stored all the same, and reading it raises the
    validation error of [IndexConfig]. The records of the other tenants
    are the ones before, and the registry, the document records, the
    indexes and the blobs are untouched. *)
Theorem X6_registered_config_is_read_back w customer_id index_config :
  registered w customer_id = false →
  let w' := (CustomerIndexSchemaManager.register_customer customer_id index_config w).2 in
  (CustomerIndexSchemaManager.register_customer customer_id index_config w).1 = Ok true
  ∧ CustomerIndexSchemaManager.customer_exists customer_id w' = (Ok true, w')
  ∧ stored_config w' customer_id = Some index_config
  ∧ CustomerIndexSchemaManager.get_index_config customer_id w'
    = (match IndexingStrategyConfig.strategy
               (IndexConfig.indexing_strategy_config index_config),
             IndexingStrategyConfig.index_key
               (IndexConfig.indexing_strategy_config index_config) with
       | DEFAULT, None | KEYED, Some _ => Ok (Some index_config)
       | DEFAULT, Some _ | KEYED, None =>
           Raise (ValidationError "IndexConfig" ["indexing_strategy_config.index_key"])
       end, w')
  ∧ (∀ other, other ≠ customer_id →
       World.customers w' !! other = World.customers w !! other)
  ∧ World.indexes w' = World.indexes w
  ∧ World.documents w' = World.documents w
  ∧ World.search w' = World.search w
  ∧ World.blobs w' = World.blobs w.
Proof.
  intros Hnew.
  assert (Hrun : CustomerIndexSchemaManager.register_customer customer_id index_config w
                 = (Ok true,
                    logged
                      (World.with_customers
                         (logged w [(WARNING, "Customer with id '" +:+ customer_id
                                              +:+ "' not found.")])
                         (<[customer_id := Customer.mk customer_id (Some index_config)]>
                            (World.customers w)))
                      [(INFO, "Registered customer: " +:+ customer_id)])).
  { unfold CustomerIndexSchemaManager.register_customer.
    rewrite (run_bind_ok _ _ _ _ _ (customer_exists_run w customer_id)).
    rewrite Hnew. unfold CosmosDBClient.insert_record. by munfold. }
  rewrite Hrun. simpl.
  set (w' := logged _ _).
  assert (Hrec : World.customers w' !! customer_id
                 = Some (Customer.mk customer_id (Some index_config)))
    by apply lookup_insert_eq.
  assert (Hcfg : stored_config w' customer_id = Some index_config).
  { unfold stored_config. rewrite Hrec. simpl. by rewrite String.eqb_refl. }
  split; [done|]. split.
  { by apply (customer_exists_registered w' customer_id _ Hrec). }
  split; [done|]. split.
  { rewrite (get_index_config_parsed w' customer_id index_config Hcfg).
    unfold IndexConfig_parse_obj, validate_index_key.
    by destruct (IndexingStrategyConfig.strategy _),
                (IndexingStrategyConfig.index_key _). }
  split; [|done].
  intros other Hother. subst w'. simpl. by rewrite lookup_insert_ne.
Qed.

Lemma delete_customer_run w customer_id :
  registered w customer_id = true →
  CustomerAdmin.delete_customer customer_id w
  = (Ok true,
     logged (World.with_customers w (delete customer_id (World.customers w)))
       [(INFO, "Deleted customer: " +:+ customer_id)]).
Proof.
  intros Hreg. unfold CustomerAdmin.delete_customer.
  rewrite (run_bind_ok _ _ _ _ _ (customer_exists_run w customer_id)).
  rewrite Hreg. unfold CosmosDBClient.delete_record. by munfold.
Qed.

(** X7. Deleting a registered tenant returns [True] and removes its
    record and nothing else: its index in the search service, its
    registry record, its document records and its blobs are all left in
    place. The tenant is then unknown, so that its configuration cannot
    be read and [create_new_index] fails for it, and a second
    [delete_customer] returns [False]. *)
Theorem X7_delete_customer_leaves_index w customer_id account_id now admin_id :
  registered w customer_id = true →
  let w' := (CustomerAdmin.delete_customer customer_id w).2 in
  (CustomerAdmin.delete_customer customer_id w).1 = Ok true
  ∧ World.customers w' = delete customer_id (World.customers w)
  ∧ World.search w' = World.search w
  ∧ World.indexes w' = World.indexes w
  ∧ World.documents w' = World.documents w
  ∧ World.blobs w' = World.blobs w
  ∧ registered w' customer_id = false
  ∧ (CustomerIndexSchemaManager.get_index_config customer_id w').1 = Ok None
  ∧ (IndexManager.create_new_index customer_id account_id now admin_id w').1
    = Raise (IndexCreationError
               ("Failed to retrieve index configuration for client " +:+ customer_id))
  ∧ (CustomerAdmin.delete_customer customer_id w').1 = Ok false.
Proof.
  intros Hreg. rewrite (delete_customer_run w customer_id Hreg). simpl.
  set (w' := logged _ _).
  assert (Hgone : registered w' customer_id = false).
  { unfold registered. subst w'. simpl. by rewrite lookup_delete_eq. }
  assert (Hcfg : stored_config w' customer_id = None).
  { unfold stored_config. subst w'. simpl. by rewrite lookup_delete_eq. }
  do 6 (split; [done|]). split; [done|]. split; [|split].
  - destruct (get_index_config_missing w' customer_id Hcfg) as [entries ->]. done.
  - destruct (create_new_index_no_config w' customer_id account_id now admin_id Hcfg)
      as [entries ->]. done.
  - unfold CustomerAdmin.delete_customer.
    rewrite (run_bind_ok _ _ _ _ _ (customer_exists_run w' customer_id)).
    rewrite Hgone. by munfold.
Qed.

(** X8. [update_index_config] never updates a configuration: the method
    it calls on the database client, [create_or_update_record], does not
    exist. For a registered tenant the call raises, the failed attribute
    lookup wrapped in an [Exception]; for any other tenant it returns
    [False]. It never returns [True], and the customer collection, with
    the configuration every tenant had, is the one before the call. *)
Theorem X8_update_index_config_never_updates w customer_id index_config :
  (CustomerAdmin.update_index_config customer_id index_config w).1
  = (if registered w customer_id
     then Raise (Exception ("Index config for '" +:+ customer_id
                            +:+ "' failed with error: "
                            +:+ "'CosmosDBClient' object has no attribute "
                            +:+ "'create_or_update_record'"))
     else Ok false)
  ∧ (CustomerAdmin.update_index_config customer_id index_config w).1 ≠ Ok true
  ∧ World.customers (CustomerAdmin.update_index_config customer_id index_config w).2
    = World.customers w
  ∧ (∀ tenant,
       stored_config (CustomerAdmin.update_index_config customer_id index_config w).2
         tenant
       = stored_config w tenant).
Proof.
  assert (Hrun : CustomerAdmin.update_index_config customer_id index_config w
                 = if registered w customer_id
                   then (Raise (Exception
                                  ("Index config for '" +:+ customer_id
                                   +:+ "' failed with error: "
                                   +:+ "'CosmosDBClient' object has no attribute "
                                   +:+ "'create_or_update_record'")), w)
                   else (Ok false,
                         logged w
                           [(WARNING, "Customer with id '" +:+ customer_id
                                      +:+ "' not found.");
                            (ERROR, "Could not update infex config for customer with name '"
                                    +:+ customer_id +:+ "'")])).
  { unfold CustomerAdmin.update_index_config.
    rewrite (run_bind_ok _ _ _ _ _ (customer_exists_run w customer_id)).
    destruct (registered w customer_id); munfold; simpl; [done|].
    unfold logged. simpl. by rewrite <- (assoc_L (++)). }
  rewrite Hrun. destruct (registered w customer_id); simpl; done.
Qed.
End CustomerManager.

Lemma X6_witness :
  let w' :=
    (CustomerIndexSchemaManager.register_customer "globex" Scenario.keyed_config
       Scenario.uploaded_world).2 in
  (CustomerIndexSchemaManager.register_customer "globex" Scenario.keyed_config
     Scenario.uploaded_world).1 = Ok true
  ∧ CustomerIndexSchemaManager.customer_exists "globex" w' = (Ok true, w')
  ∧ stored_config w' "globex" = Some Scenario.keyed_config
  ∧ CustomerIndexSchemaManager.get_index_config "globex" w'
    = (Ok (Some Scenario.keyed_config), w')
  ∧ (∀ other, other ≠ "globex" →
       World.customers w' !! other = World.customers Scenario.uploaded_world !! other)
  ∧ World.indexes w' = World.indexes Scenario.uploaded_world
  ∧ World.documents w' = World.documents Scenario.uploaded_world
  ∧ World.search w' = World.search Scenario.uploaded_world
  ∧ World.blobs w' = World.blobs Scenario.uploaded_world.
Proof.
  apply (X6_registered_config_is_read_back Scenario.uploaded_world "globex"
           Scenario.keyed_config).
  vm_compute; reflexivity.
Defined.

Lemma X7_witness :
  let w' := (CustomerAdmin.delete_customer "acme" Scenario.uploaded_world).2 in
  (CustomerAdmin.delete_customer "acme" Scenario.uploaded_world).1 = Ok true
  ∧ World.customers w' = delete "acme" (World.customers Scenario.uploaded_world)
  ∧ World.search w' = World.search Scenario.uploaded_world
  ∧ World.indexes w' = World.indexes Scenario.uploaded_world
  ∧ World.documents w' = World.documents Scenario.uploaded_world
  ∧ World.blobs w' = World.blobs Scenario.uploaded_world
  ∧ registered w' "acme" = false
  ∧ (CustomerIndexSchemaManager.get_index_config "acme" w').1 = Ok None
  ∧ (IndexManager.create_new_index "acme" "a1" "t2" "admin" w').1
    = Raise (IndexCreationError
               ("Failed to retrieve index configuration for client " +:+ "acme"))
  ∧ (CustomerAdmin.delete_customer "acme" w').1 = Ok false.
Proof.
  apply (X7_delete_customer_leaves_index Scenario.uploaded_world "acme" "a1" "t2" "admin").
  vm_compute; reflexivity.
Defined.

(** ** Index creation and the registry *)

Section IndexLifecycle.
Context {E : Type}.
Implicit Type w : World.t E.

(** X9. [create_new_index] is idempotent for a tenant whose stored
    configuration passes the validation of [IndexConfig] when it is read
    back: whatever the first call did, a second call, also with another
    account, time or admin, succeeds and leaves the world exactly as the
    first call left it. The registry record and the units of an index
    that exists are therefore never reset by provisioning again. For a
    stored configuration that does not pass the validation both calls
    raise its error and change nothing. *)
Theorem X9_create_new_index_idempotent w customer_id account_id now admin_id
    account_id' now' admin_id' cfg :
  stored_config w customer_id = Some cfg →
  let w1 := (IndexManager.create_new_index customer_id account_id now admin_id w).2 in
  (IndexConfig_parse_obj cfg = Ok cfg →
     (IndexManager.create_new_index customer_id account_id now admin_id w).1 = Ok ()
     ∧ is_Some (World.search w1 !! customer_id)
     ∧ IndexManager.create_new_index customer_id account_id' now' admin_id' w1
       = (Ok (), w1))
  ∧ (∀ e, IndexConfig_parse_obj cfg = Raise e →
       IndexManager.create_new_index customer_id account_id now admin_id w = (Raise e, w)
       ∧ IndexManager.create_new_index customer_id account_id' now' admin_id' w
         = (Raise e, w)).
Proof.
  intros Hcfg. split.
  - intros Hvalid.
    destruct (World.search w !! customer_id) as [idx|] eqn:Hidx.
    + rewrite (create_new_index_present w customer_id account_id now admin_id cfg
                 Hcfg Hvalid) by by eexists.
      simpl. split; [done|]. split; [by eexists|].
      apply (create_new_index_present w customer_id account_id' now' admin_id' cfg
               Hcfg Hvalid).
      by eexists.
    + rewrite (create_new_index_absent w customer_id account_id now admin_id cfg
                 Hcfg Hvalid Hidx).
      simpl. split; [done|].
      assert (Hnow : is_Some (World.search
                                (index_created w customer_id account_id now admin_id cfg)
                                !! customer_id)).
      { unfold index_created. simpl. rewrite lookup_insert_eq. by eexists. }
      split; [done|].
      by apply (create_new_index_present _ customer_id account_id' now' admin_id' cfg).
  - intros e He. split.
    + by apply (create_new_index_invalid w customer_id account_id now admin_id cfg e).
    + by apply (create_new_index_invalid w customer_id account_id' now' admin_id' cfg e).
Qed.

Lemma list_remove_app_last x l :
  ∃ l', list_remove x (l ++ [x]) = Some l' ∧ l' ≡ₚ l ∧ (x ∉ l → l' = l).
Proof.
  induction l as [|y l (l' & Hrm & Hperm & Heq)]; simpl.
  - rewrite decide_True by done. by exists [].
  - destruct (decide (y = x)) as [->|Hne].
    + exists (l ++ [x]). split; [done|]. split.
      * by rewrite Permutation_app_comm.
      * intros Hnot. exfalso. apply Hnot. left.
    + rewrite Hrm. simpl. exists (y :: l'). split; [done|]. split.
      * by rewrite Hperm.
      * intros Hnot. rewrite Heq; [done|]. intros Hin. apply Hnot. by right.
Qed.

Lemma with_document_ids_same (r : IndexRecord.t) :
  IndexRecord.with_document_ids r (IndexRecord.document_ids r) = r.
Proof. by destruct r. Qed.

(** X10. Listing a document id in the registry and then removing it
    undoes the listing: with the registry record present, the action add
    followed by the action delete for the same id both return [True], and
    the record then lists the ids it listed before, in the same order when
    the id was not listed before (the record is then the one before), and
    up to order otherwise, since [list.remove] takes the first
    occurrence. No other registry record is touched. *)
Theorem X10_registry_add_then_delete w customer document_id r :
  World.indexes w !! customer = Some r →
  let w1 := (IndexManager.update_docs_in_index_record customer document_id "add" w).2 in
  let w2 := (IndexManager.update_docs_in_index_record customer document_id "delete" w1).2 in
  (IndexManager.update_docs_in_index_record customer document_id "add" w).1 = Ok true
  ∧ (IndexManager.update_docs_in_index_record customer document_id "delete" w1).1
    = Ok true
  ∧ (∃ r', World.indexes w2 !! customer = Some r'
           ∧ IndexRecord.document_ids r' ≡ₚ IndexRecord.document_ids r
           ∧ (document_id ∉ IndexRecord.document_ids r → r' = r))
  ∧ (∀ other, other ≠ customer → World.indexes w2 !! other = World.indexes w !! other).
Proof.
  intros Hreg.
  rewrite (update_docs_add w customer document_id r Hreg). simpl.
  set (r1 := IndexRecord.with_document_ids r (IndexRecord.document_ids r ++ [document_id])).
  set (w1 := registry_written w customer r1).
  assert (Hreg1 : World.indexes w1 !! customer = Some r1) by apply lookup_insert_eq.
  destruct (list_remove_app_last document_id (IndexRecord.document_ids r))
    as (ids & Hrm & Hperm & Heq).
  assert (Hrm1 : list_remove document_id (IndexRecord.document_ids r1) = Some ids)
    by (subst r1; by destruct r).
  rewrite (update_docs_delete w1 customer document_id r1 ids Hreg1 Hrm1). simpl.
  split; [done|]. split; [done|]. split.
  - exists (IndexRecord.with_document_ids r1 ids). rewrite lookup_insert_eq.
    split; [done|]. split; [by destruct r|].
    intros Hnot. rewrite (Heq Hnot). subst r1. by destruct r.
  - intros other Hother. by rewrite !lookup_insert_ne.
Qed.
End IndexLifecycle.

Lemma X9_witness :
  let w1 :=
    (IndexManager.create_new_index "acme" "a1" "t0" "admin" Scenario.registered_world).2 in
  (IndexManager.create_new_index "acme" "a1" "t0" "admin" Scenario.registered_world).1
  = Ok ()
  ∧ is_Some (World.search w1 !! "acme")
  ∧ IndexManager.create_new_index "acme" "a2" "t5" "root" w1 = (Ok (), w1).
Proof.
  destruct (X9_create_new_index_idempotent Scenario.registered_world "acme" "a1" "t0"
              "admin" "a2" "t5" "root" Scenario.sample_config) as [Hvalid _];
    [vm_compute; reflexivity|].
  apply Hvalid. reflexivity.
Defined.

Lemma X10_witness :
  let w1 :=
    (IndexManager.update_docs_in_index_record "acme" "notes" "add"
       Scenario.uploaded_world).2 in
  let w2 := (IndexManager.update_docs_in_index_record "acme" "notes" "delete" w1).2 in
  (IndexManager.update_docs_in_index_record "acme" "notes" "add"
     Scenario.uploaded_world).1 = Ok true
  ∧ (IndexManager.update_docs_in_index_record "acme" "notes" "delete" w1).1 = Ok true
  ∧ (∃ r', World.indexes w2 !! "acme" = Some r'
           ∧ IndexRecord.document_ids r'
             ≡ₚ IndexRecord.document_ids Scenario.acme_registry
           ∧ ("notes" ∉ IndexRecord.document_ids Scenario.acme_registry
              → r' = Scenario.acme_registry))
  ∧ (∀ other, other ≠ "acme" →
       World.indexes w2 !! other = World.indexes Scenario.uploaded_world !! other).
Proof.
  apply (X10_registry_add_then_delete Scenario.uploaded_world "acme" "notes"
           Scenario.acme_registry).
  vm_compute; reflexivity.
Defined.

(** ** Chunk ids across documents *)

Lemma pretty_N_char_digit x : is_digit (pretty_N_char x).
Proof.
  unfold pretty_N_char, is_digit.
  repeat case_match; apply (bool_decide_unpack _); by vm_compute.
Qed.

Lemma pretty_N_go_digits x s :
  Forall is_digit (list_ascii_of_string s) →
  Forall is_digit (list_ascii_of_string (pretty_N_go x s)).
Proof.
  revert s. induction (N.lt_wf_0 x) as [x _ IH]; intros s Hs.
  assert (x = 0 ∨ 0 < x)%N as [->|Hpos] by lia.
  - by rewrite pretty_N_go_0.
  - rewrite pretty_N_go_step by done. apply IH.
    + by apply N.div_lt.
    + simpl. constructor; [apply pretty_N_char_digit | done].
Qed.

Lemma pretty_nat_digits (n : nat) : Forall is_digit (list_ascii_of_string (pretty n)).
Proof.
  unfold pretty, pretty_nat, pretty, pretty_N.
  destruct (decide (N.of_nat n = 0%N)).
  - constructor; [|constructor]. apply (bool_decide_unpack _). by vm_compute.
  - apply pretty_N_go_digits. constructor.
Qed.

Lemma digits_prefix_unique (x y : list ascii) a r r' :
  Forall is_digit x → Forall is_digit y → ¬ is_digit a →
  x ++ a :: r = y ++ a :: r' → x = y ∧ r = r'.
Proof.
  intros Hx. revert y. induction Hx as [|c x Hc Hx IH]; intros y Hy Ha Heq.
  - destruct Hy as [|d y Hd Hy]; simpl in *.
    + by injection Heq as ->.
    + injection Heq as -> _. done.
  - destruct Hy as [|d y Hd Hy]; simpl in *.
    + injection Heq as -> _. done.
    + injection Heq as -> Heq. destruct (IH y Hy Ha Heq) as [-> ->]. done.
Qed.

Lemma chars_inj s1 s2 : list_ascii_of_string s1 = list_ascii_of_string s2 → s1 = s2.
Proof.
  intros H. rewrite <- (string_of_list_ascii_of_string s1),
    <- (string_of_list_ascii_of_string s2). by rewrite H.
Qed.

(** A chunk id tells its document id and its position. *)
Lemma chunk_id_inj2 d1 d2 i j :
  DocumentProcessor._generate_chunk_id d1 i = DocumentProcessor._generate_chunk_id d2 j →
  d1 = d2 ∧ i = j.
Proof.
  unfold DocumentProcessor._generate_chunk_id. intros Heq.
  apply (f_equal list_ascii_of_string) in Heq. rewrite !chars_app in Heq.
  apply (f_equal reverse) in Heq. rewrite !reverse_app in Heq.
  change (reverse (list_ascii_of_string "_chunk_"))
    with ("_"%char :: reverse (list_ascii_of_string "_chunk")) in Heq.
  rewrite <- !(assoc_L (++)) in Heq. simpl in Heq.
  apply digits_prefix_unique in Heq as [Hp Hd].
  - apply (inj reverse) in Hp. apply chars_inj in Hp. apply (inj pretty) in Hp.
    split; [|done]. apply chars_inj. by simplify_eq.
  - apply Forall_reverse, pretty_nat_digits.
  - apply Forall_reverse, pretty_nat_digits.
  - unfold is_digit. intros H. by apply (bool_decide_pack _) in H.
Qed.

Section ChunkIds.
Context {E : Type}.
Variable loader_load : FileType → string → list LangchainDocument.t.
Variable split_documents : Splitter → list LangchainDocument.t → list LangchainDocument.t.
Variable embed_texts : list string → list E.
Variable getsize : string → option nat.

Lemma convert_from_ids now document_id account_id user_id is_global session_id
    langchain_docs (embeddings : list E) idx :
  Document.chunk_id
    <$> DocumentProcessor.convert_from now idx langchain_docs embeddings
          document_id account_id user_id is_global session_id
  = DocumentProcessor._generate_chunk_id document_id
      <$> seq idx (length langchain_docs `min` length embeddings).
Proof.
  revert embeddings idx.
  induction langchain_docs as [|d docs IH]; intros embeddings idx; [done|].
  destruct embeddings as [|e embeddings]; [done|]. simpl. f_equal. apply IH.
Qed.

Lemma process_document_inv now file account_id user_id is_global session_id units :
  DocumentProcessor.process_document loader_load split_documents embed_texts getsize
    now file account_id user_id is_global session_id = Ok units →
  ∃ chunks embeddings,
    units = DocumentProcessor.convert_from now 0 chunks embeddings (stem file)
              account_id user_id is_global session_id.
Proof.
  unfold DocumentProcessor.process_document, DocumentProcessor._load_document,
    DocumentProcessor._chunk_document, DocumentProcessor._convert_to_documents,
    get_loader.
  destruct (FileType_from_path file) as [ft|]; [|done].
  destruct ft; try done; simpl; intros [= <-]; by eexists _, _.
Qed.

Lemma process_document_chunk_ids now file account_id user_id is_global session_id units :
  DocumentProcessor.process_document loader_load split_documents embed_texts getsize
    now file account_id user_id is_global session_id = Ok units →
  ∃ n, Document.chunk_id <$> units
       = DocumentProcessor._generate_chunk_id (stem file) <$> seq 0 n.
Proof.
  intros (chunks & embeddings & ->)%process_document_inv.
  eexists. apply convert_from_ids.
Qed.

Lemma process_document_document_id now file account_id user_id is_global session_id
    units u :
  DocumentProcessor.process_document loader_load split_documents embed_texts getsize
    now file account_id user_id is_global session_id = Ok units →
  u ∈ units → Document.document_id u = stem file.
Proof.
  intros (chunks & embeddings & ->)%process_document_inv. apply convert_from_document_id.
Qed.

Lemma generated_ids_NoDup document_id n :
  NoDup (DocumentProcessor._generate_chunk_id document_id <$> seq 0 n).
Proof.
  apply NoDup_fmap_2; [|apply NoDup_seq].
  intros i j Heq. by apply chunk_id_inj2 in Heq as [_ ?].
Qed.

Lemma process_documents_inv now files account_id user_id is_global session_id all :
  ProcessorBatch.process_documents loader_load split_documents embed_texts getsize
    now files account_id user_id is_global session_id = Ok all →
  ∃ per_file,
    Forall2 (λ file units,
               DocumentProcessor.process_document loader_load split_documents
                 embed_texts getsize now file account_id user_id is_global session_id
               = Ok units) files per_file
    ∧ all = concat per_file.
Proof.
  revert all. induction files as [|file files IH]; intros all; simpl.
  - intros [= <-]. exists []. by split; [constructor|].
  - destruct (DocumentProcessor.process_document _ _ _ _ _ file _ _ _ _)
      as [units|] eqn:Hfile; [|done].
    destruct (ProcessorBatch.process_documents _ _ _ _ _ files _ _ _ _)
      as [rest|]; [|done].
    intros [= <-]. destruct (IH rest eq_refl) as (per_file & Hall & ->).
    exists (units :: per_file). by split; [constructor|].
Qed.

(** X11. A chunk id tells the document id and the position it was made
    from: [_generate_chunk_id] gives the same id only for the same
    document id and the same index. So the units [process_document]
    returns for one file have pairwise distinct chunk ids, and the units
    [process_documents] returns for a batch of files with pairwise
    distinct stems have pairwise distinct chunk ids as well: in an index
    keyed by chunk id no unit of the batch replaces another. The batch is
    the units of its files, in the order of the files. *)
Theorem X11_chunk_ids_never_collide now account_id user_id is_global session_id :
  (∀ d1 d2 i j,
     DocumentProcessor._generate_chunk_id d1 i = DocumentProcessor._generate_chunk_id d2 j
     ↔ d1 = d2 ∧ i = j)
  ∧ (∀ file units,
       DocumentProcessor.process_document loader_load split_documents embed_texts
         getsize now file account_id user_id is_global session_id = Ok units →
       NoDup (Document.chunk_id <$> units))
  ∧ (∀ files all,
       ProcessorBatch.process_documents loader_load split_documents embed_texts
         getsize now files account_id user_id is_global session_id = Ok all →
       (∃ per_file,
          Forall2 (λ file units,
                     DocumentProcessor.process_document loader_load split_documents
                       embed_texts getsize now file account_id user_id is_global
                       session_id = Ok units) files per_file
          ∧ all = concat per_file)
       ∧ (NoDup (stem <$> files) → NoDup (Document.chunk_id <$> all))).
Proof.
  split; [|split].
  - intros d1 d2 i j. split; [apply chunk_id_inj2 | by intros [-> ->]].
  - intros file units [n Hids]%process_document_chunk_ids.
    rewrite Hids. apply generated_ids_NoDup.
  - intros files all Hall. split; [by apply process_documents_inv|].
    apply process_documents_inv in Hall as (per_file & Hall & ->).
    induction Hall as [|file units files per_file Hfile Hall IH]; simpl.
    { intros _. constructor. }
    intros [Hfresh Hnd]%NoDup_cons. rewrite fmap_app. apply NoDup_app.
    split; [|split; [|by apply IH]].
    + destruct (process_document_chunk_ids _ _ _ _ _ _ _ Hfile) as [n ->].
      apply generated_ids_NoDup.
    + intros cid Hhere Hthere.
      destruct (process_document_chunk_ids _ _ _ _ _ _ _ Hfile) as [n Hids].
      rewrite Hids in Hhere.
      apply list_elem_of_fmap in Hhere as (i & -> & _).
      apply list_elem_of_fmap in Hthere as (u & Hcid & Hu).
      apply list_elem_of_In, in_concat in Hu as (units' & Hunits' & Hu).
      apply list_elem_of_In in Hunits', Hu.
      apply list_elem_of_lookup in Hunits' as [k Hk].
      destruct (Forall2_lookup_r _ _ _ _ _ Hall Hk) as (file' & Hfile' & Hproc).
      destruct (process_document_chunk_ids _ _ _ _ _ _ _ Hproc) as [m Hids'].
      assert (Hin : Document.chunk_id u ∈ Document.chunk_id <$> units')
        by by apply list_elem_of_fmap_2.
      rewrite Hids', <- Hcid in Hin.
      apply list_elem_of_fmap in Hin as (j & Hij & _).
      apply chunk_id_inj2 in Hij as [Hstem _].
      apply Hfresh. rewrite Hstem. apply list_elem_of_fmap_2.
      by eapply list_elem_of_lookup_2.
Qed.
End ChunkIds.

(** ** The units of an index *)

Section IndexUnits.
Context {E : Type}.
Implicit Type w : World.t E.
Implicit Type units documents : list (Document.t E).

Lemma first_key_in_fields fields k :
  AISearchIndexClient.first_key fields = Some k → k ∈ SearchField.name <$> fields.
Proof.
  unfold AISearchIndexClient.first_key.
  destruct (List.find SearchField.key fields) as [f|] eqn:Hfind; [|done].
  intros [= <-]. apply find_some in Hfind as [Hin _].
  apply list_elem_of_fmap_2. by apply list_elem_of_In.
Qed.

Lemma with_log_same w : World.with_log w (World.log w) = w.
Proof. by destruct w. Qed.

Lemma convert_docs_keyed w index_name idx documents k :
  World.search w !! index_name = Some idx →
  AISearchIndexClient.first_key (SearchIndex.fields idx) = Some k →
  mapM (AISearchIndexClient.convert_doc_to_search_record index_name) documents w
  = (Ok (Some <$> documents), w).
Proof.
  intros Hidx Hkey. induction documents as [|d documents IH]; [done|]. simpl.
  assert (Hd : AISearchIndexClient.convert_doc_to_search_record index_name d w
               = (Ok (Some d), w)).
  { unfold AISearchIndexClient.convert_doc_to_search_record,
      AISearchIndexClient._get_primary_key. munfold. simpl. rewrite Hidx. simpl.
    rewrite Hidx, Hkey.
    by rewrite (bool_decide_eq_true_2 _ (first_key_in_fields _ _ Hkey)). }
  rewrite (run_bind_ok _ _ _ _ _ Hd), (run_bind_ok _ _ _ _ _ IH). done.
Qed.

Lemma omap_id_Some {A} (l : list A) : omap id (Some <$> l) = l.
Proof. induction l as [|x l IH]; [done|]. simpl. by f_equal. Qed.

(** Indexing into an index that has a key field. *)
Lemma index_documents_keyed w index_name idx documents k :
  World.search w !! index_name = Some idx →
  AISearchIndexClient.first_key (SearchIndex.fields idx) = Some k →
  AISearchIndexClient.index_documents index_name documents w
  = (Ok ((λ d, IndexingResponse.mk true (Document.chunk_id d) None) <$> documents),
     World.with_search w
       (<[index_name := SearchIndex.mk (SearchIndex.fields idx)
                          (foldl AISearchIndexClient.upsert_unit (SearchIndex.docs idx)
                             documents)]> (World.search w))).
Proof.
  intros Hidx Hkey. unfold AISearchIndexClient.index_documents.
  rewrite (run_bind_ok _ _ w (Some k) w);
    [|unfold AISearchIndexClient._get_primary_key; munfold; by rewrite Hidx, Hkey].
  rewrite (run_bind_ok _ _ _ _ _ (convert_docs_keyed w index_name idx documents k Hidx Hkey)).
  rewrite omap_id_Some.
  unfold AISearchIndexClient.upload_documents. munfold. by rewrite Hidx.
Qed.

Lemma filter_ext_in {A} (P Q : A → Prop) `{∀ x, Decision (P x)} `{∀ x, Decision (Q x)}
    (l : list A) :
  (∀ x, x ∈ l → P x ↔ Q x) → filter P l = filter Q l.
Proof.
  induction l as [|x l IH]; intros Hext; [done|].
  rewrite !filter_cons.
  rewrite IH by (intros y Hy; apply Hext; by right).
  destruct (decide (P x)) as [HP|HP], (decide (Q x)) as [HQ|HQ]; try done.
  - exfalso. apply HQ, Hext; [left | done].
  - exfalso. apply HP, Hext; [left | done].
Qed.

Lemma filter_all {A} (P : A → Prop) `{∀ x, Decision (P x)} (l : list A) :
  (∀ x, x ∈ l → P x) → filter P l = l.
Proof.
  induction l as [|x l IH]; intros Hall; [done|].
  rewrite filter_cons_True by (apply Hall; left).
  rewrite IH; [done|]. intros y Hy. apply Hall. by right.
Qed.

Lemma filter_none {A} (P : A → Prop) `{∀ x, Decision (P x)} (l : list A) :
  (∀ x, x ∈ l → ¬ P x) → filter P l = [].
Proof.
  induction l as [|x l IH]; intros Hall; [done|].
  rewrite filter_cons_False by (apply Hall; left).
  apply IH. intros y Hy. apply Hall. by right.
Qed.

(** The service's upsert of a batch without repeated chunk ids: the
    units with one of the batch's chunk ids are replaced, the others stay
    in front. *)
Lemma foldl_upsert units documents :
  NoDup (Document.chunk_id <$> documents) →
  foldl AISearchIndexClient.upsert_unit units documents
  = filter (λ x, Document.chunk_id x ∉ Document.chunk_id <$> documents) units
    ++ documents.
Proof.
  revert units. induction documents as [|d documents IH]; intros units Hnd; simpl.
  - rewrite app_nil_r. symmetry. apply filter_all. intros x _. apply not_elem_of_nil.
  - apply NoDup_cons in Hnd as [Hd Hnd]. rewrite (IH _ Hnd).
    unfold AISearchIndexClient.upsert_unit.
    rewrite filter_app, list_filter_filter.
    rewrite (filter_all _ [d]) by (by intros x ->%list_elem_of_singleton).
    rewrite <- (assoc_L (++)). simpl. f_equal.
    apply list_filter_iff. intros x. rewrite not_elem_of_cons. tauto.
Qed.

Lemma NoDup_fmap_eq {A B} (f : A → B) (l : list A) x y :
  NoDup (f <$> l) → x ∈ l → y ∈ l → f x = f y → x = y.
Proof.
  induction l as [|z l IH]; simpl; [by intros _ ?%elem_of_nil|].
  intros [Hz Hnd]%NoDup_cons [->|Hx]%elem_of_cons [->|Hy]%elem_of_cons Heq; [done|..].
  - exfalso. apply Hz. rewrite Heq. by apply list_elem_of_fmap_2.
  - exfalso. apply Hz. rewrite <- Heq. by apply list_elem_of_fmap_2.
  - by apply IH.
Qed.

(** With chunk ids that are unique in the index, deleting the chunks
    found for a document id removes the units of that document and no
    other. *)
Lemma remaining_units_unique document_id units :
  NoDup (Document.chunk_id <$> units) →
  remaining_units document_id units
  = filter (λ u, Document.document_id u ≠ document_id) units.
Proof.
  intros Hnd. unfold remaining_units. apply filter_ext_in. intros x Hx. split.
  - intros Hkey Hid. apply Hkey. apply list_elem_of_fmap_2.
    by apply list_elem_of_filter.
  - intros Hid Hkey. apply list_elem_of_fmap in Hkey as (y & Hxy & Hy).
    apply list_elem_of_filter in Hy as [Hyd Hy].
    by rewrite (NoDup_fmap_eq _ _ x y Hnd Hx Hy Hxy) in Hid.
Qed.

End IndexUnits.

(** ** Deleting next to other documents *)

Section DeleteOthers.
Context {E : Type}.
Implicit Type w : World.t E.

(** X13. An authorized delete removes nothing but the document: in an
    index keyed by chunk_id whose chunk ids are unique, the units kept are
    exactly the units of the other document ids, in their order; the
    records of the other documents, the indexes and registry records of
    the other tenants and the customer collection are the ones before. *)
Theorem X13_delete_keeps_other_documents w customer document_id user_id rec idx r :
  World.documents w !! document_id = Some rec →
  DocumentRecord.user_id rec = user_id →
  World.search w !! customer = Some idx →
  AISearchIndexClient.first_key (SearchIndex.fields idx) = Some "chunk_id" →
  World.indexes w !! customer = Some r →
  document_id ∈ IndexRecord.document_ids r →
  NoDup (Document.chunk_id <$> SearchIndex.docs idx) →
  ∃ w',
    AzureDocumentManager.delete customer document_id user_id w = (Ok (), w')
    ∧ World.search w' !! customer
      = Some (SearchIndex.mk (SearchIndex.fields idx)
                (filter (λ u, Document.document_id u ≠ document_id)
                   (SearchIndex.docs idx)))
    ∧ (∀ other, other ≠ document_id →
         World.documents w' !! other = World.documents w !! other)
    ∧ (∀ other, other ≠ customer →
         World.search w' !! other = World.search w !! other
         ∧ World.indexes w' !! other = World.indexes w !! other)
    ∧ World.customers w' = World.customers w.
Proof.
  intros Hrec Huser Hidx Hkey Hreg Hin Hnd.
  destruct (list_remove_Some _ _ Hin) as [ids Hrm].
  destruct (blob_step_frame w (DocumentRecord.document_url rec))
    as (Hc1 & Hi1 & Hd1 & Hs1).
  eexists. split.
  { by apply (delete_authorized w customer document_id user_id rec idx r ids). }
  unfold deleted, registry_written. simpl.
  rewrite lookup_insert_eq, (remaining_units_unique _ _ Hnd), Hd1, Hs1, Hi1, Hc1.
  split; [done|]. split; [|split; [|done]].
  - intros other Hother. by rewrite lookup_delete_ne.
  - intros other Hother. by rewrite !lookup_insert_ne.
Qed.
End DeleteOthers.

Lemma X13_witness :
  ∃ w',
    AzureDocumentManager.delete "acme" "report" "u1" Scenario.uploaded_world = (Ok (), w')
    ∧ World.search w' !! "acme"
      = Some (SearchIndex.mk (SearchIndex.fields Scenario.acme_index)
                (filter (λ u, Document.document_id u ≠ "report")
                   (SearchIndex.docs Scenario.acme_index)))
    ∧ (∀ other, other ≠ "report" →
         World.documents w' !! other = World.documents Scenario.uploaded_world !! other)
    ∧ (∀ other, other ≠ "acme" →
         World.search w' !! other = World.search Scenario.uploaded_world !! other
         ∧ World.indexes w' !! other = World.indexes Scenario.uploaded_world !! other)
    ∧ World.customers w' = World.customers Scenario.uploaded_world.
Proof.
  apply (X13_delete_keeps_other_documents Scenario.uploaded_world "acme" "report" "u1"
           Scenario.report_record Scenario.acme_index Scenario.acme_registry).
  - vm_compute; reflexivity.
  - reflexivity.
  - vm_compute; reflexivity.
  - reflexivity.
  - vm_compute; reflexivity.
  - by_decide.
  - by_decide.
Defined.

(** ** What an upload writes, and what a delete takes back *)

Section BlobKept.
Context {E : Type}.
Implicit Type w : World.t E.

Lemma extracted_name_is_segment container url :
  container ∉ str_split "/" (hd "" (str_split "?" url)) →
  "/"%char ∉ list_ascii_of_string
               (AzureBlobStorage._extract_blob_name_from_url container url).
Proof.
  intros Hseg. unfold AzureBlobStorage._extract_blob_name_from_url.
  rewrite (list_find_absent _ _ Hseg).
  pose proof (str_split_segments "/" (hd "" (str_split "?" url))) as Hall.
  rewrite Forall_forall in Hall.
  apply Hall, last_elem_of, str_split_nonempty.
Qed.

Lemma delete_file_keeps w container url b :
  b ≠ AzureBlobStorage._extract_blob_name_from_url container url →
  b ∈ World.blobs w →
  b ∈ World.blobs (AzureBlobStorage.delete_file container url w).2.
Proof.
  intros Hne Hin. unfold AzureBlobStorage.delete_file. munfold. simpl.
  destruct (World.blob_fault w); [done|].
  case_bool_decide; simpl; [|done]. set_solver.
Qed.

Lemma blob_step_keeps w url prefix name :
  AzureDocumentManager.blob_container ∉ str_split "/" (hd "" (str_split "?" url)) →
  prefix +:+ "/" +:+ name ∈ World.blobs w →
  prefix +:+ "/" +:+ name ∈ World.blobs (blob_step w url).
Proof.
  intros Hseg Hin. unfold blob_step. destruct (negb _); [|done].
  apply delete_file_keeps; [|done].
  intros Heq. apply (extracted_name_is_segment _ _ Hseg). rewrite <- Heq.
  rewrite !chars_app, !elem_of_app. right; left. simpl. left.
Qed.
End BlobKept.

Section UploadRun.
Context {E : Type}.
Variable loader_load : FileType → string → list LangchainDocument.t.
Variable split_documents : Splitter → list LangchainDocument.t → list LangchainDocument.t.
Variable embed_texts : list string → list E.
Variable getsize : string → option nat.
Implicit Type w : World.t E.

(** The stores after a successful upload. *)
Lemma upload_run w customer now index_name file
    account_id user_id session_id scope prefix size first rest idx k :
  (AzureDocumentManager.destination_prefix_for customer
     (Some account_id) (Some user_id) (Some session_id) scope w).1 = Ok prefix →
  DocumentProcessor.process_document loader_load split_documents embed_texts getsize
    now file (Some account_id) (Some user_id) (py_eq scope "global") (Some session_id)
  = Ok (first :: rest) →
  World.search w !! index_name = Some idx →
  AISearchIndexClient.first_key (SearchIndex.fields idx) = Some k →
  getsize file = Some size →
  ∃ w1,
    AzureDocumentManager.upload loader_load split_documents embed_texts getsize
      customer now index_name file
      (Some account_id) (Some user_id) (Some session_id) scope w = (Ok (), w1)
    ∧ World.customers w1 = World.customers w
    ∧ World.documents w1
      = <[Document.document_id first :=
            DocumentRecord.mk (Document.document_id first) customer index_name
              account_id user_id session_id (py_str scope)
              (path_join prefix file) (basename file) size true
              (Document.created_at first) (Document.chunk_id <$> first :: rest)]>
          (World.documents w)
    ∧ World.search w1
      = <[index_name :=
            SearchIndex.mk (SearchIndex.fields idx)
              (foldl AISearchIndexClient.upsert_unit (SearchIndex.docs idx)
                 (first :: rest))]> (World.search w)
    ∧ World.indexes w1
      = match World.indexes w !! customer with
        | Some r =>
            <[customer := IndexRecord.with_document_ids r
                            (IndexRecord.document_ids r ++ [Document.document_id first])]>
              (World.indexes w)
        | None => World.indexes w
        end
    ∧ World.blobs w1 = {[rstrip_slash prefix +:+ "/" +:+ basename file]} ∪ World.blobs w
    ∧ World.blob_fault w1 = World.blob_fault w.
Proof.
  intros Hprefix Hunits Hidx Hkey Hsize.
  assert (Hdpf : AzureDocumentManager.destination_prefix_for customer
                   (Some account_id) (Some user_id) (Some session_id) scope w
                 = (Ok prefix, w)).
  { pose proof (destination_prefix_for_frame w customer (Some account_id)
                  (Some user_id) (Some session_id) scope) as Hfr.
    destruct (AzureDocumentManager.destination_prefix_for _ _ _ _ _ w) as [r0 w0].
    simpl in *. by subst. }
  unfold AzureDocumentManager.upload.
  rewrite (run_bind_ok _ _ _ _ _ Hdpf).
  rewrite (run_bind_ok _ _ _ _ _ (upload_file_run getsize w file prefix size Hsize)).
  set (wa := logged _ _).
  assert (Hidxa : World.search wa !! index_name = Some idx) by done.
  rewrite (run_bind_ok _ _ wa (first :: rest) wa);
    [|by unfold lift; rewrite Hunits].
  rewrite (run_bind_ok _ _ wa first wa); [|done].
  rewrite (run_bind_ok _ _ _ _ _
             (index_documents_keyed wa index_name idx (first :: rest) k Hidxa Hkey)).
  set (wb := World.with_search wa _).
  rewrite Hsize.
  rewrite (run_bind_ok _ _ wb size wb); [|done].
  set (rec := DocumentRecord.mk _ _ _ _ _ _ _ _ _ _ _ _ _).
  rewrite (run_bind_ok _ _ wb rec wb); [|done].
  set (wc := (AzureDocumentManager._update_document_record rec wb).2).
  assert (AzureDocumentManager._update_document_record rec wb = (Ok true, wc)
          ∧ World.documents wc
            = <[Document.document_id first := rec]> (World.documents wb)
          ∧ World.customers wc = World.customers wb
          ∧ World.search wc = World.search wb
          ∧ World.indexes wc = World.indexes wb
          ∧ World.blobs wc = World.blobs wb
          ∧ World.blob_fault wc = World.blob_fault wb)
    as (Hupd & Hdocc & Hcusc & Hseac & Hindc & Hbloc & Hfauc).
  { subst wc. unfold AzureDocumentManager._update_document_record,
      CosmosDBClient.update_or_create_record. munfold. simpl.
    by destruct (World.documents w !! Document.document_id first). }
  rewrite (run_bind_ok _ _ _ _ _ Hupd).
  destruct (World.indexes w !! customer) as [r|] eqn:Hreg.
  - assert (Hregc : World.indexes wc !! customer = Some r) by by rewrite Hindc.
    rewrite (run_bind_ok _ _ _ _ _
               (update_docs_add wc customer (Document.document_id first) r Hregc)).
    eexists. split; [done|]. unfold registry_written. simpl.
    rewrite Hdocc, Hcusc, Hseac, Hindc, Hbloc, Hfauc. done.
  - assert (Hregc : World.indexes wc !! customer = None) by by rewrite Hindc.
    rewrite (run_bind_ok _ _ _ _ _
               (update_docs_missing_record wc customer (Document.document_id first)
                  "add" Hregc)).
    eexists. split; [done|]. simpl.
    rewrite Hdocc, Hcusc, Hseac, Hindc, Hbloc, Hfauc. done.
Qed.

(** X14. Documents are addressed by the stem of the file name alone: a
    successful upload writes its record under that stem, whoever owned a
    document of that stem before, in whatever scope and under whatever
    directory. The record then carries the uploader's user id, every unit
    of the upload is in the index, and a delete by any other user,
    the previous owner included, is refused and changes nothing. *)
Theorem X14_same_stem_takes_over w customer now index_name file
    account_id user_id session_id scope prefix size units idx other_user :
  (AzureDocumentManager.destination_prefix_for customer
     (Some account_id) (Some user_id) (Some session_id) scope w).1 = Ok prefix →
  DocumentProcessor.process_document loader_load split_documents embed_texts getsize
    now file (Some account_id) (Some user_id) (py_eq scope "global") (Some session_id)
  = Ok units →
  units ≠ [] →
  World.search w !! index_name = Some idx →
  AISearchIndexClient.first_key (SearchIndex.fields idx) = Some "chunk_id" →
  getsize file = Some size →
  other_user ≠ user_id →
  ∃ w1 rec idx1,
    AzureDocumentManager.upload loader_load split_documents embed_texts getsize
      customer now index_name file
      (Some account_id) (Some user_id) (Some session_id) scope w = (Ok (), w1)
    ∧ World.documents w1 !! stem file = Some rec
    ∧ DocumentRecord.document_id rec = stem file
    ∧ DocumentRecord.user_id rec = user_id
    ∧ World.search w1 !! index_name = Some idx1
    ∧ (∀ u, u ∈ units → u ∈ SearchIndex.docs idx1)
    ∧ AzureDocumentManager.delete customer (stem file) other_user w1
      = (Raise (delete_refused (stem file)), w1).
Proof.
  intros Hprefix Hunits Hsome Hidx Hkey Hsize Hother.
  destruct units as [|first rest]; [done|]. clear Hsome.
  destruct (upload_run w customer now index_name file account_id user_id session_id
              scope prefix size first rest idx "chunk_id" Hprefix Hunits Hidx Hkey Hsize)
    as (w1 & Hup & _ & Hdocs & Hsearch & _).
  assert (Hstem : Document.document_id first = stem file).
  { eapply process_document_document_id; [exact Hunits | left]. }
  rewrite Hstem in Hdocs.
  assert (Hndu : NoDup (Document.chunk_id <$> first :: rest)).
  { destruct (process_document_chunk_ids _ _ _ _ _ _ _ _ _ _ _ Hunits) as [n ->].
    apply generated_ids_NoDup. }
  rewrite (foldl_upsert _ _ Hndu) in Hsearch.
  eexists w1, _, _. split; [done|].
  rewrite Hdocs, Hsearch, !lookup_insert_eq.
  do 4 (split; [done|]). split.
  - intros u Hu. apply elem_of_app. by right.
  - apply delete_unauthorized. rewrite Hdocs, lookup_insert_eq. simpl.
    apply String.eqb_neq. congruence.
Qed.

(** X15. An upload followed by the uploader's delete gives back every
    store but the blob store. For a tenant whose index is keyed by
    chunk_id with unique chunk ids and whose registry record exists, and a
    file whose stem is new to the document records, the registry and the
    index: both calls succeed, and the customer collection, the document
    records, the indexes of the search service and the registry are
    exactly the ones before the upload. The blob the upload stored is
    still stored, because the location recorded for it is not a URL of
    the container. *)
Theorem X15_upload_then_delete w customer now file
    account_id user_id session_id scope prefix size units idx r :
  (AzureDocumentManager.destination_prefix_for customer
     (Some account_id) (Some user_id) (Some session_id) scope w).1 = Ok prefix →
  DocumentProcessor.process_document loader_load split_documents embed_texts getsize
    now file (Some account_id) (Some user_id) (py_eq scope "global") (Some session_id)
  = Ok units →
  units ≠ [] →
  World.search w !! customer = Some idx →
  AISearchIndexClient.first_key (SearchIndex.fields idx) = Some "chunk_id" →
  getsize file = Some size →
  World.indexes w !! customer = Some r →
  stem file ∉ IndexRecord.document_ids r →
  World.documents w !! stem file = None →
  NoDup (Document.chunk_id <$> SearchIndex.docs idx) →
  (∀ u, u ∈ SearchIndex.docs idx →
     Document.document_id u ≠ stem file
     ∧ Document.chunk_id u ∉ Document.chunk_id <$> units) →
  AzureDocumentManager.blob_container
    ∉ str_split "/" (hd "" (str_split "?" (path_join prefix file))) →
  ∃ w1 w2,
    AzureDocumentManager.upload loader_load split_documents embed_texts getsize
      customer now customer file
      (Some account_id) (Some user_id) (Some session_id) scope w = (Ok (), w1)
    ∧ AzureDocumentManager.delete customer (stem file) user_id w1 = (Ok (), w2)
    ∧ World.customers w2 = World.customers w
    ∧ World.documents w2 = World.documents w
    ∧ World.search w2 = World.search w
    ∧ World.indexes w2 = World.indexes w
    ∧ rstrip_slash prefix +:+ "/" +:+ basename file ∈ World.blobs w1
    ∧ rstrip_slash prefix +:+ "/" +:+ basename file ∈ World.blobs w2.
Proof.
  intros Hprefix Hunits Hsome Hidx Hkey Hsize Hreg Hnew Hnone Hnd Hfresh Hseg.
  destruct units as [|first rest]; [done|]. clear Hsome.
  destruct (upload_run w customer now customer file account_id user_id session_id
              scope prefix size first rest idx "chunk_id" Hprefix Hunits Hidx Hkey Hsize)
    as (w1 & Hup & Hcus & Hdocs & Hsearch & Hindexes & Hblobs & _).
  assert (Hstem : Document.document_id first = stem file).
  { eapply process_document_document_id; [exact Hunits | left]. }
  rewrite Hstem in Hdocs, Hindexes. rewrite Hreg in Hindexes.
  assert (Hndu : NoDup (Document.chunk_id <$> first :: rest)).
  { destruct (process_document_chunk_ids _ _ _ _ _ _ _ _ _ _ _ Hunits) as [n ->].
    apply generated_ids_NoDup. }
  rewrite (foldl_upsert _ _ Hndu) in Hsearch.
  rewrite (filter_all _ (SearchIndex.docs idx)) in Hsearch
    by (intros u Hu; by apply Hfresh).
  set (rec := DocumentRecord.mk _ _ _ _ _ _ _ _ _ _ _ _ _) in Hdocs.
  set (idx1 := SearchIndex.mk _ _) in Hsearch.
  set (r1 := IndexRecord.with_document_ids _ _) in Hindexes.
  destruct (list_remove_app_last (stem file) (IndexRecord.document_ids r))
    as (ids & Hrm & _ & Heq).
  rewrite (Heq Hnew) in Hrm. clear Heq ids.
  assert (Hdel : AzureDocumentManager.delete customer (stem file) user_id w1
                 = (Ok (),
                    deleted (blob_step w1 (DocumentRecord.document_url rec))
                      customer (stem file) idx1 r1 (IndexRecord.document_ids r))).
  { apply delete_authorized.
    - by rewrite Hdocs, lookup_insert_eq.
    - done.
    - by rewrite Hsearch, lookup_insert_eq.
    - done.
    - by rewrite Hindexes, lookup_insert_eq.
    - subst r1. by destruct r. }
  destruct (blob_step_frame w1 (path_join prefix file))
    as (Hc1 & Hi1 & Hd1 & Hs1).
  assert (Hin1 : rstrip_slash prefix +:+ "/" +:+ basename file ∈ World.blobs w1).
  { rewrite Hblobs. apply elem_of_union. left. by apply elem_of_singleton. }
  exists w1, (deleted (blob_step w1 (DocumentRecord.document_url rec))
                customer (stem file) idx1 r1 (IndexRecord.document_ids r)).
  split; [done|]. split; [done|].
  unfold deleted, registry_written. simpl. rewrite Hc1, Hd1, Hs1, Hi1.
  split; [done|]. split; [|split; [|split; [|split; [done|]]]].
  - rewrite Hdocs. by apply delete_insert_id.
  - rewrite Hsearch, insert_insert_eq. apply insert_id. rewrite Hidx. f_equal.
    assert (Hnd1 : NoDup (Document.chunk_id
                            <$> SearchIndex.docs idx ++ first :: rest)).
    { rewrite fmap_app. apply NoDup_app. split; [done|]. split; [|done].
      intros cid (u & -> & Hu)%list_elem_of_fmap. by apply Hfresh. }
    rewrite (remaining_units_unique _ _ Hnd1), filter_app.
    rewrite (filter_all _ (SearchIndex.docs idx)) by (intros u Hu; by apply Hfresh).
    rewrite (filter_none _ (first :: rest)).
    + rewrite app_nil_r. by destruct idx.
    + intros u Hu Hne. apply Hne.
      by eapply process_document_document_id.
  - rewrite Hindexes, insert_insert_eq. apply insert_id. rewrite Hreg. f_equal.
    subst r1. by destruct r.
  - by apply blob_step_keeps.
Qed.
End UploadRun.

Lemma X14_witness :
  let units :=
    match DocumentProcessor.process_document Scenario.txt_loader Scenario.word_splitter
            Scenario.length_embedder Scenario.known_size "t2" "acme/u2/s9/report.txt"
            (Some "a1") (Some "u2") false (Some "s9") with
    | Ok units => units
    | Raise _ => []
    end in
  World.documents Scenario.uploaded_world !! "report" = Some Scenario.report_record
  ∧ ∃ w1 rec idx1,
      AzureDocumentManager.upload Scenario.txt_loader Scenario.word_splitter
        Scenario.length_embedder Scenario.known_size "acme" "t2" "acme"
        "acme/u2/s9/report.txt" (Some "a1") (Some "u2") (Some "s9") (Some "session")
        Scenario.uploaded_world = (Ok (), w1)
      ∧ World.documents w1 !! stem "acme/u2/s9/report.txt" = Some rec
      ∧ DocumentRecord.document_id rec = stem "acme/u2/s9/report.txt"
      ∧ DocumentRecord.user_id rec = "u2"
      ∧ World.search w1 !! "acme" = Some idx1
      ∧ (∀ u, u ∈ units → u ∈ SearchIndex.docs idx1)
      ∧ AzureDocumentManager.delete "acme" (stem "acme/u2/s9/report.txt") "u1" w1
        = (Raise (delete_refused (stem "acme/u2/s9/report.txt")), w1).
Proof.
  intros units. split; [vm_compute; reflexivity|].
  apply (X14_same_stem_takes_over Scenario.txt_loader Scenario.word_splitter
           Scenario.length_embedder Scenario.known_size Scenario.uploaded_world
           "acme" "t2" "acme" "acme/u2/s9/report.txt" "a1" "u2" "s9" (Some "session")
           "acme/a1/u2/s9" 10 units Scenario.acme_index "u1").
  - vm_compute; reflexivity.
  - vm_compute; reflexivity.
  - discriminate.
  - vm_compute; reflexivity.
  - reflexivity.
  - reflexivity.
  - discriminate.
Defined.

Lemma X15_witness :
  ∃ w1 w2,
    AzureDocumentManager.upload Scenario.txt_loader Scenario.word_splitter
      Scenario.length_embedder Scenario.known_size "acme" "t2" "acme" "acme/u1/notes.txt"
      (Some "a1") (Some "u1") (Some "s1") (Some "session") Scenario.uploaded_world
    = (Ok (), w1)
    ∧ AzureDocumentManager.delete "acme" (stem "acme/u1/notes.txt") "u1" w1 = (Ok (), w2)
    ∧ World.customers w2 = World.customers Scenario.uploaded_world
    ∧ World.documents w2 = World.documents Scenario.uploaded_world
    ∧ World.search w2 = World.search Scenario.uploaded_world
    ∧ World.indexes w2 = World.indexes Scenario.uploaded_world
    ∧ rstrip_slash "acme/a1/u1/s1" +:+ "/" +:+ basename "acme/u1/notes.txt"
      ∈ World.blobs w1
    ∧ rstrip_slash "acme/a1/u1/s1" +:+ "/" +:+ basename "acme/u1/notes.txt"
      ∈ World.blobs w2.
Proof.
  apply (X15_upload_then_delete Scenario.txt_loader Scenario.word_splitter
           Scenario.length_embedder Scenario.known_size Scenario.uploaded_world
           "acme" "t2" "acme/u1/notes.txt" "a1" "u1" "s1" (Some "session")
           "acme/a1/u1/s1" 10
           (match DocumentProcessor.process_document Scenario.txt_loader
                    Scenario.word_splitter Scenario.length_embedder Scenario.known_size
                    "t2" "acme/u1/notes.txt" (Some "a1") (Some "u1") false (Some "s1")
            with Ok units => units | Raise _ => [] end)
           Scenario.acme_index Scenario.acme_registry).
  - vm_compute; reflexivity.
  - vm_compute; reflexivity.
  - discriminate.
  - vm_compute; reflexivity.
  - reflexivity.
  - reflexivity.
  - vm_compute; reflexivity.
  - by_decide.
  - vm_compute; reflexivity.
  - by_decide.
  - apply Forall_forall. by_decide.
  - by_decide.
Defined.

(** ** The filter and the search *)








Section Search.
Context {E S : Type}.
Variable embed_text : string → E.
Variable service_search :
  string → option string → nat → option string → E → list (QueryEngine.Hit S) * nat.
Implicit Type w : World.t E.

(** X17. [search] answers only for the vector strategy. It returns a
    response exactly when parameters are given, their strategy is the
    vector one and the scope filter is built; the response then carries
    the hits of the service for that filter, in their order, with the
    total the service counted, and the world is untouched. With the
    text or the hybrid strategy, and with no parameters at all, it
    raises. The search route always asks for the vector strategy, so it
    answers exactly when the filter of the scope is built. *)
Theorem X17_search_answers_only_vector w index_name query
    account_id user_id session_id scope search_params :
  (∀ response w',
     QueryEngine.search embed_text service_search index_name query
       account_id user_id session_id scope search_params w = (Ok response, w')
     ↔ ∃ p f,
         search_params = Some p
         ∧ QueryEngine.search_strategy p = QueryEngine.Given QueryEngine.VECTOR
         ∧ _build_filter_expression account_id user_id session_id scope
             (QueryEngine.filters p) = Ok f
         ∧ response
           = QueryEngine.mkSearchResponse
               ((λ hit, QueryEngine.mkResult (QueryEngine.hit_document_id hit)
                          (QueryEngine.hit_content hit) (QueryEngine.hit_score hit)
                          (QueryEngine.hit_chunk_id hit))
                  <$> (service_search index_name f (QueryEngine.top_k p)
                         (QueryEngine.sort_by p) (embed_text query)).1)
               (service_search index_name f (QueryEngine.top_k p)
                  (QueryEngine.sort_by p) (embed_text query)).2
         ∧ w' = w)
  ∧ (∀ customer_id account top_k,
       QueryEngine.search_documents embed_text service_search query customer_id account
         user_id session_id scope top_k w
       = (match _build_filter_expression (Some account) user_id session_id scope [] with
          | Ok f =>
              Ok (QueryEngine.mkSearchResponse
                    ((λ hit, QueryEngine.mkResult (QueryEngine.hit_document_id hit)
                               (QueryEngine.hit_content hit) (QueryEngine.hit_score hit)
                               (QueryEngine.hit_chunk_id hit))
                       <$> (service_search customer_id f top_k None (embed_text query)).1)
                    (service_search customer_id f top_k None (embed_text query)).2)
          | Raise e => Raise e
          end, w)).
Proof.
  split.
  - intros response w'. unfold QueryEngine.search. munfold.
    destruct search_params as [p|]; simpl.
    + destruct (_build_filter_expression _ _ _ _ (QueryEngine.filters p)) as [f|e] eqn:Hf.
      * destruct (QueryEngine.search_strategy p) as [[| |]|] eqn:Hs; simpl.
        -- split; [done|]. intros (p' & f' & [= <-] & Hs' & _). congruence.
        -- destruct (service_search index_name f _ _ _) as [hits count] eqn:Hhits.
           split.
           ++ intros [= <- <-]. exists p, f. rewrite Hhits. done.
           ++ intros (p' & f' & [= <-] & _ & Hf' & Hr & Hw). subst response w'.
              rewrite Hf in Hf'. injection Hf' as <-. by rewrite Hhits.
        -- split; [done|]. intros (p' & f' & [= <-] & Hs' & _). congruence.
        -- split; [done|]. intros (p' & f' & [= <-] & Hs' & _). congruence.
      * split; [done|]. intros (p' & f' & [= <-] & _ & Hf' & _). congruence.
    + split.
      * destruct (_build_filter_expression _ _ _ _ _); simpl; done.
      * intros (p' & f' & Hp & _). done.
  - intros customer_id account top_k.
    unfold QueryEngine.search_documents, QueryEngine.search. munfold. simpl.
    destruct (_build_filter_expression _ _ _ _ _) as [f|e]; [|done].
    by destruct (service_search customer_id f top_k None (embed_text query)).
Qed.
End Search.

(** ** Scopes that are not one of the four *)

Section UnknownScope.
Context {E : Type}.
Variable loader_load : FileType → string → list LangchainDocument.t.
Variable split_documents : Splitter → list LangchainDocument.t → list LangchainDocument.t.
Variable embed_texts : list string → list E.
Variable getsize : string → option nat.
Implicit Type w : World.t E.

(** X18. A scope that is none of account, user and session, be it
    misspelt or [None], is read differently by the two sides. The filter
    of a search treats it as the global scope, whatever identifiers are
    given: the search runs over the global documents. The upload accepts
    only the word global there: with any other value it raises an
    assertion error before anything is written. *)
Theorem X18_unknown_scope_search_lenient_upload_strict w customer now index_name file
    account_id user_id session_id scope :
  py_eq scope "account" = false →
  py_eq scope "user" = false →
  py_eq scope "session" = false →
  _build_filter_expression account_id user_id session_id scope []
  = Ok (Some "is_global eq true")
  ∧ (py_eq scope "global" = false →
     AzureDocumentManager.upload loader_load split_documents embed_texts getsize
       customer now index_name file account_id user_id session_id scope w
     = (Raise (AssertionError ""), w))
  ∧ (py_eq scope "global" = true →
     AzureDocumentManager.destination_prefix_for customer
       account_id user_id session_id scope w = (Ok customer, w)).
Proof.
  intros Ha Hu Hs. split; [|split].
  - unfold _build_filter_expression, scope_conditions. by rewrite Ha, Hu, Hs.
  - intros Hg. apply upload_refused.
    unfold AzureDocumentManager.destination_prefix_for. by rewrite Ha, Hu, Hs, Hg.
  - intros Hg. unfold AzureDocumentManager.destination_prefix_for.
    by rewrite Ha, Hu, Hs, Hg.
Qed.
End UnknownScope.

Lemma X18_witness :
  _build_filter_expression (Some "a1") (Some "u1") (Some "s1") (Some "Session") []
  = Ok (Some "is_global eq true")
  ∧ (py_eq (Some "Session") "global" = false →
     Scenario.upload_report (Some "a1") (Some "u1") (Some "s1") (Some "Session")
       Scenario.acme_world
     = (Raise (AssertionError ""), Scenario.acme_world))
  ∧ (py_eq (Some "Session") "global" = true →
     AzureDocumentManager.destination_prefix_for "acme"
       (Some "a1") (Some "u1") (Some "s1") (Some "Session") Scenario.acme_world
     = (Ok "acme", Scenario.acme_world)).
Proof.
  apply (X18_unknown_scope_search_lenient_upload_strict Scenario.txt_loader
           Scenario.word_splitter Scenario.length_embedder Scenario.known_size
           Scenario.acme_world "acme" "t1" "acme" "acme/u1/report.txt"
           (Some "a1") (Some "u1") (Some "s1") (Some "Session")); reflexivity.
Defined.

(** ** The request boundary *)

Section RouteProperties.
Context {E : Type}.
Variable default_index_fields : list IndexField.t.
Implicit Type w : World.t E.

Lemma register_customer_new w customer_id index_config :
  registered w customer_id = false →
  CustomerIndexSchemaManager.register_customer customer_id index_config w
  = (Ok true,
     logged
       (World.with_customers
          (logged w [(WARNING, "Customer with id '" +:+ customer_id +:+ "' not found.")])
          (<[customer_id := Customer.mk customer_id (Some index_config)]>
             (World.customers w)))
       [(INFO, "Registered customer: " +:+ customer_id)]).
Proof.
  intros Hnew. unfold CustomerIndexSchemaManager.register_customer.
  rewrite (run_bind_ok _ _ _ _ _ (customer_exists_run w customer_id)).
  rewrite Hnew. unfold CosmosDBClient.insert_record. by munfold.
Qed.

Lemma register_customer_known w customer_id index_config :
  registered w customer_id = true →
  CustomerIndexSchemaManager.register_customer customer_id index_config w
  = (Ok false,
     logged w [(ERROR, "Customer with name '" +:+ customer_id +:+ "' already exists")]).
Proof.
  intros Hreg. unfold CustomerIndexSchemaManager.register_customer.
  rewrite (run_bind_ok _ _ _ _ _ (customer_exists_run w customer_id)).
  rewrite Hreg. by munfold.
Qed.

(** X19. Creating an account for a tenant that is not registered and has
    no index answers 200 and provisions it: the default configuration
    (the given fields, 1536 vector dimensions, the default strategy
    without key) is stored; the index exists without units, with one
    search field per default field, in order, carrying the field's name,
    the search type of its type and its four flags, followed by the
    1536-dimensional vector field [embedding]; and the registry record
    lists the account and no document. Creating an account again for the
    same tenant, also for another account and admin, answers the same 200
    and writes nothing but one error to the log: the registry still lists
    the first account only. *)
Theorem X19_create_account_provisions_once w now customer_id account_id admin_id
    now' account_id' admin_id' :
  registered w customer_id = false →
  World.search w !! customer_id = None →
  let first :=
    Routes.create_account default_index_fields now customer_id account_id admin_id w in
  let second :=
    Routes.create_account default_index_fields now' customer_id account_id' admin_id'
      first.2 in
  first.1
  = Ok (Routes.mkResponse 200
          ("message", "Account created successfully for customer: " +:+ customer_id))
  ∧ stored_config first.2 customer_id
    = Some (IndexConfig.mk (IndexSchema.mk default_index_fields (Some 1536))
              (IndexingStrategyConfig.mk DEFAULT None)
              (Some "Default index configuration.") [])
  ∧ (∃ idx,
       World.search first.2 !! customer_id = Some idx
       ∧ SearchIndex.docs idx = []
       ∧ (∀ i f,
            default_index_fields !! i = Some f →
            SearchIndex.fields idx !! i
            = Some (SearchField.mk (IndexField.name f)
                      (match IndexField.field_type f with
                       | TString => EdmString
                       | TDate => EdmDateTimeOffset
                       | TInteger => EdmInt32
                       | TFloat => EdmDouble
                       | TBoolean => EdmBoolean
                       end)
                      (IndexField.filterable f) (IndexField.searchable f)
                      (IndexField.sortable f) (IndexField.primary_key f) None None))
       ∧ drop (length default_index_fields) (SearchIndex.fields idx)
         = [SearchField.mk "embedding" CollectionSingle false false false false
              (Some 1536) (Some "my-vector-search-profile")])
  ∧ World.indexes first.2 !! customer_id
    = Some (IndexRecord.mk customer_id customer_id [account_id] [] now now admin_id)
  ∧ second.1 = first.1
  ∧ second.2
    = logged first.2
        [(ERROR, "Customer with name '" +:+ customer_id +:+ "' already exists")].
Proof.
  intros Hnew Habs.
  set (cfg := CustomerAdmin.create_default_index default_index_fields).
  assert (Hvalid : IndexConfig_parse_obj cfg = Ok cfg) by done.
  pose proof (register_customer_new w customer_id cfg Hnew) as Hreg.
  set (w1 := logged _ _) in Hreg.
  assert (Hcfg1 : stored_config w1 customer_id = Some cfg).
  { unfold stored_config. subst w1. simpl. rewrite lookup_insert_eq. simpl.
    by rewrite String.eqb_refl. }
  pose proof (create_new_index_absent w1 customer_id account_id now admin_id cfg
                Hcfg1 Hvalid Habs) as Hnewidx.
  set (w2 := index_created w1 customer_id account_id now admin_id cfg) in *.
  assert (Hfirst : Routes.create_account default_index_fields now customer_id
                     account_id admin_id w
                   = (Ok (Routes.mkResponse 200
                            ("message", "Account created successfully for customer: "
                                        +:+ customer_id)), w2)).
  { unfold Routes.create_account, try_except. fold cfg.
    rewrite (run_bind_ok _ _ _ _ _ Hreg), (run_bind_ok _ _ _ _ _ Hnewidx). done. }
  rewrite Hfirst. simpl.
  assert (Hcfg2 : stored_config w2 customer_id = Some cfg) by done.
  assert (Hreg2 : registered w2 customer_id = true).
  { unfold registered. subst w2 w1. simpl. rewrite lookup_insert_eq. simpl.
    by rewrite String.eqb_refl. }
  assert (Hidx2 : World.search w2 !! customer_id
                  = Some (SearchIndex.mk
                            (AISearchIndexClient.define_azure_fields
                               (IndexConfig.index_schema cfg)) [])).
  { subst w2. unfold index_created. simpl. by rewrite lookup_insert_eq. }
  split; [done|]. split; [done|]. split.
  { eexists. split; [exact Hidx2|]. split; [done|]. split.
    - intros i f Hf.
      by apply (define_azure_fields_lookup (IndexConfig.index_schema cfg) i f).
    - apply (define_azure_fields_rest (IndexConfig.index_schema cfg)). }
  split.
  { subst w2. unfold index_created. simpl. by rewrite lookup_insert_eq. }
  pose proof (register_customer_known w2 customer_id cfg Hreg2) as Hagain.
  set (w3 := logged w2 _) in *.
  assert (Hpresent : IndexManager.create_new_index customer_id account_id' now'
                       admin_id' w3 = (Ok (), w3)).
  { apply (create_new_index_present w3 customer_id account_id' now' admin_id' cfg).
    - done.
    - done.
    - eexists. exact Hidx2. }
  assert (Hsecond : Routes.create_account default_index_fields now' customer_id
                      account_id' admin_id' w2
                    = (Ok (Routes.mkResponse 200
                             ("message", "Account created successfully for customer: "
                                         +:+ customer_id)), w3)).
  { unfold Routes.create_account, try_except. fold cfg.
    rewrite (run_bind_ok _ _ _ _ _ Hagain), (run_bind_ok _ _ _ _ _ Hpresent). done. }
  rewrite Hsecond. done.
Qed.

(** An authorized delete of a document the registry does not list: the
    chunks and the record are removed, then the registry update raises. *)
Lemma delete_unlisted w customer document_id user_id rec idx r :
  World.documents w !! document_id = Some rec →
  DocumentRecord.user_id rec = user_id →
  World.search w !! customer = Some idx →
  AISearchIndexClient.first_key (SearchIndex.fields idx) = Some "chunk_id" →
  World.indexes w !! customer = Some r →
  document_id ∉ IndexRecord.document_ids r →
  let w1 := blob_step w (DocumentRecord.document_url rec) in
  AzureDocumentManager.delete customer document_id user_id w
  = (Raise (ValueError "list.remove(x): x not in list"),
     World.with_documents
       (World.with_search w1
          (<[customer := SearchIndex.mk (SearchIndex.fields idx)
                           (remaining_units document_id (SearchIndex.docs idx))]>
             (World.search w1)))
       (delete document_id (World.documents w1))).
Proof.
  intros Hrec Huser Hidx Hkey Hreg Hnot.
  destruct (blob_step_frame w (DocumentRecord.document_url rec))
    as (_ & Hi1 & Hd1 & Hs1).
  set (w1 := blob_step w (DocumentRecord.document_url rec)) in *.
  cbv zeta.
  assert (Hidx1 : World.search w1 !! customer = Some idx) by by rewrite Hs1.
  destruct (delete_document_chunks w1 customer document_id idx Hidx1 Hkey)
    as [responses Hdel].
  assert (Hblob : AzureDocumentManager.delete_blob (DocumentRecord.document_url rec) w
                  = (Ok (), w1)).
  { subst w1. unfold blob_step, AzureDocumentManager.delete_blob.
    destruct (negb _); [|done].
    destruct (delete_file_frame w AzureDocumentManager.blob_container
                (DocumentRecord.document_url rec)) as (b & Hb & _).
    munfold. destruct (AzureBlobStorage.delete_file _ _ w) as [r0 w']. simpl in *.
    by rewrite Hb. }
  unfold AzureDocumentManager.delete.
  rewrite (run_bind_ok _ _ w (Some rec) w);
    [|unfold CosmosDBClient.get_record; munfold; simpl; by rewrite Hrec].
  simpl. rewrite Huser, String.eqb_refl.
  rewrite (run_bind_ok _ _ _ _ _ Hblob), (run_bind_ok _ _ _ _ _ Hdel).
  set (w2 := World.with_search w1 _).
  assert (Hrecdel : CosmosDBClient.delete_record document_collection document_id w2
                    = (Ok true,
                       World.with_documents w2
                         (delete document_id (World.documents w2)))).
  { unfold CosmosDBClient.delete_record. munfold. simpl.
    rewrite Hd1, Hrec. by rewrite bool_decide_eq_true_2. }
  rewrite (run_bind_ok _ _ _ _ _ Hrecdel).
  set (w3 := World.with_documents w2 _).
  assert (Hreg3 : World.indexes w3 !! customer = Some r)
    by (simpl; by rewrite Hi1).
  apply run_bind_raise.
  apply (update_docs_delete_unlisted w3 customer document_id r Hreg3 Hnot).
Qed.

(** X20. The delete route turns every failure into a 500 response that
    carries the text of the exception, and a 500 does not mean that
    nothing was deleted. For an authorized request on a document that
    the registry record does not list, the answer is 500 with the text of
    the failed [list.remove], while the document record and every unit of
    the document are gone; the registry is as before. The same request
    again, and the request of any other user before, is answered 500 with
    the refusal that names only the document id, and changes nothing. *)
Theorem X20_delete_route_failure_after_removal w customer_id account_id user_id
    document_id rec idx r :
  World.documents w !! document_id = Some rec →
  DocumentRecord.user_id rec = user_id →
  World.search w !! customer_id = Some idx →
  AISearchIndexClient.first_key (SearchIndex.fields idx) = Some "chunk_id" →
  World.indexes w !! customer_id = Some r →
  document_id ∉ IndexRecord.document_ids r →
  let answer := Routes.delete_document customer_id account_id user_id document_id w in
  answer.1 = Ok (Routes.mkResponse 500 ("error", "list.remove(x): x not in list"))
  ∧ World.documents answer.2 !! document_id = None
  ∧ (∃ idx', World.search answer.2 !! customer_id = Some idx'
             ∧ ∀ u, u ∈ SearchIndex.docs idx' → Document.document_id u ≠ document_id)
  ∧ World.indexes answer.2 = World.indexes w
  ∧ Routes.delete_document customer_id account_id user_id document_id answer.2
    = (Ok (Routes.mkResponse 500 ("error", exn_str (delete_refused document_id))),
       answer.2)
  ∧ (∀ other_user, other_user ≠ user_id →
       Routes.delete_document customer_id account_id other_user document_id w
       = (Ok (Routes.mkResponse 500 ("error", exn_str (delete_refused document_id))),
          w)).
Proof.
  intros Hrec Huser Hidx Hkey Hreg Hnot.
  pose proof (delete_unlisted w customer_id document_id user_id rec idx r
                Hrec Huser Hidx Hkey Hreg Hnot) as Hdel.
  cbv zeta in Hdel.
  destruct (blob_step_frame w (DocumentRecord.document_url rec))
    as (_ & Hi1 & Hd1 & Hs1).
  set (w1 := blob_step w (DocumentRecord.document_url rec)) in *.
  set (w3 := World.with_documents _ _) in Hdel.
  assert (Hroute : Routes.delete_document customer_id account_id user_id document_id w
                   = (Ok (Routes.mkResponse 500
                            ("error", "list.remove(x): x not in list")), w3)).
  { unfold Routes.delete_document, try_except.
    rewrite (run_bind_raise _ _ _ _ _ Hdel). done. }
  assert (Hrefuse : ∀ (w0 : World.t E) user,
            AzureDocumentManager.is_user_authorized user
              (World.documents w0 !! document_id) = false →
            Routes.delete_document customer_id account_id user document_id w0
            = (Ok (Routes.mkResponse 500
                     ("error", exn_str (delete_refused document_id))), w0)).
  { intros w0 user Hauth. unfold Routes.delete_document, try_except.
    rewrite (run_bind_raise _ _ _ _ _
               (delete_unauthorized w0 customer_id document_id user Hauth)). done. }
  cbv zeta. rewrite Hroute. simpl.
  split; [done|]. split; [by rewrite lookup_delete_eq|]. split; [|split; [done|split]].
  - eexists. rewrite lookup_insert_eq. split; [done|]. simpl.
    intros u. apply remaining_units_other.
  - apply Hrefuse. subst w3. simpl. by rewrite lookup_delete_eq.
  - intros other_user Hother. apply Hrefuse. rewrite Hrec. simpl.
    apply String.eqb_neq. congruence.
Qed.
End RouteProperties.

Lemma X19_witness :
  let fields := IndexSchema.fields (IndexConfig.index_schema Scenario.sample_config) in
  let first := Routes.create_account fields "t0" "acme" "a1" "admin" Scenario.empty_world in
  let second := Routes.create_account fields "t9" "acme" "a2" "root" first.2 in
  first.1
  = Ok (Routes.mkResponse 200
          ("message", "Account created successfully for customer: " +:+ "acme"))
  ∧ stored_config first.2 "acme"
    = Some (IndexConfig.mk (IndexSchema.mk fields (Some 1536))
              (IndexingStrategyConfig.mk DEFAULT None)
              (Some "Default index configuration.") [])
  ∧ (∃ idx,
       World.search first.2 !! "acme" = Some idx
       ∧ SearchIndex.docs idx = []
       ∧ (∀ i f,
            fields !! i = Some f →
            SearchIndex.fields idx !! i
            = Some (SearchField.mk (IndexField.name f)
                      (match IndexField.field_type f with
                       | TString => EdmString
                       | TDate => EdmDateTimeOffset
                       | TInteger => EdmInt32
                       | TFloat => EdmDouble
                       | TBoolean => EdmBoolean
                       end)
                      (IndexField.filterable f) (IndexField.searchable f)
                      (IndexField.sortable f) (IndexField.primary_key f) None None))
       ∧ drop (length fields) (SearchIndex.fields idx)
         = [SearchField.mk "embedding" CollectionSingle false false false false
              (Some 1536) (Some "my-vector-search-profile")])
  ∧ World.indexes first.2 !! "acme"
    = Some (IndexRecord.mk "acme" "acme" ["a1"] [] "t0" "t0" "admin")
  ∧ second.1 = first.1
  ∧ second.2
    = logged first.2 [(ERROR, "Customer with name '" +:+ "acme" +:+ "' already exists")].
Proof.
  intros fields.
  apply (X19_create_account_provisions_once fields Scenario.empty_world
           "t0" "acme" "a1" "admin" "t9" "a2" "root"); reflexivity.
Defined.

Lemma X20_witness :
  let w :=
    (IndexManager.update_docs_in_index_record "acme" "report" "delete"
       Scenario.uploaded_world).2 in
  let answer := Routes.delete_document "acme" "a1" "u1" "report" w in
  answer.1 = Ok (Routes.mkResponse 500 ("error", "list.remove(x): x not in list"))
  ∧ World.documents answer.2 !! "report" = None
  ∧ (∃ idx', World.search answer.2 !! "acme" = Some idx'
             ∧ ∀ u, u ∈ SearchIndex.docs idx' → Document.document_id u ≠ "report")
  ∧ World.indexes answer.2 = World.indexes w
  ∧ Routes.delete_document "acme" "a1" "u1" "report" answer.2
    = (Ok (Routes.mkResponse 500 ("error", exn_str (delete_refused "report"))), answer.2)
  ∧ (∀ other_user, other_user ≠ "u1" →
       Routes.delete_document "acme" "a1" other_user "report" w
       = (Ok (Routes.mkResponse 500 ("error", exn_str (delete_refused "report"))), w)).
Proof.
  intros w.
  apply (X20_delete_route_failure_after_removal w "acme" "a1" "u1" "report"
           Scenario.report_record Scenario.acme_index
           (IndexRecord.mk "acme" "acme" ["a1"] [] "t0" "t0" "admin")).
  - vm_compute; reflexivity.
  - reflexivity.
  - vm_compute; reflexivity.
  - reflexivity.
  - vm_compute; reflexivity.
  - apply not_elem_of_nil.
Defined.

(** ** Uploads without a session id *)

Section NoSession.
Context {E : Type}.
Variable loader_load : FileType → string → list LangchainDocument.t.
Variable split_documents : Splitter → list LangchainDocument.t → list LangchainDocument.t.
Variable embed_texts : list string → list E.
Variable getsize : string → option nat.
Implicit Type w : World.t E.

(** An upload whose document record is refused: the blob is stored and
    the units are indexed by then. *)
Lemma upload_record_refused w customer now index_name file
    account_id user_id session_id scope prefix size first rest idx k e :
  AzureDocumentManager.destination_prefix_for customer
    account_id user_id session_id scope w = (Ok prefix, w) →
  DocumentProcessor.process_document loader_load split_documents embed_texts getsize
    now file account_id user_id (py_eq scope "global") session_id
  = Ok (first :: rest) →
  World.search w !! index_name = Some idx →
  AISearchIndexClient.first_key (SearchIndex.fields idx) = Some k →
  getsize file = Some size →
  DocumentRecord_new (Document.document_id first) customer index_name
    account_id user_id session_id (py_str scope)
    (path_join prefix file) (basename file) size
    true (Document.created_at first) (Document.chunk_id <$> first :: rest) = Raise e →
  AzureDocumentManager.upload loader_load split_documents embed_texts getsize
    customer now index_name file account_id user_id session_id scope w
  = (Raise e,
     World.with_search (AzureBlobStorage.upload_file getsize file prefix w).2
       (<[index_name := SearchIndex.mk (SearchIndex.fields idx)
                          (foldl AISearchIndexClient.upsert_unit (SearchIndex.docs idx)
                             (first :: rest))]> (World.search w))).
Proof.
  intros Hdpf Hunits Hidx Hkey Hsize Hnew.
  unfold AzureDocumentManager.upload.
  rewrite (run_bind_ok _ _ _ _ _ Hdpf).
  rewrite (upload_file_run getsize w file prefix size Hsize).
  rewrite (run_bind_ok _ _ _ _ _ (upload_file_run getsize w file prefix size Hsize)).
  simpl. set (wa := logged _ _).
  assert (Hidxa : World.search wa !! index_name = Some idx) by done.
  rewrite (run_bind_ok _ _ wa (first :: rest) wa);
    [|by unfold lift; rewrite Hunits].
  rewrite (run_bind_ok _ _ wa first wa); [|done].
  rewrite (run_bind_ok _ _ _ _ _
             (index_documents_keyed wa index_name idx (first :: rest) k Hidxa Hkey)).
  set (wb := World.with_search wa _).
  rewrite Hsize.
  rewrite (run_bind_ok _ _ wb size wb); [|done].
  apply run_bind_raise. unfold lift. by rewrite Hnew.
Qed.

(** X21. A request to index a document that carries no session id
    fails at every scope whose checks it passes, and only after the file
    was stored and indexed: the route raises the validation error of the
    document record, which wants a session id, while the blob is in the
    blob store and every unit of the file is in the tenant's index. No
    document record and no registry entry is written, so the delete
    route, which goes by the document record, refuses to remove these
    units when no older record of that name exists. *)
Theorem X21_index_document_without_session w now customer_id account_id user_id
    file_name scope prefix size units idx :
  let file := Routes.saved_file_path customer_id user_id None file_name in
  plain_segment customer_id → plain_segment user_id → plain_segment file_name →
  (AzureDocumentManager.destination_prefix_for customer_id
     (Some account_id) (Some user_id) None scope w).1 = Ok prefix →
  DocumentProcessor.process_document loader_load split_documents embed_texts getsize
    now file (Some account_id) (Some user_id) (py_eq scope "global") None = Ok units →
  units ≠ [] →
  World.search w !! customer_id = Some idx →
  AISearchIndexClient.first_key (SearchIndex.fields idx) = Some "chunk_id" →
  getsize file = Some size →
  let answer :=
    Routes.index_document loader_load split_documents embed_texts getsize
      now customer_id account_id user_id file_name None scope w in
  answer.1 = Raise (ValidationError "DocumentRecord" ["session_id"])
  ∧ rstrip_slash prefix +:+ "/" +:+ basename file ∈ World.blobs answer.2
  ∧ (∃ idx', World.search answer.2 !! customer_id = Some idx'
             ∧ ∀ u, u ∈ units → u ∈ SearchIndex.docs idx')
  ∧ World.documents answer.2 = World.documents w
  ∧ World.indexes answer.2 = World.indexes w
  ∧ (World.documents w !! stem file = None →
     ∀ user,
       Routes.delete_document customer_id account_id user (stem file) answer.2
       = (Ok (Routes.mkResponse 500 ("error", exn_str (delete_refused (stem file)))),
          answer.2)).
Proof.
  intros file _ _ _ Hprefix Hunits Hsome Hidx Hkey Hsize.
  destruct units as [|first rest]; [done|]. clear Hsome.
  assert (Hdpf : AzureDocumentManager.destination_prefix_for customer_id
                   (Some account_id) (Some user_id) None scope w = (Ok prefix, w)).
  { pose proof (destination_prefix_for_frame w customer_id (Some account_id)
                  (Some user_id) None scope) as Hfr.
    destruct (AzureDocumentManager.destination_prefix_for _ _ _ _ _ w) as [r0 w0].
    simpl in *. by subst. }
  pose proof (upload_record_refused w customer_id now customer_id file
                (Some account_id) (Some user_id) None scope prefix size first rest
                idx "chunk_id" (ValidationError "DocumentRecord" ["session_id"])
                Hdpf Hunits Hidx Hkey Hsize eq_refl) as Hup.
  assert (Hndu : NoDup (Document.chunk_id <$> first :: rest)).
  { destruct (process_document_chunk_ids _ _ _ _ _ _ _ _ _ _ _ Hunits) as [n ->].
    apply generated_ids_NoDup. }
  rewrite (foldl_upsert _ _ Hndu) in Hup.
  rewrite (upload_file_run getsize w file prefix size Hsize) in Hup. simpl in Hup.
  set (w1 := World.with_search _ _) in Hup.
  assert (Hroute : Routes.index_document loader_load split_documents embed_texts
                     getsize now customer_id account_id user_id file_name None scope w
                   = (Raise (ValidationError "DocumentRecord" ["session_id"]), w1)).
  { unfold Routes.index_document. fold file.
    by rewrite (run_bind_raise _ _ _ _ _ Hup). }
  cbv zeta. rewrite Hroute. simpl.
  split; [done|]. split; [|split; [|split; [done|split; [done|]]]].
  - apply elem_of_union. left. by apply elem_of_singleton.
  - eexists. rewrite lookup_insert_eq. split; [done|]. simpl.
    intros u Hu. apply elem_of_app. by right.
  - intros Hnone user. unfold Routes.delete_document, try_except.
    rewrite (run_bind_raise _ _ _ _ _
               (delete_unauthorized w1 customer_id (stem file) user
                  ltac:(simpl; by rewrite Hnone))). done.
Qed.
End NoSession.

Lemma X21_witness :
  let file := Routes.saved_file_path "acme" "u1" None "notes.txt" in
  let units :=
    match DocumentProcessor.process_document Scenario.txt_loader Scenario.word_splitter
            Scenario.length_embedder Scenario.known_size "t3" file
            (Some "a1") (Some "u1") true None with
    | Ok units => units
    | Raise _ => []
    end in
  let answer :=
    Routes.index_document Scenario.txt_loader Scenario.word_splitter
      Scenario.length_embedder Scenario.known_size
      "t3" "acme" "a1" "u1" "notes.txt" None (Some "global") Scenario.uploaded_world in
  length units = 2
  ∧ answer.1 = Raise (ValidationError "DocumentRecord" ["session_id"])
  ∧ rstrip_slash "acme" +:+ "/" +:+ basename file ∈ World.blobs answer.2
  ∧ (∃ idx', World.search answer.2 !! "acme" = Some idx'
             ∧ ∀ u, u ∈ units → u ∈ SearchIndex.docs idx')
  ∧ World.documents answer.2 = World.documents Scenario.uploaded_world
  ∧ World.indexes answer.2 = World.indexes Scenario.uploaded_world
  ∧ (World.documents Scenario.uploaded_world !! stem file = None →
     ∀ user,
       Routes.delete_document "acme" "a1" user (stem file) answer.2
       = (Ok (Routes.mkResponse 500 ("error", exn_str (delete_refused (stem file)))),
          answer.2)).
Proof.
  intros file units. split; [reflexivity|].
  apply (X21_index_document_without_session Scenario.txt_loader Scenario.word_splitter
           Scenario.length_embedder Scenario.known_size Scenario.uploaded_world
           "t3" "acme" "a1" "u1" "notes.txt" (Some "global") "acme" 10 units
           Scenario.acme_index).
  - split; [discriminate|split; [discriminate|by_decide]].
  - split; [discriminate|split; [discriminate|by_decide]].
  - split; [discriminate|split; [discriminate|by_decide]].
  - vm_compute; reflexivity.
  - vm_compute; reflexivity.
  - discriminate.
  - vm_compute; reflexivity.
  - reflexivity.
  - reflexivity.
Defined.
